(** * mod_whisper: the ASR session driver of [src/mod_whisper.c]

    A shallow embedding of the session functions of the module
    ([whisper_open], [whisper_reset], [whisper_close], [whisper_feed],
    [whisper_check_results], [whisper_get_results], ...) and the
    properties of the session state machine that follow from them.

    Conventions.
    - [uint32_t] flag words and C [int]s are [Z]; the flag macros are the
      bit operations they expand to.
    - A [char *] is an [option string] ([None] is the NULL pointer); raw
      frame payloads and PCM data are [list byte].
    - Every call that leaves the module (websocket, voice-activity
      detector, mutex, buffer destructor) is recorded in a trace, and its
      answer is read from a script carried by the [world].
    - [switch_micro_time_now ()] is the argument [now] of the function
      that reads the clock. *)

From Stdlib Require Import ZArith List String Ascii Bool Lia DecimalString.
From Stdlib Require Import Strings.Byte.
Import ListNotations.
Open Scope Z_scope.

(** ** Status codes, opcodes and detector verdicts (host enumerations) *)

Inductive switch_status_t :=
| SWITCH_STATUS_SUCCESS
| SWITCH_STATUS_FALSE
| SWITCH_STATUS_MEMERR
| SWITCH_STATUS_GENERR
| SWITCH_STATUS_BREAK
| SWITCH_STATUS_MORE_DATA
| SWITCH_STATUS_TERM.

Inductive kws_opcode_t :=
| WSOC_CONTINUATION
| WSOC_TEXT
| WSOC_BINARY
| WSOC_CLOSE
| WSOC_PING
| WSOC_PONG.

Inductive switch_vad_state_t :=
| SWITCH_VAD_STATE_NONE
| SWITCH_VAD_STATE_START_TALKING
| SWITCH_VAD_STATE_TALKING
| SWITCH_VAD_STATE_STOP_TALKING
| SWITCH_VAD_STATE_ERROR.

Definition switch_status_eqb (a b : switch_status_t) : bool :=
  match a, b with
  | SWITCH_STATUS_SUCCESS, SWITCH_STATUS_SUCCESS
  | SWITCH_STATUS_FALSE, SWITCH_STATUS_FALSE
  | SWITCH_STATUS_MEMERR, SWITCH_STATUS_MEMERR
  | SWITCH_STATUS_GENERR, SWITCH_STATUS_GENERR
  | SWITCH_STATUS_BREAK, SWITCH_STATUS_BREAK
  | SWITCH_STATUS_MORE_DATA, SWITCH_STATUS_MORE_DATA
  | SWITCH_STATUS_TERM, SWITCH_STATUS_TERM => true
  | _, _ => false
  end.

(** A pointer to an object owned by a library: only whether it is NULL
    matters to the module. *)
Inductive ptr_t := NULL | LIVE.

(** ** Flag words *)

(** [#define AUDIO_BLOCK_SIZE 3200] *)
Definition AUDIO_BLOCK_SIZE : Z := 3200.

(** [whisper_flag_t] *)
Definition ASRFLAG_READY : Z := Z.shiftl 1 0.
Definition ASRFLAG_INPUT_TIMERS : Z := Z.shiftl 1 1.
Definition ASRFLAG_START_OF_SPEECH : Z := Z.shiftl 1 2.
Definition ASRFLAG_RETURNED_START_OF_SPEECH : Z := Z.shiftl 1 3.
Definition ASRFLAG_NOINPUT_TIMEOUT : Z := Z.shiftl 1 4.
Definition ASRFLAG_RESULT : Z := Z.shiftl 1 5.
Definition ASRFLAG_RETURNED_RESULT : Z := Z.shiftl 1 6.
Definition ASRFLAG_TIMEOUT : Z := Z.shiftl 1 7.

(** The host's flag macros: [((obj)->flags & flag)],
    [(obj)->flags |= (flag)] and [(obj)->flags &= ~(flag)].  On a
    non-negative word the last one agrees with the 32-bit operation. *)
Definition switch_test_flag (flags flag : Z) : bool :=
  negb (Z.land flags flag =? 0).
Definition switch_set_flag (flags flag : Z) : Z := Z.lor flags flag.
Definition switch_clear_flag (flags flag : Z) : Z := Z.land flags (Z.lnot flag).

(** A C [int] after an arithmetic step, reduced to its 32-bit
    two's-complement range. *)
Definition int_wrap (z : Z) : Z := (z + 2 ^ 31) mod 2 ^ 32 - 2 ^ 31.

(** ** Strings *)

(** The double-quote character, for the JSON texts. *)
Definition dq : string := String (ascii_of_nat 34) EmptyString.

(** [%s] of [switch_mprintf]: a NULL string prints as nothing. *)
Definition fmt_s (s : option string) : string :=
  match s with Some x => x | None => EmptyString end.

(** [zstr]: NULL or empty. *)
Definition zstr (s : string) : bool :=
  match s with EmptyString => true | _ => false end.

Definition to_lower (c : ascii) : ascii :=
  let n := nat_of_ascii c in
  if andb (Nat.leb 65 n) (Nat.leb n 90) then ascii_of_nat (n + 32) else c.

(** [!strcasecmp (a, b)] *)
Fixpoint strcaseeq (a b : string) : bool :=
  match a, b with
  | EmptyString, EmptyString => true
  | String x a', String y b' =>
      if Ascii.eqb (to_lower x) (to_lower y) then strcaseeq a' b' else false
  | _, _ => false
  end.

(** The bytes of a C string read from a buffer: everything before the
    first NUL ([strdup] of a frame body, which the websocket library
    terminates with a NUL). *)
Fixpoint c_str (bs : list byte) : string :=
  match bs with
  | [] => EmptyString
  | b :: bs' =>
      if Byte.eqb b x00 then EmptyString
      else String (ascii_of_byte b) (c_str bs')
  end.

(** [char buf[n] = ""; strcpy (buf, s)] written out whole: the text
    followed by NUL bytes up to [n] bytes. *)
Definition c_array (n : nat) (s : string) : list byte :=
  let bs := list_byte_of_string s in
  (bs ++ repeat x00 (n - List.length bs)%nat)%list.

(** ** The world outside the module *)

(** One entry per call that leaves the module.  Pointer arguments are
    recorded as they are passed, so a call on a released (NULL) object
    shows in the trace. *)
Inductive event :=
| EvMutexLock
| EvMutexUnlock
| EvKwsConnect (url : string)
| EvKwsClose (ws : ptr_t)
| EvKwsDestroy (ws : ptr_t)
| EvKwsWrite (oc : kws_opcode_t) (payload : list byte)
| EvKwsWait (ms : Z)
| EvKwsRead
| EvBufferCreate
| EvBufferDestroy (buffer : ptr_t)
| EvVadInit (rate : Z)
| EvVadSetMode (mode : Z)
| EvVadSetParam (key : string) (val : Z)
| EvVadReset
| EvVadProcess (samples : Z)
| EvVadDestroy.

(** The answers of the outside world, each list in call order, and the
    trace of the calls made so far (oldest first).
    - [w_alloc]: whether successive allocations succeed;
    - [w_connect]: whether [kws_connect_ex] returns [KS_STATUS_SUCCESS];
    - [w_vad]: the verdicts of [switch_vad_process];
    - [w_write]: the return values of [kws_write_frame];
    - [w_wait]: whether [kws_wait_sock] returns exactly [KS_POLL_READ];
    - [w_read]: the frames of [kws_read_frame], [None] for a negative
      length.
    A script that has run out answers with a failure (no memory, no
    connection, a write error, nothing to read) and the verdict
    [SWITCH_VAD_STATE_NONE]. *)
Record world := mk_world {
  w_alloc : list bool;
  w_connect : list bool;
  w_vad : list switch_vad_state_t;
  w_write : list Z;
  w_wait : list bool;
  w_read : list (option (kws_opcode_t * list byte));
  w_trace : list event
}.

Definition M (A : Type) : Type := world -> A * world.

Definition ret {A} (a : A) : M A := fun w => (a, w).

Definition bind {A B} (c : M A) (k : A -> M B) : M B :=
  fun w => let (a, w') := c w in k a w'.

Declare Scope whisper_scope.
Delimit Scope whisper_scope with whisper.
Notation "x <- c ;; k" := (bind c (fun x => k))
  (at level 61, c at next level, right associativity) : whisper_scope.
Notation "c ;; k" := (bind c (fun _ => k))
  (at level 61, right associativity) : whisper_scope.
Open Scope whisper_scope.

Definition emit (e : event) : M unit :=
  fun w => (tt, mk_world (w_alloc w) (w_connect w) (w_vad w) (w_write w)
                         (w_wait w) (w_read w) (w_trace w ++ [e])%list).

Definition pop_alloc : M bool :=
  fun w => (hd false (w_alloc w),
            mk_world (tl (w_alloc w)) (w_connect w) (w_vad w) (w_write w)
                     (w_wait w) (w_read w) (w_trace w)).

Definition pop_connect : M bool :=
  fun w => (hd false (w_connect w),
            mk_world (w_alloc w) (tl (w_connect w)) (w_vad w) (w_write w)
                     (w_wait w) (w_read w) (w_trace w)).

Definition pop_vad : M switch_vad_state_t :=
  fun w => (hd SWITCH_VAD_STATE_NONE (w_vad w),
            mk_world (w_alloc w) (w_connect w) (tl (w_vad w)) (w_write w)
                     (w_wait w) (w_read w) (w_trace w)).

Definition pop_write : M Z :=
  fun w => (hd (-1) (w_write w),
            mk_world (w_alloc w) (w_connect w) (w_vad w) (tl (w_write w))
                     (w_wait w) (w_read w) (w_trace w)).

Definition pop_wait : M bool :=
  fun w => (hd false (w_wait w),
            mk_world (w_alloc w) (w_connect w) (w_vad w) (w_write w)
                     (tl (w_wait w)) (w_read w) (w_trace w)).

Definition pop_read : M (option (kws_opcode_t * list byte)) :=
  fun w => (hd None (w_read w),
            mk_world (w_alloc w) (w_connect w) (w_vad w) (w_write w)
                     (w_wait w) (tl (w_read w)) (w_trace w)).

(** [kws_write_frame (ws, oc, data, len)]: the bytes handed over and the
    library's return value. *)
Definition kws_write_frame (oc : kws_opcode_t) (payload : list byte) : M Z :=
  emit (EvKwsWrite oc payload) ;; pop_write.

(** [kws_wait_sock (ws, ms, KS_POLL_READ | KS_POLL_ERROR) == KS_POLL_READ] *)
Definition kws_wait_sock (ms : Z) : M bool :=
  emit (EvKwsWait ms) ;; pop_wait.

(** [kws_read_frame (ws, &oc, &rdata)] *)
Definition kws_read_frame : M (option (kws_opcode_t * list byte)) :=
  emit EvKwsRead ;; pop_read.

(** [switch_vad_process (vad, data, samples)] *)
Definition switch_vad_process (samples : Z) : M switch_vad_state_t :=
  emit (EvVadProcess samples) ;; pop_vad.

(** ** What the module takes from libc and from the host

    Floating point, the number parsers and the host's truth test are
    used by the module as black boxes, and so are the two bits of the
    host's handle flag word that the module reads and writes. *)
Class Host := {
  double : Type;
  double_zero : double;
  double_87_3 : double;
  double_ge_zero : double -> bool;
  atof : string -> double;
  fmt_f : double -> string;
  atoi : string -> Z;
  switch_is_number : string -> bool;
  switch_true : string -> bool;
  SWITCH_ASR_FLAG_CLOSED : Z;
  SWITCH_ASR_FLAG_AUTO_RESUME : Z;
  SWITCH_ASR_FLAG_CLOSED_nonzero : SWITCH_ASR_FLAG_CLOSED <> 0
}.

(** ** A reference host

    The host functions as FreeSWITCH and libc define them, for running
    the module on concrete inputs.  [double] is stood for by a decimal
    fixed-point number with six fractional digits, the precision that
    [%f] prints. *)

Definition is_digit (c : ascii) : bool :=
  let n := nat_of_ascii c in andb (Nat.leb 48 n) (Nat.leb n 57).

Definition digit_val (c : ascii) : Z := Z.of_nat (nat_of_ascii c) - 48.

Fixpoint parse_digits (s : string) (acc : Z) : Z * string :=
  match s with
  | String c s' =>
      if is_digit c then parse_digits s' (10 * acc + digit_val c) else (acc, s)
  | EmptyString => (acc, s)
  end.

Definition is_space (c : ascii) : bool :=
  let n := nat_of_ascii c in orb (Nat.eqb n 32) (andb (Nat.leb 9 n) (Nat.leb n 13)).

Fixpoint skip_spaces (s : string) : string :=
  match s with
  | String c s' => if is_space c then skip_spaces s' else s
  | EmptyString => s
  end.

(** An optional sign: the factor and the rest of the text. *)
Definition parse_sign (s : string) : Z * string :=
  match s with
  | String "-"%char s' => (-1, s')
  | String "+"%char s' => (1, s')
  | _ => (1, s)
  end.

Definition ref_atoi (s : string) : Z :=
  let (sign, s1) := parse_sign (skip_spaces s) in
  int_wrap (sign * fst (parse_digits s1 0)).

Fixpoint all_number_chars (s : string) : bool :=
  match s with
  | String c s' =>
      if orb (Ascii.eqb c "."%char) (is_digit c) then all_number_chars s'
      else false
  | EmptyString => true
  end.

Definition ref_is_number (s : string) : bool :=
  all_number_chars (snd (parse_sign s)).

Definition ref_true (s : string) : bool :=
  strcaseeq s "yes" || strcaseeq s "on" || strcaseeq s "true"
  || strcaseeq s "t" || strcaseeq s "enabled" || strcaseeq s "active"
  || strcaseeq s "allow"
  || (ref_is_number s && negb (ref_atoi s =? 0)).

(** Up to six fractional digits, scaled to millionths. *)
Fixpoint parse_fraction (s : string) (scale : Z) (n : nat) : Z :=
  match n, s with
  | S n', String c s' =>
      if is_digit c then digit_val c * scale + parse_fraction s' (scale / 10) n'
      else 0
  | _, _ => 0
  end.

Definition ref_atof (s : string) : Z :=
  let (sign, s1) := parse_sign (skip_spaces s) in
  let (whole, s2) := parse_digits s1 0 in
  let frac := match s2 with
              | String "."%char s3 => parse_fraction s3 100000 6
              | _ => 0
              end in
  sign * (whole * 1000000 + frac).

Definition decimal (z : Z) : string :=
  NilZero.string_of_uint (N.to_uint (Z.to_N z)).

Definition ref_fmt_f (d : Z) : string :=
  let a := Z.abs d in
  let frac := decimal (1000000 + a mod 1000000) in
  let whole := decimal (a / 1000000) in
  let sign := if d <? 0 then "-"%string else EmptyString in
  (sign ++ whole ++ "."
   ++ match frac with String _ digits => digits | EmptyString => "" end)%string.

Definition ref_host : Host :=
  {| double := Z;
     double_zero := 0;
     double_87_3 := 87300000;
     double_ge_zero := fun d => d >=? 0;
     atof := ref_atof;
     fmt_f := ref_fmt_f;
     atoi := ref_atoi;
     switch_is_number := ref_is_number;
     switch_true := ref_true;
     SWITCH_ASR_FLAG_CLOSED := Z.shiftl 1 2;
     SWITCH_ASR_FLAG_AUTO_RESUME := Z.shiftl 1 4;
     SWITCH_ASR_FLAG_CLOSED_nonzero := ltac:(discriminate) |}.

Section Whisper.

Context {host : Host}.

(** ** The session: [whisper_t] and the host's handle *)

(** The [mutex] field is a constant pointer; locking and unlocking show
    in the trace. *)
Record whisper_t := mk_whisper {
  flags : Z;
  result_text : option string;
  result_confidence : double;
  thresh : Z;
  silence_ms : Z;
  voice_ms : Z;
  no_input_timeout : Z;
  speech_timeout : Z;
  start_input_timers : bool;
  no_input_time : Z;
  speech_time : Z;
  grammar : option string;
  channel_uuid : option string;
  vad : ptr_t;
  audio_buffer : option (list byte);
  ws : ptr_t;
  partial : Z
}.

Definition with_flags (c : whisper_t) (x : Z) : whisper_t :=
  mk_whisper x (result_text c) (result_confidence c) (thresh c) (silence_ms c)
    (voice_ms c) (no_input_timeout c) (speech_timeout c) (start_input_timers c)
    (no_input_time c) (speech_time c) (grammar c) (channel_uuid c) (vad c)
    (audio_buffer c) (ws c) (partial c).

Definition with_result_text (c : whisper_t) (x : option string) : whisper_t :=
  mk_whisper (flags c) x (result_confidence c) (thresh c) (silence_ms c)
    (voice_ms c) (no_input_timeout c) (speech_timeout c) (start_input_timers c)
    (no_input_time c) (speech_time c) (grammar c) (channel_uuid c) (vad c)
    (audio_buffer c) (ws c) (partial c).

Definition with_result_confidence (c : whisper_t) (x : double) : whisper_t :=
  mk_whisper (flags c) (result_text c) x (thresh c) (silence_ms c)
    (voice_ms c) (no_input_timeout c) (speech_timeout c) (start_input_timers c)
    (no_input_time c) (speech_time c) (grammar c) (channel_uuid c) (vad c)
    (audio_buffer c) (ws c) (partial c).

Definition with_thresh (c : whisper_t) (x : Z) : whisper_t :=
  mk_whisper (flags c) (result_text c) (result_confidence c) x (silence_ms c)
    (voice_ms c) (no_input_timeout c) (speech_timeout c) (start_input_timers c)
    (no_input_time c) (speech_time c) (grammar c) (channel_uuid c) (vad c)
    (audio_buffer c) (ws c) (partial c).

Definition with_silence_ms (c : whisper_t) (x : Z) : whisper_t :=
  mk_whisper (flags c) (result_text c) (result_confidence c) (thresh c) x
    (voice_ms c) (no_input_timeout c) (speech_timeout c) (start_input_timers c)
    (no_input_time c) (speech_time c) (grammar c) (channel_uuid c) (vad c)
    (audio_buffer c) (ws c) (partial c).

Definition with_voice_ms (c : whisper_t) (x : Z) : whisper_t :=
  mk_whisper (flags c) (result_text c) (result_confidence c) (thresh c)
    (silence_ms c) x (no_input_timeout c) (speech_timeout c)
    (start_input_timers c) (no_input_time c) (speech_time c) (grammar c)
    (channel_uuid c) (vad c) (audio_buffer c) (ws c) (partial c).

Definition with_no_input_timeout (c : whisper_t) (x : Z) : whisper_t :=
  mk_whisper (flags c) (result_text c) (result_confidence c) (thresh c)
    (silence_ms c) (voice_ms c) x (speech_timeout c) (start_input_timers c)
    (no_input_time c) (speech_time c) (grammar c) (channel_uuid c) (vad c)
    (audio_buffer c) (ws c) (partial c).

Definition with_speech_timeout (c : whisper_t) (x : Z) : whisper_t :=
  mk_whisper (flags c) (result_text c) (result_confidence c) (thresh c)
    (silence_ms c) (voice_ms c) (no_input_timeout c) x (start_input_timers c)
    (no_input_time c) (speech_time c) (grammar c) (channel_uuid c) (vad c)
    (audio_buffer c) (ws c) (partial c).

Definition with_start_input_timers (c : whisper_t) (x : bool) : whisper_t :=
  mk_whisper (flags c) (result_text c) (result_confidence c) (thresh c)
    (silence_ms c) (voice_ms c) (no_input_timeout c) (speech_timeout c) x
    (no_input_time c) (speech_time c) (grammar c) (channel_uuid c) (vad c)
    (audio_buffer c) (ws c) (partial c).

Definition with_no_input_time (c : whisper_t) (x : Z) : whisper_t :=
  mk_whisper (flags c) (result_text c) (result_confidence c) (thresh c)
    (silence_ms c) (voice_ms c) (no_input_timeout c) (speech_timeout c)
    (start_input_timers c) x (speech_time c) (grammar c) (channel_uuid c)
    (vad c) (audio_buffer c) (ws c) (partial c).

Definition with_speech_time (c : whisper_t) (x : Z) : whisper_t :=
  mk_whisper (flags c) (result_text c) (result_confidence c) (thresh c)
    (silence_ms c) (voice_ms c) (no_input_timeout c) (speech_timeout c)
    (start_input_timers c) (no_input_time c) x (grammar c) (channel_uuid c)
    (vad c) (audio_buffer c) (ws c) (partial c).

Definition with_grammar (c : whisper_t) (x : option string) : whisper_t :=
  mk_whisper (flags c) (result_text c) (result_confidence c) (thresh c)
    (silence_ms c) (voice_ms c) (no_input_timeout c) (speech_timeout c)
    (start_input_timers c) (no_input_time c) (speech_time c) x
    (channel_uuid c) (vad c) (audio_buffer c) (ws c) (partial c).

Definition with_channel_uuid (c : whisper_t) (x : option string) : whisper_t :=
  mk_whisper (flags c) (result_text c) (result_confidence c) (thresh c)
    (silence_ms c) (voice_ms c) (no_input_timeout c) (speech_timeout c)
    (start_input_timers c) (no_input_time c) (speech_time c) (grammar c) x
    (vad c) (audio_buffer c) (ws c) (partial c).

Definition with_vad (c : whisper_t) (x : ptr_t) : whisper_t :=
  mk_whisper (flags c) (result_text c) (result_confidence c) (thresh c)
    (silence_ms c) (voice_ms c) (no_input_timeout c) (speech_timeout c)
    (start_input_timers c) (no_input_time c) (speech_time c) (grammar c)
    (channel_uuid c) x (audio_buffer c) (ws c) (partial c).

Definition with_audio_buffer (c : whisper_t) (x : option (list byte))
  : whisper_t :=
  mk_whisper (flags c) (result_text c) (result_confidence c) (thresh c)
    (silence_ms c) (voice_ms c) (no_input_timeout c) (speech_timeout c)
    (start_input_timers c) (no_input_time c) (speech_time c) (grammar c)
    (channel_uuid c) (vad c) x (ws c) (partial c).

Definition with_ws (c : whisper_t) (x : ptr_t) : whisper_t :=
  mk_whisper (flags c) (result_text c) (result_confidence c) (thresh c)
    (silence_ms c) (voice_ms c) (no_input_timeout c) (speech_timeout c)
    (start_input_timers c) (no_input_time c) (speech_time c) (grammar c)
    (channel_uuid c) (vad c) (audio_buffer c) x (partial c).

Definition with_partial (c : whisper_t) (x : Z) : whisper_t :=
  mk_whisper (flags c) (result_text c) (result_confidence c) (thresh c)
    (silence_ms c) (voice_ms c) (no_input_timeout c) (speech_timeout c)
    (start_input_timers c) (no_input_time c) (speech_time c) (grammar c)
    (channel_uuid c) (vad c) (audio_buffer c) (ws c) x.

(** [switch_set_flag (context, f)] and [switch_clear_flag (context, f)] *)
Definition ctx_set_flag (c : whisper_t) (f : Z) : whisper_t :=
  with_flags c (switch_set_flag (flags c) f).
Definition ctx_clear_flag (c : whisper_t) (f : Z) : whisper_t :=
  with_flags c (switch_clear_flag (flags c) f).
Definition ctx_test_flag (c : whisper_t) (f : Z) : bool :=
  switch_test_flag (flags c) f.

(** The part of [switch_asr_handle_t] the module touches; [ah_flags] is
    the handle's own [flags] word. *)
Record switch_asr_handle_t := mk_handle {
  ah_flags : Z;
  ah_codec : option string;
  ah_native_rate : Z;
  private_info : whisper_t
}.

Definition with_ah_flags (ah : switch_asr_handle_t) (x : Z)
  : switch_asr_handle_t :=
  mk_handle x (ah_codec ah) (ah_native_rate ah) (private_info ah).

Definition with_private_info (ah : switch_asr_handle_t) (c : whisper_t)
  : switch_asr_handle_t :=
  mk_handle (ah_flags ah) (ah_codec ah) (ah_native_rate ah) c.

Definition ah_test_flag (ah : switch_asr_handle_t) (f : Z) : bool :=
  switch_test_flag (ah_flags ah) f.

(** ** [whisper_reset] (lines 91-104) *)
Definition whisper_reset (context : whisper_t) (now : Z) : M whisper_t :=
  match vad context with
  | LIVE => emit EvVadReset
  | NULL => ret tt
  end ;;
  let context := with_flags context 0 in
  let context := with_result_text context (Some "agent"%string) in
  let context := with_result_confidence context double_87_3 in
  let context := ctx_set_flag context ASRFLAG_READY in
  let context := with_no_input_time context now in
  ret (if start_input_timers context
       then ctx_set_flag context ASRFLAG_INPUT_TIMERS
       else context).

(** ** [whisper_open] (lines 106-202)

    The handle is given by the fields the host filled in before the call
    ([flags0], [native_rate0]); [server_url] is [globals.server_url].
    The session memory comes zeroed from [switch_core_alloc]. *)
Definition zeroed_context : whisper_t :=
  mk_whisper 0 None double_zero 0 0 0 0 0 false 0 0 None None NULL None NULL 0.

Definition whisper_open (flags0 native_rate0 rate : Z) (dest : option string)
    (server_url : string) (now : Z)
  : M (switch_status_t * option switch_asr_handle_t) :=
  let url := match dest with Some d => d | None => server_url end in
  if switch_test_flag flags0 SWITCH_ASR_FLAG_CLOSED then
    ret (SWITCH_STATUS_FALSE, None)
  else
    allocated <- pop_alloc ;;
    if negb allocated then ret (SWITCH_STATUS_MEMERR, None)
    else
      let native_rate := if rate >? 16000 then 16000 else native_rate0 in
      let handle := mk_handle flags0 (Some "L16"%string) native_rate in
      let context := with_thresh zeroed_context 400 in
      let context := with_silence_ms context 700 in
      let context := with_voice_ms context 60 in
      let context := with_start_input_timers context true in
      let context := with_no_input_timeout context 5000 in
      let context := with_speech_timeout context 10000 in
      emit (EvVadInit native_rate) ;;
      let context := with_vad context LIVE in
      emit (EvVadSetMode (-1)) ;;
      emit (EvVadSetParam "thresh" (thresh context)) ;;
      emit (EvVadSetParam "silence_ms" (silence_ms context)) ;;
      emit (EvVadSetParam "voice_ms" (voice_ms context)) ;;
      emit (EvVadSetParam "debug" 1) ;;
      emit EvBufferCreate ;;
      created <- pop_alloc ;;
      if negb created then ret (SWITCH_STATUS_MEMERR, Some (handle context))
      else
        let context := with_audio_buffer context (Some []) in
        emit (EvKwsConnect url) ;;
        connected <- pop_connect ;;
        if negb connected then ret (SWITCH_STATUS_GENERR, Some (handle context))
        else
          let context := with_ws context LIVE in
          context <- whisper_reset context now ;;
          ret (SWITCH_STATUS_SUCCESS, Some (handle context)).

(** ** [whisper_load_grammar], [whisper_unload_grammar] (lines 204-221) *)
Definition whisper_load_grammar (ah : switch_asr_handle_t) (text name : string)
  : switch_status_t * switch_asr_handle_t :=
  let context := private_info ah in
  if ah_test_flag ah SWITCH_ASR_FLAG_CLOSED then (SWITCH_STATUS_FALSE, ah)
  else (SWITCH_STATUS_SUCCESS,
        with_private_info ah (with_grammar context (Some text))).

Definition whisper_unload_grammar (ah : switch_asr_handle_t) (name : string)
  : switch_status_t * switch_asr_handle_t :=
  (SWITCH_STATUS_SUCCESS, ah).

(** ** [whisper_close] (lines 223-253) *)
Definition whisper_close (ah : switch_asr_handle_t)
  : M (switch_status_t * switch_asr_handle_t) :=
  let context := private_info ah in
  let status := SWITCH_STATUS_SUCCESS in
  emit EvMutexLock ;;
  emit (EvKwsClose (ws context)) ;;
  emit (EvKwsDestroy (ws context)) ;;
  let context := with_ws context NULL in
  let ah := with_ah_flags ah (switch_set_flag (ah_flags ah) SWITCH_ASR_FLAG_CLOSED) in
  emit (EvBufferDestroy
          (match audio_buffer context with Some _ => LIVE | None => NULL end)) ;;
  let context := with_audio_buffer context None in
  emit EvMutexUnlock ;;
  if ah_test_flag ah SWITCH_ASR_FLAG_CLOSED then
    ret (SWITCH_STATUS_FALSE, with_private_info ah context)
  else
    context <- match vad context with
               | LIVE => emit EvVadDestroy ;; ret (with_vad context NULL)
               | NULL => ret context
               end ;;
    let ah := with_ah_flags ah (switch_set_flag (ah_flags ah) SWITCH_ASR_FLAG_CLOSED) in
    ret (status, with_private_info ah context).

(** ** [whisper_send_final_bit] (lines 255-302)

    The request is the 50-byte array [req_string], sent whole
    ([sizeof req_string]): the unformatted JSON object and NUL padding. *)
Definition eof_request : list byte :=
  c_array 50 ("{" ++ dq ++ "eof" ++ dq ++ ":" ++ dq ++ "true" ++ dq ++ "}")%string.

Definition whisper_send_final_bit (context : whisper_t)
  : M (switch_status_t * whisper_t) :=
  written <- kws_write_frame WSOC_TEXT eof_request ;;
  if written <? 0 then
    emit EvMutexUnlock ;; ret (SWITCH_STATUS_BREAK, context)
  else
    readable <- kws_wait_sock 60000 ;;
    if negb readable then
      emit EvMutexUnlock ;; ret (SWITCH_STATUS_BREAK, context)
    else
      frame <- kws_read_frame ;;
      match frame with
      | None => emit EvMutexUnlock ;; ret (SWITCH_STATUS_BREAK, context)
      | Some (oc, rdata) =>
          let context := with_result_text context (Some (c_str rdata)) in
          emit EvMutexUnlock ;; ret (SWITCH_STATUS_SUCCESS, context)
      end.

(** ** [whisper_feed] (lines 303-411) *)

(** A block of the function either returns from it or falls through. *)
Inductive flow :=
| Return (status : switch_status_t) (context : whisper_t)
| Continue (context : whisper_t).

(** Lines 323-338: a pending speech timeout. *)
Definition feed_timeout (context : whisper_t) : M flow :=
  if ctx_test_flag context ASRFLAG_TIMEOUT then
    r <- whisper_send_final_bit context ;;
    let (ws_status, context) := r in
    if negb (switch_status_eqb ws_status SWITCH_STATUS_SUCCESS) then
      ret (Return SWITCH_STATUS_BREAK context)
    else
      let context := ctx_set_flag context ASRFLAG_RESULT in
      emit EvVadReset ;;
      ret (Continue (ctx_clear_flag context ASRFLAG_TIMEOUT))
  else ret (Continue context).

(** The bytes held by the audio buffer (a NULL buffer is outside the
    contract of the buffer library). *)
Definition buffer_bytes (context : whisper_t) : list byte :=
  match audio_buffer context with Some bs => bs | None => [] end.

(** Lines 345-386: the verdict is TALKING. *)
Definition feed_talking (context : whisper_t) (data : list byte) : M flow :=
  emit EvMutexLock ;;
  let buffered := (buffer_bytes context ++ data)%list in
  let context := with_audio_buffer context (Some buffered) in
  sent <- (if Z.of_nat (List.length buffered) >? AUDIO_BLOCK_SIZE then
             let buf := firstn (Z.to_nat AUDIO_BLOCK_SIZE) buffered in
             let context :=
               with_audio_buffer context
                 (Some (skipn (Z.to_nat AUDIO_BLOCK_SIZE) buffered)) in
             written <- kws_write_frame WSOC_BINARY buf ;;
             if written <? 0 then
               emit EvMutexUnlock ;; ret (Return SWITCH_STATUS_BREAK context)
             else ret (Continue context)
           else ret (Continue context)) ;;
  match sent with
  | Return status context => ret (Return status context)
  | Continue context =>
      readable <- kws_wait_sock 5 ;;
      if negb readable then
        emit EvMutexUnlock ;; ret (Return SWITCH_STATUS_SUCCESS context)
      else
        frame <- kws_read_frame ;;
        match frame with
        | None => emit EvMutexUnlock ;; ret (Return SWITCH_STATUS_BREAK context)
        | Some (WSOC_PING, rdata) =>
            kws_write_frame WSOC_PONG rdata ;;
            emit EvMutexUnlock ;;
            ret (Return SWITCH_STATUS_SUCCESS context)
        | Some (_, rdata) =>
            ret (Continue (with_result_text context (Some (c_str rdata))))
        end
  end.

(** Lines 388-406: the edges STOP_TALKING and START_TALKING. *)
Definition feed_edges (context : whisper_t) (vad_state : switch_vad_state_t)
    (now : Z) : M flow :=
  match vad_state with
  | SWITCH_VAD_STATE_STOP_TALKING =>
      r <- whisper_send_final_bit context ;;
      let (ws_status, context) := r in
      if negb (switch_status_eqb ws_status SWITCH_STATUS_SUCCESS) then
        ret (Return SWITCH_STATUS_BREAK context)
      else
        let context := ctx_set_flag context ASRFLAG_RESULT in
        emit EvVadReset ;;
        ret (Continue (ctx_clear_flag context ASRFLAG_READY))
  | SWITCH_VAD_STATE_START_TALKING =>
      let context := ctx_set_flag context ASRFLAG_START_OF_SPEECH in
      ret (Continue (with_speech_time context now))
  | _ => ret (Continue context)
  end.

(** Lines 340-410: the frame goes through the detector while READY is
    set. *)
Definition feed_ready (context : whisper_t) (data : list byte) (now : Z)
  : M (switch_status_t * whisper_t) :=
  let status := SWITCH_STATUS_SUCCESS in
  let len := Z.of_nat (List.length data) in
  if ctx_test_flag context ASRFLAG_READY then
    vad_state <- switch_vad_process (len / 2) ;;
    talked <- match vad_state with
              | SWITCH_VAD_STATE_TALKING => feed_talking context data
              | _ => ret (Continue context)
              end ;;
    match talked with
    | Return s context => ret (s, context)
    | Continue context =>
        edged <- feed_edges context vad_state now ;;
        match edged with
        | Return s context => ret (s, context)
        | Continue context => ret (status, context)
        end
    end
  else ret (status, context).

Definition whisper_feed (ah : switch_asr_handle_t) (data : list byte) (now : Z)
  : M (switch_status_t * switch_asr_handle_t) :=
  let context := private_info ah in
  if ah_test_flag ah SWITCH_ASR_FLAG_CLOSED then ret (SWITCH_STATUS_BREAK, ah)
  else
    context <- (if ctx_test_flag context ASRFLAG_RETURNED_RESULT
                   && ah_test_flag ah SWITCH_ASR_FLAG_AUTO_RESUME
                then whisper_reset context now
                else ret context) ;;
    timed <- feed_timeout context ;;
    match timed with
    | Return s context => ret (s, with_private_info ah context)
    | Continue context =>
        r <- feed_ready context data now ;;
        ret (fst r, with_private_info ah (snd r))
    end.

(** The session a block leaves behind, on either exit. *)
Definition flow_context (f : flow) : whisper_t :=
  match f with
  | Return _ context => context
  | Continue context => context
  end.

(** Lines 318-338 on their own: what [whisper_feed] does to an open
    session before the frame is looked at. *)
Definition feed_prelude (ah : switch_asr_handle_t) (now : Z) : M flow :=
  let context := private_info ah in
  context <- (if ctx_test_flag context ASRFLAG_RETURNED_RESULT
                 && ah_test_flag ah SWITCH_ASR_FLAG_AUTO_RESUME
              then whisper_reset context now
              else ret context) ;;
  feed_timeout context.

(** ** [whisper_pause], [whisper_resume] (lines 414-442) *)
Definition whisper_pause (ah : switch_asr_handle_t)
  : switch_status_t * switch_asr_handle_t :=
  let context := private_info ah in
  if ah_test_flag ah SWITCH_ASR_FLAG_CLOSED then (SWITCH_STATUS_FALSE, ah)
  else (SWITCH_STATUS_SUCCESS, with_private_info ah (with_flags context 0)).

Definition whisper_resume (ah : switch_asr_handle_t) (now : Z)
  : M (switch_status_t * switch_asr_handle_t) :=
  let context := private_info ah in
  if ah_test_flag ah SWITCH_ASR_FLAG_CLOSED then ret (SWITCH_STATUS_FALSE, ah)
  else
    context <- whisper_reset context now ;;
    ret (SWITCH_STATUS_SUCCESS, with_private_info ah context).

(** ** [whisper_check_results] (lines 444-475) *)

(** [(switch_micro_time_now () - since) / 1000], with C's truncating
    division. *)
Definition elapsed_ms (now since : Z) : Z := Z.quot (now - since) 1000.

Definition whisper_check_results (ah : switch_asr_handle_t) (now : Z)
  : switch_status_t * switch_asr_handle_t :=
  let context := private_info ah in
  if ctx_test_flag context ASRFLAG_RETURNED_RESULT
     || ah_test_flag ah SWITCH_ASR_FLAG_CLOSED
  then (SWITCH_STATUS_BREAK, ah)
  else if negb (ctx_test_flag context ASRFLAG_RETURNED_START_OF_SPEECH)
          && ctx_test_flag context ASRFLAG_START_OF_SPEECH
  then (SWITCH_STATUS_SUCCESS, ah)
  else
    let timers :=
      if negb (ctx_test_flag context ASRFLAG_RESULT)
         && negb (ctx_test_flag context ASRFLAG_NOINPUT_TIMEOUT)
      then
        if ctx_test_flag context ASRFLAG_INPUT_TIMERS
           && negb (ctx_test_flag context ASRFLAG_START_OF_SPEECH)
           && (no_input_timeout context >=? 0)
           && (elapsed_ms now (no_input_time context)
               >=? no_input_timeout context)
        then Continue (ctx_set_flag context ASRFLAG_NOINPUT_TIMEOUT)
        else if negb (ctx_test_flag context ASRFLAG_TIMEOUT)
                && ctx_test_flag context ASRFLAG_START_OF_SPEECH
                && (speech_timeout context >? 0)
                && (elapsed_ms now (speech_time context)
                    >=? speech_timeout context)
        then
          if ctx_test_flag context ASRFLAG_START_OF_SPEECH
          then Return SWITCH_STATUS_FALSE
                      (ctx_set_flag context ASRFLAG_TIMEOUT)
          else Continue (ctx_set_flag context ASRFLAG_NOINPUT_TIMEOUT)
        else Continue context
      else Continue context in
    match timers with
    | Return s context => (s, with_private_info ah context)
    | Continue context =>
        (if ctx_test_flag context ASRFLAG_RESULT
            || ctx_test_flag context ASRFLAG_NOINPUT_TIMEOUT
         then SWITCH_STATUS_SUCCESS
         else SWITCH_STATUS_BREAK,
         with_private_info ah context)
    end.

(** ** [whisper_get_results] (lines 477-519)

    The second component is the string stored in [*resultstr], [None]
    when the call leaves it alone. *)

(** ["{\"grammar\": \"%s\", \"text\": \"%s\", \"confidence\": %f}"] *)
Definition result_json (context : whisper_t) : string :=
  ("{" ++ dq ++ "grammar" ++ dq ++ ": " ++ dq ++ fmt_s (grammar context) ++ dq
   ++ ", " ++ dq ++ "text" ++ dq ++ ": " ++ dq
   ++ fmt_s (result_text context) ++ dq
   ++ ", " ++ dq ++ "confidence" ++ dq ++ ": "
   ++ fmt_f (result_confidence context) ++ "}")%string.

(** ["{\"grammar\": \"%s\", \"text\": \"\", \"confidence\": 0,
      \"error\": \"no_input\"}"] *)
Definition no_input_json (context : whisper_t) : string :=
  ("{" ++ dq ++ "grammar" ++ dq ++ ": " ++ dq ++ fmt_s (grammar context) ++ dq
   ++ ", " ++ dq ++ "text" ++ dq ++ ": " ++ dq ++ dq
   ++ ", " ++ dq ++ "confidence" ++ dq ++ ": 0"
   ++ ", " ++ dq ++ "error" ++ dq ++ ": " ++ dq ++ "no_input" ++ dq
   ++ "}")%string.

Definition whisper_get_results (ah : switch_asr_handle_t)
  : switch_status_t * option string * switch_asr_handle_t :=
  let context := private_info ah in
  if ctx_test_flag context ASRFLAG_RETURNED_RESULT
     || ah_test_flag ah SWITCH_ASR_FLAG_CLOSED
  then (SWITCH_STATUS_FALSE, None, ah)
  else
    let '(status, resultstr, context) :=
      if ctx_test_flag context ASRFLAG_RESULT then
        let is_partial := partial context >? 0 in
        let context := with_partial context (int_wrap (partial context - 1)) in
        (if is_partial then SWITCH_STATUS_MORE_DATA else SWITCH_STATUS_SUCCESS,
         Some (result_json context), context)
      else if ctx_test_flag context ASRFLAG_NOINPUT_TIMEOUT then
        (SWITCH_STATUS_SUCCESS, Some (no_input_json context), context)
      else if negb (ctx_test_flag context ASRFLAG_RETURNED_START_OF_SPEECH)
              && ctx_test_flag context ASRFLAG_START_OF_SPEECH then
        (SWITCH_STATUS_BREAK, None,
         ctx_set_flag context ASRFLAG_RETURNED_START_OF_SPEECH)
      else (SWITCH_STATUS_FALSE, None, context) in
    let context :=
      if switch_status_eqb status SWITCH_STATUS_SUCCESS then
        ctx_clear_flag (ctx_set_flag context ASRFLAG_RETURNED_RESULT)
                       ASRFLAG_READY
      else context in
    (status, resultstr, with_private_info ah context).

(** ** [whisper_start_input_timers] (lines 521-540) *)
Definition whisper_start_input_timers (ah : switch_asr_handle_t) (now : Z)
  : switch_status_t * switch_asr_handle_t :=
  let context := private_info ah in
  if ah_test_flag ah SWITCH_ASR_FLAG_CLOSED then (SWITCH_STATUS_FALSE, ah)
  else
    let context :=
      if negb (ctx_test_flag context ASRFLAG_INPUT_TIMERS) then
        with_no_input_time (ctx_set_flag context ASRFLAG_INPUT_TIMERS) now
      else context in
    (SWITCH_STATUS_SUCCESS, with_private_info ah context).

(** ** [whisper_text_param] (lines 542-590)

    A NULL [param] or [val] behaves as the empty string ([zstr]). *)
Definition whisper_text_param (ah : switch_asr_handle_t) (param val : string)
  : M switch_asr_handle_t :=
  let context := private_info ah in
  if negb (zstr param) && negb (zstr val) then
    let nval := atoi val in
    let fval := atof val in
    context <-
      (if strcaseeq "no-input-timeout" param && switch_is_number val then
         ret (with_no_input_timeout context nval)
       else if strcaseeq "speech-timeout" param && switch_is_number val then
         ret (with_speech_timeout context nval)
       else if strcaseeq "start-input-timers" param then
         let context := with_start_input_timers context (switch_true val) in
         ret (if start_input_timers context
              then ctx_set_flag context ASRFLAG_INPUT_TIMERS
              else ctx_clear_flag context ASRFLAG_INPUT_TIMERS)
       else if strcaseeq "vad-mode" param then
         match vad context with
         | LIVE => emit (EvVadSetMode nval)
         | NULL => ret tt
         end ;;
         ret context
       else if strcaseeq "vad-voice-ms" param && (nval >? 0) then
         emit (EvVadSetParam "voice_ms" nval) ;;
         ret (with_voice_ms context nval)
       else if strcaseeq "vad-silence-ms" param && (nval >? 0) then
         emit (EvVadSetParam "silence_ms" nval) ;;
         ret (with_silence_ms context nval)
       else if strcaseeq "vad-thresh" param && (nval >? 0) then
         emit (EvVadSetParam "thresh" nval) ;;
         ret (with_thresh context nval)
       else if strcaseeq "channel-uuid" param then
         ret (with_channel_uuid context (Some val))
       else if strcaseeq "result" param then
         ret (with_result_text context (Some val))
       else if strcaseeq "confidence" param && double_ge_zero fval then
         ret (with_result_confidence context fval)
       else if strcaseeq "partial" param && switch_true val then
         ret (with_partial context 3)
       else ret context) ;;
    ret (with_private_info ah context)
  else ret ah.

(** ** Runs of the session interface *)

(** [whisper_check_results] polled at the given clock readings: the
    statuses in call order and the handle left behind. *)
Fixpoint check_results_run (ah : switch_asr_handle_t) (times : list Z)
  : list switch_status_t * switch_asr_handle_t :=
  match times with
  | [] => ([], ah)
  | now :: times' =>
      let (status, ah1) := whisper_check_results ah now in
      let (statuses, ah2) := check_results_run ah1 times' in
      (status :: statuses, ah2)
  end.

(** [n] consecutive calls of [whisper_get_results]. *)
Fixpoint get_results_run (ah : switch_asr_handle_t) (n : nat)
  : list switch_status_t * switch_asr_handle_t :=
  match n with
  | O => ([], ah)
  | S n' =>
      let '(status, _, ah1) := whisper_get_results ah in
      let (statuses, ah2) := get_results_run ah1 n' in
      (status :: statuses, ah2)
  end.

(** The calls the host can make on an opened session (the function
    table filled in by [mod_whisper_load]). *)
Inductive op :=
| OpLoadGrammar (text name : string)
| OpUnloadGrammar (name : string)
| OpClose
| OpFeed (data : list byte) (now : Z)
| OpResume (now : Z)
| OpPause
| OpCheckResults (now : Z)
| OpGetResults
| OpStartInputTimers (now : Z)
| OpTextParam (param val : string).

(** One call: its status, the string it produced (if any) and the
    handle afterwards.  [whisper_text_param] returns nothing; its entry
    reports [SWITCH_STATUS_SUCCESS]. *)
Definition run_op (o : op) (ah : switch_asr_handle_t)
  : M (switch_status_t * option string * switch_asr_handle_t) :=
  match o with
  | OpLoadGrammar text name =>
      let (s, ah') := whisper_load_grammar ah text name in ret (s, None, ah')
  | OpUnloadGrammar name =>
      let (s, ah') := whisper_unload_grammar ah name in ret (s, None, ah')
  | OpClose =>
      r <- whisper_close ah ;; ret (fst r, None, snd r)
  | OpFeed data now =>
      r <- whisper_feed ah data now ;; ret (fst r, None, snd r)
  | OpResume now =>
      r <- whisper_resume ah now ;; ret (fst r, None, snd r)
  | OpPause =>
      let (s, ah') := whisper_pause ah in ret (s, None, ah')
  | OpCheckResults now =>
      let (s, ah') := whisper_check_results ah now in ret (s, None, ah')
  | OpGetResults => ret (whisper_get_results ah)
  | OpStartInputTimers now =>
      let (s, ah') := whisper_start_input_timers ah now in ret (s, None, ah')
  | OpTextParam param val =>
      ah' <- whisper_text_param ah param val ;;
      ret (SWITCH_STATUS_SUCCESS, None, ah')
  end.

(** A sequence of calls: what each returned, and the final handle. *)
Fixpoint run_ops (os : list op) (ah : switch_asr_handle_t)
  : M (list (op * switch_status_t * option string) * switch_asr_handle_t) :=
  match os with
  | [] => ret ([], ah)
  | o :: os' =>
      r <- run_op o ah ;;
      let '(s, str, ah1) := r in
      rest <- run_ops os' ah1 ;;
      ret ((o, s, str) :: fst rest, snd rest)
  end.

(** The calls that zero the session's flag word: [whisper_pause], and
    [whisper_reset] through [whisper_resume]. *)
Definition zeroes_flags (o : op) : bool :=
  match o with
  | OpPause | OpResume _ => true
  | _ => false
  end.

(** What a block of [whisper_feed] may do to the session: the flag bits
    (by position) outside [changed] are as before, a set RESULT stays
    set, and the partial counter, the grammar and the confidence are
    as before. *)
Definition feed_effect (changed : list Z) (c c' : whisper_t) : Prop :=
  partial c' = partial c
  /\ grammar c' = grammar c
  /\ result_confidence c' = result_confidence c
  /\ (forall k, 0 <= k -> ~ In k changed ->
        Z.testbit (flags c') k = Z.testbit (flags c) k)
  /\ (Z.testbit (flags c) 5 = true -> Z.testbit (flags c') 5 = true).

(** [whisper_feed] cannot auto-resume on this handle: the host did not
    ask for it, or the handle is closed and the call returns at once. *)
Definition no_auto_resume (ah : switch_asr_handle_t) : Prop :=
  ah_test_flag ah SWITCH_ASR_FLAG_AUTO_RESUME = false
  \/ ah_test_flag ah SWITCH_ASR_FLAG_CLOSED = true.

(** A call that asked for results was turned away: [whisper_get_results]
    failed without a string, [whisper_check_results] reported not
    ready. *)
Definition turned_away (entry : op * switch_status_t * option string) : Prop :=
  match entry with
  | (OpGetResults, status, str) => status = SWITCH_STATUS_FALSE /\ str = None
  | (OpCheckResults _, status, _) => status = SWITCH_STATUS_BREAK
  | _ => True
  end.

(** ** The module's configuration (lines 82-89 and 593-697) *)

(** The fields of [globals] that the module reads; the two memory pools
    are left out. *)
Record globals_t := mk_globals {
  server_url : option string;
  return_json : Z;
  auto_reload : Z
}.

(** A [static] structure starts zeroed. *)
Definition zeroed_globals : globals_t := mk_globals None 0 0.

(** What [switch_xml_open_cfg ("whisper.conf", ...)] finds: [None] when
    the file cannot be opened; otherwise the [<param>] children of
    [<settings>] in document order ([None] when there is no
    [<settings>]), each as its [name] and [value] attributes.  An absent
    attribute reads as the empty string ([switch_xml_attr_soft]). *)
Definition config_t : Type := option (option (list (string * string))).

(** The body of the [for] loop of [load_config], over the parameters. *)
Fixpoint load_params (params : list (string * string)) (g : globals_t)
  : globals_t :=
  match params with
  | [] => g
  | (var, val) :: rest =>
      let g := if strcaseeq var "server-url"
               then mk_globals (Some val) (return_json g) (auto_reload g)
               else g in
      let g := if strcaseeq var "return-json"
               then mk_globals (server_url g) (atoi val) (auto_reload g)
               else g in
      load_params rest g
  end.

(** [load_config] (lines 593-628) *)
Definition load_config (cfg : config_t) (g : globals_t)
  : switch_status_t * globals_t :=
  let (status, g) :=
    match cfg with
    | None => (SWITCH_STATUS_FALSE, g)
    | Some settings =>
        (SWITCH_STATUS_SUCCESS,
         match settings with
         | Some params => load_params params g
         | None => g
         end)
    end in
  (status,
   match server_url g with
   | None =>
       mk_globals (Some "ws://127.0.0.1:2700"%string) (return_json g)
         (auto_reload g)
   | Some _ => g
   end).

(** [do_load] (lines 630-635): [load_config] under the module's mutex,
    its status dropped. *)
Definition do_load (cfg : config_t) (g : globals_t) : globals_t :=
  snd (load_config cfg g).

(** [event_handler] (lines 637-643), on a reload event. *)
Definition event_handler (cfg : config_t) (g : globals_t) : globals_t :=
  if negb (auto_reload g =? 0) then do_load cfg g else g.

(** [mod_whisper_load] (lines 647-683), as far as [globals] and the
    returned status go: the failure to bind the reload event is only
    logged, and the status of [load_config] is not looked at. *)
Definition mod_whisper_load (cfg : config_t) (g : globals_t)
  : switch_status_t * globals_t :=
  (SWITCH_STATUS_SUCCESS, do_load cfg g).

(** [mod_whisper_shutdown] and [mod_whisper_runtime] (lines 685-697) *)
Definition mod_whisper_shutdown : switch_status_t := SWITCH_STATUS_SUCCESS.
Definition mod_whisper_runtime : switch_status_t := SWITCH_STATUS_TERM.

(** The value of the last parameter with the given name, if any. *)
Definition last_param (name : string) (params : list (string * string))
  : option string :=
  match find (fun p => strcaseeq (fst p) name) (rev params) with
  | Some p => Some (snd p)
  | None => None
  end.

(** ** Reading a trace *)

Definition is_lock (e : event) : bool :=
  match e with EvMutexLock => true | _ => false end.

Definition is_unlock (e : event) : bool :=
  match e with EvMutexUnlock => true | _ => false end.

Definition is_vad_process (e : event) : bool :=
  match e with EvVadProcess _ => true | _ => false end.

(** The payloads of the binary frames written, in order. *)
Fixpoint binary_writes (trace : list event) : list (list byte) :=
  match trace with
  | [] => []
  | EvKwsWrite WSOC_BINARY payload :: rest => payload :: binary_writes rest
  | _ :: rest => binary_writes rest
  end.

(** The sockets calls in a trace. *)
Definition is_transport (e : event) : bool :=
  match e with
  | EvKwsConnect _ | EvKwsClose _ | EvKwsDestroy _ | EvKwsWrite _ _
  | EvKwsWait _ | EvKwsRead => true
  | _ => false
  end.

(** The parameter names [whisper_text_param] knows. *)
Definition text_param_names : list string :=
  ["no-input-timeout"; "speech-timeout"; "start-input-timers"; "vad-mode";
   "vad-voice-ms"; "vad-silence-ms"; "vad-thresh"; "channel-uuid"; "result";
   "confidence"; "partial"]%string.

(** ** What the world has in store for the next handshake *)

(** The three steps of [whisper_send_final_bit] all go through: the
    write does not fail, the socket becomes readable, a frame is read. *)
Definition handshake_ok (w : world) : bool :=
  negb (hd (-1) (w_write w) <? 0)
  && hd false (w_wait w)
  && match hd None (w_read w) with Some _ => true | None => false end.

(** The text of the frame the handshake would read. *)
Definition handshake_text (w : world) : option string :=
  match hd None (w_read w) with
  | Some (_, rdata) => Some (c_str rdata)
  | None => None
  end.

(** How many of the three transport calls the handshake makes: it stops
    at the first that fails. *)
Definition handshake_steps (w : world) : nat :=
  if hd (-1) (w_write w) <? 0 then 1
  else if negb (hd false (w_wait w)) then 2
  else 3.

End Whisper.

(** ** Concrete sessions, on the reference host *)

(** The world in which [whisper_open] succeeds: both allocations and the
    connection go through. *)
Definition open_world : world := mk_world [true; true] [true] [] [] [] [] [].

(** A world in which nothing is scripted. *)
Definition quiet_world : world := mk_world [] [] [] [] [] [] [].

(** The session [whisper_open] returns in [open_world] at time 0 for an
    8 kHz handle. *)
Definition fresh_session : switch_asr_handle_t (host := ref_host) :=
  mk_handle 0 (Some "L16"%string) 8000
    (mk_whisper (host := ref_host) 3 (Some "agent"%string) 87300000
       400 700 60 5000 10000 true 0 0 None None LIVE (Some []) LIVE 0).

(** The same session after [whisper_pause]: every flag clear. *)
Definition paused_session : switch_asr_handle_t (host := ref_host) :=
  with_private_info fresh_session (with_flags (private_info fresh_session) 0).

(** No-input timeout disabled, nothing heard yet. *)
Definition untimed_session : switch_asr_handle_t (host := ref_host) :=
  with_private_info fresh_session
    (with_no_input_timeout (private_info fresh_session) (-1)).

(** Speech has started and has been reported; the session takes audio. *)
Definition talking_session : switch_asr_handle_t (host := ref_host) :=
  with_private_info fresh_session
    (with_flags (private_info fresh_session)
       (Z.lor (Z.lor ASRFLAG_READY ASRFLAG_INPUT_TIMERS)
          (Z.lor ASRFLAG_START_OF_SPEECH ASRFLAG_RETURNED_START_OF_SPEECH))).

(** The same, with partial results switched on by the parameter. *)
Definition partial_session : switch_asr_handle_t (host := ref_host) :=
  fst (whisper_text_param talking_session "partial" "true" quiet_world).

(** An utterance has ended: the transcript "hello" is pending and the
    partial counter stands at 3. *)
Definition result_session : switch_asr_handle_t (host := ref_host) :=
  with_private_info fresh_session
    (with_partial
       (with_result_text
          (with_flags (private_info fresh_session)
             (Z.lor (Z.lor ASRFLAG_INPUT_TIMERS ASRFLAG_RESULT)
                (Z.lor ASRFLAG_START_OF_SPEECH
                   ASRFLAG_RETURNED_START_OF_SPEECH)))
          (Some "hello"%string))
       3).

(** The no-input timeout has fired and has not been fetched yet. *)
Definition no_input_session : switch_asr_handle_t (host := ref_host) :=
  with_private_info fresh_session
    (with_flags (private_info fresh_session)
       (Z.lor (Z.lor ASRFLAG_READY ASRFLAG_INPUT_TIMERS)
          ASRFLAG_NOINPUT_TIMEOUT)).

(** The same session right after the no-input outcome was fetched. *)
Definition delivered_session : switch_asr_handle_t (host := ref_host) :=
  snd (whisper_get_results no_input_session).

(** The bytes of a text. *)
Definition bytes (s : string) : list byte := list_byte_of_string s.

(** The backend answers the end-of-speech request with "hello"; the
    detector hears nothing in the fed frame. *)
Definition answering_world : world :=
  mk_world [] [] [SWITCH_VAD_STATE_NONE] [50] [true]
    [Some (WSOC_TEXT, bytes "hello")] [].

(** The detector says TALKING and the backend has sent a ping. *)
Definition ping_world : world :=
  mk_world [] [] [SWITCH_VAD_STATE_TALKING] [] [true]
    [Some (WSOC_PING, bytes "keepalive")] [].

(** Four bytes of PCM data. *)
Definition two_samples : list byte := [x01; x00; x02; x00].

(** Calls after a delivered result, none of them a pause or a resume. *)
Definition calls_after_delivery : list op :=
  [OpGetResults; OpCheckResults 7000000; OpFeed two_samples 7000000;
   OpStartInputTimers 7000000; OpTextParam "partial" "true";
   OpLoadGrammar "yes|no" "g"; OpCheckResults 8000000; OpGetResults].

(** Fetch the no-input outcome, pause, start the timers again, wait six
    seconds, poll and fetch: no [whisper_reset] in between. *)
Definition calls_with_pause : list op :=
  [OpGetResults; OpPause; OpStartInputTimers 1000000;
   OpCheckResults 7000000; OpGetResults].

(** The session after [whisper_close]. *)
Definition closed_session : switch_asr_handle_t (host := ref_host) :=
  snd (fst (whisper_close fresh_session quiet_world)).

(** Speech has started; the speech timeout is switched off. *)
Definition patient_session : switch_asr_handle_t (host := ref_host) :=
  with_private_info talking_session
    (with_speech_timeout (private_info talking_session) 0).

(** The no-input outcome was fetched on a handle opened with
    AUTO_RESUME. *)
Definition auto_resume_session : switch_asr_handle_t (host := ref_host) :=
  with_ah_flags delivered_session
    (@SWITCH_ASR_FLAG_AUTO_RESUME ref_host).

(** The speech timeout has fired. *)
Definition timed_out_session : switch_asr_handle_t (host := ref_host) :=
  snd (whisper_check_results talking_session 10000000).

(** The detector hears the start of an utterance. *)
Definition start_world : world :=
  mk_world [] [] [SWITCH_VAD_STATE_START_TALKING] [] [] [] [].

(** The detector hears the end of an utterance and the backend answers
    the end-of-speech request with "hello". *)
Definition stop_world : world :=
  mk_world [] [] [SWITCH_VAD_STATE_STOP_TALKING] [50] [true]
    [Some (WSOC_TEXT, bytes "hello")] [].

(** The detector says TALKING and the backend has sent the interim
    transcript "hel". *)
Definition interim_world : world :=
  mk_world [] [] [SWITCH_VAD_STATE_TALKING] [] [true]
    [Some (WSOC_TEXT, bytes "hel")] [].

(** Both allocations go through, the connection does not. *)
Definition unreachable_world : world :=
  mk_world [true; true] [false] [] [] [] [] [].

(** * Properties *)

(** ** Flag words *)

Lemma shiftl_1_testbit (k i : Z) :
  0 <= k -> Z.testbit (Z.shiftl 1 k) i = (i =? k).
Proof.
  intros Hk.
  destruct (Z.ltb_spec i 0) as [Hneg | Hpos].
  - rewrite Z.testbit_neg_r by assumption.
    symmetry. apply Z.eqb_neq. lia.
  - rewrite Z.shiftl_spec by assumption.
    destruct (Z.eqb_spec i k) as [-> | Hne].
    + now rewrite Z.sub_diag.
    + destruct (Z.ltb_spec i k).
      * apply Z.testbit_neg_r. lia.
      * change 1 with (Z.ones 1). apply Z.ones_spec_high. lia.
Qed.

Lemma land_bit (f k : Z) :
  0 <= k ->
  Z.land f (Z.shiftl 1 k) = if Z.testbit f k then Z.shiftl 1 k else 0.
Proof.
  intros Hk. apply Z.bits_inj'. intros i Hi.
  rewrite Z.land_spec, shiftl_1_testbit by assumption.
  destruct (Z.eqb_spec i k) as [-> | Hne].
  - destruct (Z.testbit f k); cbn.
    + now rewrite shiftl_1_testbit, Z.eqb_refl.
    + now rewrite Z.bits_0.
  - rewrite andb_false_r.
    destruct (Z.testbit f k).
    + rewrite shiftl_1_testbit by assumption. symmetry. now apply Z.eqb_neq.
    + now rewrite Z.bits_0.
Qed.

Lemma test_flag_bit (f k : Z) :
  0 <= k -> switch_test_flag f (Z.shiftl 1 k) = Z.testbit f k.
Proof.
  intros Hk. unfold switch_test_flag. rewrite land_bit by assumption.
  destruct (Z.testbit f k); [| reflexivity].
  rewrite Z.shiftl_1_l.
  destruct (Z.eqb_spec (2 ^ k) 0) as [E | _]; [| reflexivity].
  pose proof (Z.pow_pos_nonneg 2 k). lia.
Qed.

Lemma test_set_flag_bit (f k j : Z) :
  0 <= k -> 0 <= j ->
  switch_test_flag (switch_set_flag f (Z.shiftl 1 k)) (Z.shiftl 1 j)
  = Z.testbit f j || (j =? k).
Proof.
  intros Hk Hj. rewrite test_flag_bit by assumption.
  unfold switch_set_flag. now rewrite Z.lor_spec, shiftl_1_testbit.
Qed.

Lemma test_clear_flag_bit (f k j : Z) :
  0 <= k -> 0 <= j ->
  switch_test_flag (switch_clear_flag f (Z.shiftl 1 k)) (Z.shiftl 1 j)
  = Z.testbit f j && negb (j =? k).
Proof.
  intros Hk Hj. rewrite test_flag_bit by assumption.
  unfold switch_clear_flag.
  now rewrite Z.land_spec, Z.lnot_spec, shiftl_1_testbit by assumption.
Qed.

(** A flag just set tests as set; this needs nothing of the flag value
    but that it is not zero. *)
Lemma test_set_flag_same (f c : Z) :
  c <> 0 -> switch_test_flag (switch_set_flag f c) c = true.
Proof.
  intros Hc. unfold switch_test_flag, switch_set_flag.
  replace (Z.land (Z.lor f c) c) with c.
  - now apply negb_true_iff, Z.eqb_neq.
  - apply Z.bits_inj'. intros i _.
    rewrite Z.land_spec, Z.lor_spec.
    destruct (Z.testbit c i), (Z.testbit f i); reflexivity.
Qed.

Lemma testbit_set_flag_bit (f k j : Z) :
  0 <= k ->
  Z.testbit (switch_set_flag f (Z.shiftl 1 k)) j = Z.testbit f j || (j =? k).
Proof.
  intros Hk. unfold switch_set_flag.
  now rewrite Z.lor_spec, shiftl_1_testbit.
Qed.

Lemma testbit_clear_flag_bit (f k j : Z) :
  0 <= k -> 0 <= j ->
  Z.testbit (switch_clear_flag f (Z.shiftl 1 k)) j
  = Z.testbit f j && negb (j =? k).
Proof.
  intros Hk Hj. unfold switch_clear_flag.
  now rewrite Z.land_spec, Z.lnot_spec, shiftl_1_testbit by assumption.
Qed.

Section WhisperProps.

Context {host : Host}.

Ltac unfold_flag_ops :=
  unfold ctx_test_flag, ctx_set_flag, ctx_clear_flag, ah_test_flag in *.

Ltac session_simpl :=
  cbn [flags result_text result_confidence thresh silence_ms voice_ms
       no_input_timeout speech_timeout start_input_timers no_input_time
       speech_time grammar channel_uuid vad audio_buffer ws partial
       with_flags with_result_text with_result_confidence with_thresh
       with_silence_ms with_voice_ms with_no_input_timeout
       with_speech_timeout with_start_input_timers with_no_input_time
       with_speech_time with_grammar with_channel_uuid with_vad
       with_audio_buffer with_ws with_partial
       ah_flags ah_codec ah_native_rate private_info
       with_ah_flags with_private_info fst snd] in *.

Ltac flag_bits :=
  unfold_flag_ops; session_simpl;
  unfold ASRFLAG_READY, ASRFLAG_INPUT_TIMERS, ASRFLAG_START_OF_SPEECH,
    ASRFLAG_RETURNED_START_OF_SPEECH, ASRFLAG_NOINPUT_TIMEOUT, ASRFLAG_RESULT,
    ASRFLAG_RETURNED_RESULT, ASRFLAG_TIMEOUT in *;
  repeat first
    [ rewrite test_set_flag_bit in * by lia
    | rewrite test_clear_flag_bit in * by lia
    | rewrite test_flag_bit in * by lia
    | rewrite testbit_set_flag_bit in * by lia
    | rewrite testbit_clear_flag_bit in * by lia ];
  cbn [Z.eqb Pos.eqb negb andb orb] in *;
  rewrite ?orb_false_r, ?orb_true_r, ?andb_true_r, ?andb_false_r in *.

(** ** [whisper_reset] *)

Lemma whisper_reset_eq (context : whisper_t) (now : Z) (w : world) :
  fst (whisper_reset context now w)
  = let c := with_no_input_time
               (ctx_set_flag
                  (with_result_confidence
                     (with_result_text (with_flags context 0)
                        (Some "agent"%string))
                     double_87_3)
                  ASRFLAG_READY)
               now in
    if start_input_timers context
    then ctx_set_flag c ASRFLAG_INPUT_TIMERS else c.
Proof.
  unfold whisper_reset, bind, ret.
  destruct (vad context); reflexivity.
Qed.

Lemma whisper_reset_trace (context : whisper_t) (now : Z) (w : world) :
  w_trace (snd (whisper_reset context now w))
  = (w_trace w ++ match vad context with LIVE => [EvVadReset] | NULL => [] end)%list.
Proof.
  unfold whisper_reset, bind, ret, emit.
  destruct (vad context); cbn; [now rewrite app_nil_r | reflexivity].
Qed.

Lemma whisper_open_flags flags0 native_rate0 rate dest server_url now0 w0 :
  match whisper_open flags0 native_rate0 rate dest server_url now0 w0 with
  | (SWITCH_STATUS_SUCCESS, Some ah, _) =>
      start_input_timers (private_info ah) = true
      /\ flags (private_info ah) = Z.lor ASRFLAG_READY ASRFLAG_INPUT_TIMERS
  | _ => True
  end.
Proof.
  unfold whisper_open.
  destruct (switch_test_flag flags0 SWITCH_ASR_FLAG_CLOSED); [exact I |].
  destruct w0 as [al co va wr wa re tr].
  cbn -[Z.gtb].
  destruct (hd false al); cbn -[Z.gtb]; [| exact I].
  destruct (hd false (tl al)); cbn -[Z.gtb]; [| exact I].
  destruct (hd false co); cbn -[Z.gtb]; [| exact I].
  split; reflexivity.
Qed.

(** C8. After [whisper_reset] the flag word is exactly the one of a
    freshly opened session: READY is set, INPUT_TIMERS is set if and only
    if [start_input_timers] is configured, and the six other flags are
    clear.  [whisper_open] ends in that state, and resetting again does
    not change the word. *)
Theorem whisper_reset_flags_initial (context : whisper_t) (now : Z) (w : world) :
  let context' := fst (whisper_reset context now w) in
  flags context'
  = (if start_input_timers context
     then Z.lor ASRFLAG_READY ASRFLAG_INPUT_TIMERS else ASRFLAG_READY)
  /\ ctx_test_flag context' ASRFLAG_READY = true
  /\ ctx_test_flag context' ASRFLAG_INPUT_TIMERS = start_input_timers context
  /\ ctx_test_flag context' ASRFLAG_START_OF_SPEECH = false
  /\ ctx_test_flag context' ASRFLAG_RETURNED_START_OF_SPEECH = false
  /\ ctx_test_flag context' ASRFLAG_NOINPUT_TIMEOUT = false
  /\ ctx_test_flag context' ASRFLAG_RESULT = false
  /\ ctx_test_flag context' ASRFLAG_RETURNED_RESULT = false
  /\ ctx_test_flag context' ASRFLAG_TIMEOUT = false
  /\ (forall now' w',
        flags (fst (whisper_reset context' now' w')) = flags context')
  /\ (forall flags0 native_rate0 rate dest server_url now0 w0,
        match whisper_open flags0 native_rate0 rate dest server_url now0 w0 with
        | (SWITCH_STATUS_SUCCESS, Some ah, _) =>
            start_input_timers (private_info ah) = true
            /\ flags (private_info ah)
               = Z.lor ASRFLAG_READY ASRFLAG_INPUT_TIMERS
        | _ => True
        end).
Proof.
  cbv zeta. rewrite whisper_reset_eq. cbv zeta.
  repeat split.
  - destruct (start_input_timers context); reflexivity.
  - destruct (start_input_timers context); reflexivity.
  - destruct (start_input_timers context); reflexivity.
  - destruct (start_input_timers context); reflexivity.
  - destruct (start_input_timers context); reflexivity.
  - destruct (start_input_timers context); reflexivity.
  - destruct (start_input_timers context); reflexivity.
  - destruct (start_input_timers context); reflexivity.
  - destruct (start_input_timers context); reflexivity.
  - intros now' w'. rewrite whisper_reset_eq.
    destruct (start_input_timers context) eqn:E; cbn; rewrite E; reflexivity.
  - intros flags0 native_rate0 rate dest server_url now0 w0.
    apply whisper_open_flags.
Qed.

(** C3, as the code has it.  [whisper_reset] does not empty the result
    text: it stores the fixed text "agent" with confidence 87.3.  It
    clears RESULT (no result is flagged as pending), re-arms the
    no-input timestamp with the current time, and resets the
    voice-activity detector when the session has one. *)
Theorem whisper_reset_result_text (context : whisper_t) (now : Z) (w : world) :
  let r := whisper_reset context now w in
  result_text (fst r) = Some "agent"%string
  /\ result_confidence (fst r) = double_87_3
  /\ ctx_test_flag (fst r) ASRFLAG_RESULT = false
  /\ no_input_time (fst r) = now
  /\ w_trace (snd r)
     = (w_trace w
        ++ match vad context with LIVE => [EvVadReset] | NULL => [] end)%list.
Proof.
  cbv zeta. rewrite whisper_reset_trace, whisper_reset_eq. cbv zeta.
  destruct (start_input_timers context); repeat split; reflexivity.
Qed.

Lemma with_private_info_same (ah : switch_asr_handle_t) :
  with_private_info ah (private_info ah) = ah.
Proof. destruct ah; reflexivity. Qed.

Lemma int_wrap_small (z : Z) : - 2 ^ 31 <= z < 2 ^ 31 -> int_wrap z = z.
Proof.
  intros Hz. unfold int_wrap.
  rewrite Z.mod_small; lia.
Qed.

(** ** [whisper_start_input_timers] *)

(** C10. On an open session [whisper_start_input_timers] returns
    success; with INPUT_TIMERS already set it changes nothing (flag and
    no-input timestamp included); with the flag clear it sets the flag
    and stores the current time in the no-input timestamp; and a second
    call, at any later time, leaves the session as the first call left
    it. *)
Theorem whisper_start_input_timers_idempotent
    (ah : switch_asr_handle_t) (now1 now2 : Z) :
  ah_test_flag ah SWITCH_ASR_FLAG_CLOSED = false ->
  let r1 := whisper_start_input_timers ah now1 in
  fst r1 = SWITCH_STATUS_SUCCESS
  /\ (ctx_test_flag (private_info ah) ASRFLAG_INPUT_TIMERS = true ->
      snd r1 = ah)
  /\ (ctx_test_flag (private_info ah) ASRFLAG_INPUT_TIMERS = false ->
      snd r1
      = with_private_info ah
          (with_no_input_time
             (ctx_set_flag (private_info ah) ASRFLAG_INPUT_TIMERS) now1)
      /\ ctx_test_flag (private_info (snd r1)) ASRFLAG_INPUT_TIMERS = true
      /\ no_input_time (private_info (snd r1)) = now1)
  /\ whisper_start_input_timers (snd r1) now2 = (SWITCH_STATUS_SUCCESS, snd r1).
Proof.
  intros Hopen. cbv zeta.
  assert (Hset : forall c,
             ctx_test_flag (ctx_set_flag c ASRFLAG_INPUT_TIMERS)
               ASRFLAG_INPUT_TIMERS = true).
  { intros c. flag_bits. reflexivity. }
  unfold whisper_start_input_timers. rewrite Hopen.
  destruct (ctx_test_flag (private_info ah) ASRFLAG_INPUT_TIMERS) eqn:Hflag;
    cbn [negb fst snd].
  - rewrite with_private_info_same, Hopen, Hflag. cbn [negb].
    rewrite with_private_info_same.
    repeat split; try reflexivity; discriminate.
  - assert (Hopen' : forall c,
               ah_test_flag (with_private_info ah c) SWITCH_ASR_FLAG_CLOSED
               = false) by (intros c; exact Hopen).
    rewrite Hopen'.
    assert (Hflag' :
              ctx_test_flag
                (private_info
                   (with_private_info ah
                      (with_no_input_time
                         (ctx_set_flag (private_info ah) ASRFLAG_INPUT_TIMERS)
                         now1)))
                ASRFLAG_INPUT_TIMERS = true) by apply Hset.
    rewrite Hflag'. cbn [negb].
    rewrite with_private_info_same.
    repeat split; try reflexivity; try discriminate; try exact Hflag'.
Qed.

(** ** [whisper_check_results] *)

Lemma check_results_disabled_step (ah : switch_asr_handle_t) (now : Z) :
  no_input_timeout (private_info ah) < 0 ->
  ctx_test_flag (private_info ah) ASRFLAG_START_OF_SPEECH = false ->
  snd (whisper_check_results ah now) = ah
  /\ (fst (whisper_check_results ah now) = SWITCH_STATUS_SUCCESS ->
      ctx_test_flag (private_info ah) ASRFLAG_RESULT = true
      \/ ctx_test_flag (private_info ah) ASRFLAG_NOINPUT_TIMEOUT = true).
Proof.
  intros Hneg Hsos. unfold whisper_check_results.
  destruct (ctx_test_flag (private_info ah) ASRFLAG_RETURNED_RESULT
            || ah_test_flag ah SWITCH_ASR_FLAG_CLOSED);
    [split; [reflexivity | discriminate] |].
  rewrite Hsos, andb_false_r.
  assert (Hoff : (no_input_timeout (private_info ah) >=? 0) = false)
    by (rewrite Z.geb_leb; apply Z.leb_gt; lia).
  rewrite Hoff. cbn [negb andb].
  rewrite !andb_false_r. cbn [andb].
  destruct (ctx_test_flag (private_info ah) ASRFLAG_RESULT) eqn:Hres;
    destruct (ctx_test_flag (private_info ah) ASRFLAG_NOINPUT_TIMEOUT) eqn:Hni;
    cbn [negb andb orb fst snd]; rewrite ?Hres, ?Hni; cbn [orb fst snd];
    rewrite with_private_info_same; split; auto; discriminate.
Qed.

(** C7. With a negative no-input timeout and START_OF_SPEECH clear, a
    run of [whisper_check_results] calls, at whatever clock readings,
    changes nothing in the session, so it never sets NOINPUT_TIMEOUT;
    and when that flag was not set before the run, it is not set after
    it and a call reports ready only because a result is pending. *)
Theorem check_results_no_input_disabled
    (ah : switch_asr_handle_t) (times : list Z) :
  no_input_timeout (private_info ah) < 0 ->
  ctx_test_flag (private_info ah) ASRFLAG_START_OF_SPEECH = false ->
  snd (check_results_run ah times) = ah
  /\ (ctx_test_flag (private_info ah) ASRFLAG_NOINPUT_TIMEOUT = false ->
      ctx_test_flag (private_info (snd (check_results_run ah times)))
        ASRFLAG_NOINPUT_TIMEOUT = false
      /\ Forall (fun status =>
                   status = SWITCH_STATUS_SUCCESS ->
                   ctx_test_flag (private_info ah) ASRFLAG_RESULT = true)
                (fst (check_results_run ah times))).
Proof.
  intros Hneg Hsos.
  induction times as [| now times IH]; cbn [check_results_run].
  - split; [reflexivity |]. intros Hni. split; [exact Hni | constructor].
  - destruct (check_results_disabled_step ah now Hneg Hsos) as [Hsame Hst].
    destruct (whisper_check_results ah now) as [status ah1].
    cbn [fst snd] in Hsame, Hst. subst ah1.
    destruct IH as [IHsame IHrep].
    destruct (check_results_run ah times) as [statuses ah2].
    cbn [fst snd] in *. split; [exact IHsame |].
    intros Hni. destruct (IHrep Hni) as [Hni2 Hall].
    split; [exact Hni2 |]. constructor; [| exact Hall].
    intros Hs. destruct (Hst Hs) as [Hr | Hn]; [exact Hr | congruence].
Qed.

(** ** [whisper_get_results] *)

(** The entry guard: once RETURNED_RESULT is set nothing more is handed
    out and nothing is reported ready. *)
Lemma get_results_returned (ah : switch_asr_handle_t) :
  ctx_test_flag (private_info ah) ASRFLAG_RETURNED_RESULT = true ->
  whisper_get_results ah = (SWITCH_STATUS_FALSE, None, ah).
Proof. intros Hret. unfold whisper_get_results. now rewrite Hret. Qed.

Lemma check_results_returned (ah : switch_asr_handle_t) (now : Z) :
  ctx_test_flag (private_info ah) ASRFLAG_RETURNED_RESULT = true ->
  whisper_check_results ah now = (SWITCH_STATUS_BREAK, ah).
Proof. intros Hret. unfold whisper_check_results. now rewrite Hret. Qed.

(** The branch taken when RESULT is set. *)
Lemma get_results_result (ah : switch_asr_handle_t) :
  ah_test_flag ah SWITCH_ASR_FLAG_CLOSED = false ->
  ctx_test_flag (private_info ah) ASRFLAG_RETURNED_RESULT = false ->
  ctx_test_flag (private_info ah) ASRFLAG_RESULT = true ->
  whisper_get_results ah
  = (if partial (private_info ah) >? 0
     then SWITCH_STATUS_MORE_DATA else SWITCH_STATUS_SUCCESS,
     Some (result_json (private_info ah)),
     with_private_info ah
       (let context :=
          with_partial (private_info ah)
            (int_wrap (partial (private_info ah) - 1)) in
        if partial (private_info ah) >? 0 then context
        else ctx_clear_flag (ctx_set_flag context ASRFLAG_RETURNED_RESULT)
               ASRFLAG_READY)).
Proof.
  intros Hopen Hret Hres. unfold whisper_get_results.
  rewrite Hopen, Hret, Hres. cbn [orb].
  destruct (partial (private_info ah) >? 0); reflexivity.
Qed.

Lemma get_results_run_partial (k : nat) :
  forall ah : switch_asr_handle_t,
    ah_test_flag ah SWITCH_ASR_FLAG_CLOSED = false ->
    ctx_test_flag (private_info ah) ASRFLAG_RETURNED_RESULT = false ->
    ctx_test_flag (private_info ah) ASRFLAG_RESULT = true ->
    Z.of_nat k <= partial (private_info ah) < 2 ^ 31 ->
    get_results_run ah k
    = (repeat SWITCH_STATUS_MORE_DATA k,
       with_private_info ah
         (with_partial (private_info ah)
            (partial (private_info ah) - Z.of_nat k))).
Proof.
  induction k as [| k IH]; intros ah Hopen Hret Hres Hrange.
  - cbn [get_results_run repeat]. rewrite Z.sub_0_r.
    destruct ah as [f c r context]; destruct context; reflexivity.
  - cbn [get_results_run repeat].
    rewrite (get_results_result ah Hopen Hret Hres).
    assert (Hpos : (partial (private_info ah) >? 0) = true)
      by (apply Z.gtb_lt; lia).
    rewrite Hpos. cbv zeta.
    rewrite int_wrap_small by lia.
    replace (partial (private_info ah) - Z.of_nat (S k))
      with (partial (private_info ah) - 1 - Z.of_nat k) by lia.
    rewrite IH; try assumption.
    + destruct ah as [f c r context]; destruct context. reflexivity.
    + destruct ah as [f c r context]; destruct context.
      cbn [private_info with_private_info partial with_partial] in *. lia.
Qed.

(** C5. On an open session with a result pending, not yet returned, and
    the partial counter at [N] (a C [int], so [N < 2^31]):
    - each of the first [N] calls of [whisper_get_results] returns
      SWITCH_STATUS_MORE_DATA; after [k <= N] of them the counter is
      [N - k] and the flag word is untouched, so RETURNED_RESULT is still
      clear;
    - the call after them returns SWITCH_STATUS_SUCCESS with the result
      string, sets RETURNED_RESULT and clears READY;
    - setting the parameter "partial" to a value the host reads as true
      makes the counter 3. *)
Theorem partial_results_then_final (ah : switch_asr_handle_t) (N : nat) :
  ah_test_flag ah SWITCH_ASR_FLAG_CLOSED = false ->
  ctx_test_flag (private_info ah) ASRFLAG_RETURNED_RESULT = false ->
  ctx_test_flag (private_info ah) ASRFLAG_RESULT = true ->
  partial (private_info ah) = Z.of_nat N ->
  Z.of_nat N < 2 ^ 31 ->
  (forall k, (k <= N)%nat ->
     let r := get_results_run ah k in
     fst r = repeat SWITCH_STATUS_MORE_DATA k
     /\ partial (private_info (snd r)) = Z.of_nat N - Z.of_nat k
     /\ flags (private_info (snd r)) = flags (private_info ah)
     /\ ctx_test_flag (private_info (snd r)) ASRFLAG_RETURNED_RESULT = false)
  /\ (exists ah',
        whisper_get_results (snd (get_results_run ah N))
        = (SWITCH_STATUS_SUCCESS, Some (result_json (private_info ah)), ah')
        /\ ctx_test_flag (private_info ah') ASRFLAG_RETURNED_RESULT = true
        /\ ctx_test_flag (private_info ah') ASRFLAG_READY = false)
  /\ (forall (ah0 : switch_asr_handle_t) (val : string) (w : world),
        zstr val = false -> switch_true val = true ->
        partial (private_info (fst (whisper_text_param ah0 "partial" val w)))
        = 3).
Proof.
  intros Hopen Hret Hres HN Hint. split; [| split].
  - intros k Hk. cbv zeta.
    rewrite get_results_run_partial by (try assumption; lia).
    cbn [fst snd]. rewrite HN.
    destruct ah as [f c r context]; destruct context. cbn in *.
    repeat split; try reflexivity. exact Hret.
  - rewrite get_results_run_partial by (try assumption; lia).
    cbn [snd]. rewrite HN, Z.sub_diag.
    set (ahN := with_private_info ah (with_partial (private_info ah) 0)).
    assert (HopenN : ah_test_flag ahN SWITCH_ASR_FLAG_CLOSED = false)
      by exact Hopen.
    assert (HretN :
              ctx_test_flag (private_info ahN) ASRFLAG_RETURNED_RESULT = false)
      by (destruct ah as [f c r context]; destruct context; exact Hret).
    assert (HresN : ctx_test_flag (private_info ahN) ASRFLAG_RESULT = true)
      by (destruct ah as [f c r context]; destruct context; exact Hres).
    rewrite (get_results_result ahN HopenN HretN HresN).
    assert (Hzero : partial (private_info ahN) = 0)
      by (destruct ah as [f c r context]; destruct context; reflexivity).
    rewrite Hzero. cbn [Z.gtb Z.compare]. cbv zeta.
    eexists. split; [| split].
    + reflexivity.
    + clear -Hret. subst ahN. flag_bits. reflexivity.
    + clear -Hret. subst ahN. flag_bits. reflexivity.
  - intros ah0 val w Hval Htrue.
    destruct w as [al co va wr wa re tr].
    unfold whisper_text_param. rewrite Hval.
    cbn -[atoi atof switch_true switch_is_number double_ge_zero].
    rewrite Htrue. reflexivity.
Qed.

(** C6, with the entry guard.  On an open session with NOINPUT_TIMEOUT
    set, RESULT clear and RETURNED_RESULT still clear,
    [whisper_get_results] returns SWITCH_STATUS_SUCCESS with the no-input
    string (the grammar echoed, an empty text, confidence 0 and the
    error "no_input"), sets RETURNED_RESULT and clears READY; nothing
    else in the session changes. *)
Theorem get_results_no_input (ah : switch_asr_handle_t) :
  ah_test_flag ah SWITCH_ASR_FLAG_CLOSED = false ->
  ctx_test_flag (private_info ah) ASRFLAG_RETURNED_RESULT = false ->
  ctx_test_flag (private_info ah) ASRFLAG_NOINPUT_TIMEOUT = true ->
  ctx_test_flag (private_info ah) ASRFLAG_RESULT = false ->
  let ah' :=
    with_private_info ah
      (ctx_clear_flag
         (ctx_set_flag (private_info ah) ASRFLAG_RETURNED_RESULT)
         ASRFLAG_READY) in
  whisper_get_results ah
  = (SWITCH_STATUS_SUCCESS, Some (no_input_json (private_info ah)), ah')
  /\ no_input_json (private_info ah)
     = ("{" ++ dq ++ "grammar" ++ dq ++ ": "
        ++ dq ++ fmt_s (grammar (private_info ah)) ++ dq
        ++ ", " ++ dq ++ "text" ++ dq ++ ": " ++ dq ++ dq
        ++ ", " ++ dq ++ "confidence" ++ dq ++ ": 0"
        ++ ", " ++ dq ++ "error" ++ dq ++ ": " ++ dq ++ "no_input" ++ dq
        ++ "}")%string
  /\ ctx_test_flag (private_info ah') ASRFLAG_RETURNED_RESULT = true
  /\ ctx_test_flag (private_info ah') ASRFLAG_READY = false.
Proof.
  intros Hopen Hret Hni Hres. cbv zeta.
  split; [| split; [reflexivity | split]].
  - unfold whisper_get_results. rewrite Hopen, Hret, Hres, Hni. reflexivity.
  - flag_bits. reflexivity.
  - flag_bits. reflexivity.
Qed.

(** ** Running the monad *)

Ltac monad_simpl :=
  cbv beta iota zeta delta
    [bind ret emit pop_alloc pop_connect pop_vad pop_write pop_wait pop_read
     kws_write_frame kws_wait_sock kws_read_frame switch_vad_process
     w_alloc w_connect w_vad w_write w_wait w_read w_trace fst snd] in *.

(** ** [whisper_close] *)

Lemma whisper_close_eq (ah : switch_asr_handle_t) (w : world) :
  whisper_close ah w
  = (SWITCH_STATUS_FALSE,
     with_private_info
       (with_ah_flags ah
          (switch_set_flag (ah_flags ah) SWITCH_ASR_FLAG_CLOSED))
       (with_audio_buffer (with_ws (private_info ah) NULL) None),
     mk_world (w_alloc w) (w_connect w) (w_vad w) (w_write w) (w_wait w)
       (w_read w)
       (w_trace w
        ++ [EvMutexLock; EvKwsClose (ws (private_info ah));
            EvKwsDestroy (ws (private_info ah));
            EvBufferDestroy
              (match audio_buffer (private_info ah) with
               | Some _ => LIVE
               | None => NULL
               end);
            EvMutexUnlock])%list).
Proof.
  destruct w as [al co va wr wa re tr].
  unfold whisper_close. monad_simpl.
  unfold ah_test_flag. cbn [ah_flags with_ah_flags].
  rewrite test_set_flag_same by apply SWITCH_ASR_FLAG_CLOSED_nonzero.
  rewrite <- !app_assoc. reflexivity.
Qed.

(** C1, what the code does.  [whisper_close] sets the handle's CLOSED
    flag before it tests it, so every call, the first included, returns
    SWITCH_STATUS_FALSE and never reaches the release of the
    voice-activity detector; and every call, the second included, has by
    then called [kws_close], [kws_destroy] and [switch_buffer_destroy]
    on whatever the session holds.  For two calls in a row: both return
    SWITCH_STATUS_FALSE, the detector pointer is what it was before the
    first, and the second call's part of the trace shows the three
    library calls on the pointers the first call had released. *)
Theorem whisper_close_twice (ah : switch_asr_handle_t) (w : world) :
  let first := whisper_close ah w in
  let second := whisper_close (snd (fst first)) (snd first) in
  fst (fst first) = SWITCH_STATUS_FALSE
  /\ fst (fst second) = SWITCH_STATUS_FALSE
  /\ vad (private_info (snd (fst first))) = vad (private_info ah)
  /\ vad (private_info (snd (fst second))) = vad (private_info ah)
  /\ ~ In EvVadDestroy
       (skipn (List.length (w_trace w)) (w_trace (snd second)))
  /\ w_trace (snd second)
     = (w_trace (snd first)
        ++ [EvMutexLock; EvKwsClose NULL; EvKwsDestroy NULL;
            EvBufferDestroy NULL; EvMutexUnlock])%list.
Proof.
  cbv zeta. rewrite (whisper_close_eq ah w). cbn [fst snd].
  rewrite whisper_close_eq. cbn [fst snd w_trace].
  repeat split.
  rewrite <- app_assoc, skipn_app, skipn_all, Nat.sub_diag.
  cbn. intros H. repeat (destruct H as [H | H]; [discriminate H |]).
  exact H.
Qed.

(** ** [whisper_send_final_bit] *)

Lemma with_result_text_same (c : whisper_t) :
  with_result_text c (result_text c) = c.
Proof. destruct c; reflexivity. Qed.

(** The handshake when the transport works: the request is written, the
    socket becomes readable within the bound, and one frame is read. *)
Lemma send_final_bit_ok (c : whisper_t) (w : world) oc rdata :
  0 <= hd (-1) (w_write w) ->
  hd false (w_wait w) = true ->
  hd None (w_read w) = Some (oc, rdata) ->
  whisper_send_final_bit c w
  = (SWITCH_STATUS_SUCCESS, with_result_text c (Some (c_str rdata)),
     mk_world (w_alloc w) (w_connect w) (w_vad w) (tl (w_write w))
       (tl (w_wait w)) (tl (w_read w))
       (w_trace w
        ++ [EvKwsWrite WSOC_TEXT eof_request; EvKwsWait 60000; EvKwsRead;
            EvMutexUnlock])%list).
Proof.
  destruct w as [al co va wr wa re tr]. cbn [w_write w_wait w_read].
  intros Hwr Hwa Hre. unfold whisper_send_final_bit. monad_simpl.
  assert (Hlt : (hd (-1) wr <? 0) = false) by (apply Z.ltb_ge; exact Hwr).
  rewrite Hlt. monad_simpl. rewrite Hwa. cbn [negb]. monad_simpl.
  rewrite Hre. monad_simpl.
  rewrite <- !app_assoc. reflexivity.
Qed.

(** Whatever the transport does, the handshake touches nothing of the
    session but the result text, and its status is success or BREAK. *)
Lemma send_final_bit_frame (c : whisper_t) (w : world) :
  let r := whisper_send_final_bit c w in
  (fst (fst r) = SWITCH_STATUS_SUCCESS \/ fst (fst r) = SWITCH_STATUS_BREAK)
  /\ exists t, snd (fst r) = with_result_text c t.
Proof.
  destruct w as [al co va wr wa re tr].
  unfold whisper_send_final_bit. monad_simpl.
  destruct (hd (-1) wr <? 0); monad_simpl;
    [| destruct (hd false wa); cbn [negb]; monad_simpl;
       [destruct (hd None re) as [[oc rdata] |]; monad_simpl |]];
    (split; [auto |]);
    solve [ exists (result_text c); symmetry; apply with_result_text_same
          | eexists; reflexivity ].
Qed.

Lemma feed_effect_refl (l : list Z) (c : whisper_t) : feed_effect l c c.
Proof. unfold feed_effect. auto. Qed.

Lemma feed_effect_trans (l : list Z) (c1 c2 c3 : whisper_t) :
  feed_effect l c1 c2 -> feed_effect l c2 c3 -> feed_effect l c1 c3.
Proof.
  unfold feed_effect.
  intros (Hp & Hg & Hc & Hb & Hr) (Hp' & Hg' & Hc' & Hb' & Hr').
  repeat split; try congruence; auto.
  intros k Hk Hin. rewrite Hb', Hb; auto.
Qed.

Lemma feed_effect_incl (l l' : list Z) (c c' : whisper_t) :
  incl l l' -> feed_effect l c c' -> feed_effect l' c c'.
Proof.
  unfold feed_effect. intros Hincl (Hp & Hg & Hc & Hb & Hr).
  repeat split; auto.
Qed.

Lemma feed_effect_text (l : list Z) (c : whisper_t) t :
  feed_effect l c (with_result_text c t).
Proof. unfold feed_effect. destruct c; cbn. auto. Qed.

Lemma feed_effect_buffer (l : list Z) (c : whisper_t) b :
  feed_effect l c (with_audio_buffer c b).
Proof. unfold feed_effect. destruct c; cbn. auto. Qed.

Lemma feed_effect_set (l : list Z) (c : whisper_t) (k : Z) :
  0 <= k -> In k l -> feed_effect l c (ctx_set_flag c (Z.shiftl 1 k)).
Proof.
  intros Hk Hin. unfold feed_effect, ctx_set_flag.
  destruct c; cbn [partial grammar result_confidence flags with_flags].
  repeat split.
  - intros j Hj Hnot. rewrite testbit_set_flag_bit by assumption.
    destruct (Z.eqb_spec j k) as [-> | _]; [contradiction | apply orb_false_r].
  - intros Hset. rewrite testbit_set_flag_bit by assumption.
    now rewrite Hset.
Qed.

Lemma feed_effect_clear (l : list Z) (c : whisper_t) (k : Z) :
  0 <= k -> k <> 5 -> In k l -> feed_effect l c (ctx_clear_flag c (Z.shiftl 1 k)).
Proof.
  intros Hk H5 Hin. unfold feed_effect, ctx_clear_flag.
  destruct c; cbn [partial grammar result_confidence flags with_flags].
  repeat split.
  - intros j Hj Hnot. rewrite testbit_clear_flag_bit by assumption.
    destruct (Z.eqb_spec j k) as [-> | _]; [contradiction | apply andb_true_r].
  - intros Hset. rewrite testbit_clear_flag_bit by lia.
    rewrite Hset. destruct (Z.eqb_spec 5 k); [lia | reflexivity].
Qed.

Lemma feed_effect_speech_time (l : list Z) (c : whisper_t) t :
  feed_effect l c (with_speech_time c t).
Proof. unfold feed_effect. destruct c; cbn. auto. Qed.

(** ** The blocks of [whisper_feed], whatever the world answers *)

Lemma feed_timeout_effect (c : whisper_t) (w : world) :
  feed_effect [5; 7] c (flow_context (fst (feed_timeout c w))).
Proof.
  unfold feed_timeout.
  destruct (ctx_test_flag c ASRFLAG_TIMEOUT); [| apply feed_effect_refl].
  unfold bind at 1.
  pose proof (send_final_bit_frame c w) as [Hst [t Hc]].
  destruct (whisper_send_final_bit c w) as [[st c'] w'].
  cbn [fst snd] in Hst, Hc. subst c'.
  destruct Hst as [-> | ->]; cbn [switch_status_eqb negb]; monad_simpl;
    cbn [flow_context].
  - eapply feed_effect_trans; [apply feed_effect_text |].
    eapply feed_effect_trans.
    + apply (feed_effect_set _ _ 5); [lia | cbn; auto].
    + apply (feed_effect_clear _ _ 7); [lia | lia | cbn; auto].
  - apply feed_effect_text.
Qed.

Lemma feed_talking_effect (c : whisper_t) (data : list byte) (w : world) :
  feed_effect [] c (flow_context (fst (feed_talking c data w))).
Proof.
  destruct w as [al co va wr wa re tr].
  unfold feed_talking. monad_simpl.
  set (buffered := (buffer_bytes c ++ data)%list).
  destruct (Z.of_nat (List.length buffered) >? AUDIO_BLOCK_SIZE); monad_simpl.
  - destruct (hd (-1) wr <? 0); monad_simpl; cbn [flow_context].
    + eapply feed_effect_trans; apply feed_effect_buffer.
    + destruct (hd false wa); cbn [negb]; monad_simpl; cbn [flow_context];
        [| eapply feed_effect_trans; apply feed_effect_buffer].
      destruct (hd None re) as [[[] rdata] |]; monad_simpl; cbn [flow_context];
        try (eapply feed_effect_trans; apply feed_effect_buffer);
        (eapply feed_effect_trans;
         [eapply feed_effect_trans; apply feed_effect_buffer
         | apply feed_effect_text]).
  - destruct (hd false wa); cbn [negb]; monad_simpl; cbn [flow_context];
      [| apply feed_effect_buffer].
    destruct (hd None re) as [[[] rdata] |]; monad_simpl; cbn [flow_context];
      try apply feed_effect_buffer;
      (eapply feed_effect_trans;
       [apply feed_effect_buffer | apply feed_effect_text]).
Qed.

Lemma feed_edges_effect (c : whisper_t) v (now : Z) (w : world) :
  feed_effect [0; 2; 5] c (flow_context (fst (feed_edges c v now w))).
Proof.
  unfold feed_edges. destruct v; try apply feed_effect_refl.
  - cbn [ret fst flow_context]. eapply feed_effect_trans.
    + apply (feed_effect_set _ _ 2); [lia | cbn; auto].
    + apply feed_effect_speech_time.
  - unfold bind at 1.
    pose proof (send_final_bit_frame c w) as [Hst [t Hc]].
    destruct (whisper_send_final_bit c w) as [[st c'] w'].
    cbn [fst snd] in Hst, Hc. subst c'.
    destruct Hst as [-> | ->]; cbn [switch_status_eqb negb]; monad_simpl;
      cbn [flow_context].
    + eapply feed_effect_trans; [apply feed_effect_text |].
      eapply feed_effect_trans.
      * apply (feed_effect_set _ _ 5); [lia | cbn; auto].
      * apply (feed_effect_clear _ _ 0); [lia | lia | cbn; auto].
    + apply feed_effect_text.
Qed.

Lemma feed_talking_status (c : whisper_t) (data : list byte) (w : world) :
  match fst (feed_talking c data w) with
  | Return s _ => s = SWITCH_STATUS_SUCCESS \/ s = SWITCH_STATUS_BREAK
  | Continue _ => True
  end.
Proof.
  destruct w as [al co va wr wa re tr].
  unfold feed_talking. monad_simpl.
  destruct (_ >? AUDIO_BLOCK_SIZE); monad_simpl;
    try (destruct (hd (-1) wr <? 0); monad_simpl);
    try (destruct (hd false wa); cbn [negb]; monad_simpl);
    try (destruct (hd None re) as [[[] rdata] |]; monad_simpl);
    auto.
Qed.

Lemma feed_edges_status (c : whisper_t) v (now : Z) (w : world) :
  match fst (feed_edges c v now w) with
  | Return s _ => s = SWITCH_STATUS_BREAK
  | Continue _ => True
  end.
Proof.
  unfold feed_edges. destruct v; try exact I.
  unfold bind at 1.
  destruct (whisper_send_final_bit c w) as [[st c'] w'].
  destruct (negb (switch_status_eqb st SWITCH_STATUS_SUCCESS));
    monad_simpl; [reflexivity | exact I].
Qed.

Lemma feed_ready_effect (c : whisper_t) (data : list byte) (now : Z) (w : world) :
  let r := feed_ready c data now w in
  (fst (fst r) = SWITCH_STATUS_SUCCESS \/ fst (fst r) = SWITCH_STATUS_BREAK)
  /\ feed_effect [0; 2; 5] c (snd (fst r)).
Proof.
  cbv zeta.
  destruct (feed_ready c data now w) as [[st c'] w'] eqn:E. cbn [fst snd].
  unfold feed_ready in E.
  destruct (ctx_test_flag c ASRFLAG_READY);
    [| inversion E; subst; split; [auto | apply feed_effect_refl]].
  unfold bind in E.
  destruct (switch_vad_process (Z.of_nat (List.length data) / 2) w)
    as [v w1].
  assert (Htalk :
            exists f w2,
              (match v with
               | SWITCH_VAD_STATE_TALKING => feed_talking c data
               | _ => ret (Continue c)
               end) w1 = (f, w2)
              /\ feed_effect [] c (flow_context f)
              /\ match f with
                 | Return s _ =>
                     s = SWITCH_STATUS_SUCCESS \/ s = SWITCH_STATUS_BREAK
                 | Continue _ => True
                 end).
  { destruct v;
      try (exists (Continue c), w1;
           split; [reflexivity | split; [apply feed_effect_refl | exact I]]).
    pose proof (feed_talking_effect c data w1) as Heff.
    pose proof (feed_talking_status c data w1) as Hst.
    destruct (feed_talking c data w1) as [f w2].
    exists f, w2. split; [reflexivity | split; assumption]. }
  destruct Htalk as (f & w2 & Ef & Heff & Hst). rewrite Ef in E.
  assert (Hweak : feed_effect [0; 2; 5] c (flow_context f))
    by (eapply feed_effect_incl; [| exact Heff]; intros k []).
  destruct f as [s c1 | c1]; cbn [flow_context] in Hweak.
  - inversion E; subst. split; assumption.
  - pose proof (feed_edges_effect c1 v now w2) as Hedge.
    pose proof (feed_edges_status c1 v now w2) as Hedge_st.
    destruct (feed_edges c1 v now w2) as [[s c2 | c2] w3];
      cbn [fst snd ret flow_context] in *; inversion E; subst;
      (split; [auto | eapply feed_effect_trans; eassumption]).
Qed.

(** ** [whisper_feed] when it does not auto-resume *)

Lemma whisper_feed_effect (ah : switch_asr_handle_t) (data : list byte)
    (now : Z) (w : world) :
  ctx_test_flag (private_info ah) ASRFLAG_RETURNED_RESULT
  && ah_test_flag ah SWITCH_ASR_FLAG_AUTO_RESUME = false ->
  let r := whisper_feed ah data now w in
  ah_flags (snd (fst r)) = ah_flags ah
  /\ feed_effect [0; 2; 5; 7] (private_info ah) (private_info (snd (fst r))).
Proof.
  intros Hno. cbv zeta.
  destruct (whisper_feed ah data now w) as [[st ah'] w'] eqn:E. cbn [fst snd].
  unfold whisper_feed in E.
  destruct (ah_test_flag ah SWITCH_ASR_FLAG_CLOSED).
  { inversion E; subst. split; [reflexivity | apply feed_effect_refl]. }
  rewrite Hno in E. unfold bind in E. cbn [ret] in E.
  pose proof (feed_timeout_effect (private_info ah) w) as Htime.
  destruct (feed_timeout (private_info ah) w) as [[s c1 | c1] w1];
    cbn [fst flow_context] in Htime.
  - inversion E; subst. cbn. split; [reflexivity |].
    eapply feed_effect_incl; [| exact Htime].
    intros k Hk. cbn in *. tauto.
  - pose proof (feed_ready_effect c1 data now w1) as [_ Hready].
    destruct (feed_ready c1 data now w1) as [[s2 c2] w2].
    cbn [fst snd] in *. inversion E; subst. cbn. split; [reflexivity |].
    eapply feed_effect_trans.
    + eapply feed_effect_incl; [| exact Htime]. intros k Hk. cbn in *. tauto.
    + eapply feed_effect_incl; [| exact Hready]. intros k Hk. cbn in *. tauto.
Qed.

(** ** [whisper_text_param] and the flag word *)

Lemma whisper_text_param_flags (ah : switch_asr_handle_t) (param val : string)
    (w : world) (k : Z) :
  0 <= k -> k <> 1 ->
  let ah' := fst (whisper_text_param ah param val w) in
  ah_flags ah' = ah_flags ah
  /\ Z.testbit (flags (private_info ah')) k
     = Z.testbit (flags (private_info ah)) k.
Proof.
  intros Hk H1. cbv zeta.
  destruct w as [al co va wr wa re tr].
  unfold whisper_text_param.
  destruct (negb (zstr param) && negb (zstr val)); [| split; reflexivity].
  repeat match goal with
         | |- context [if ?b then _ else _] =>
             match b with
             | context [strcaseeq] => destruct b
             end
         end;
    try (destruct (vad (private_info ah)));
    monad_simpl;
    cbn [ah_flags private_info with_private_info flags with_flags
         with_no_input_timeout with_speech_timeout with_voice_ms
         with_silence_ms with_thresh with_channel_uuid with_result_text
         with_result_confidence with_partial];
    try (split; reflexivity).
  all: cbn [start_input_timers with_start_input_timers];
    destruct (switch_true val); unfold ctx_set_flag, ctx_clear_flag;
    cbn [flags with_flags]; unfold ASRFLAG_INPUT_TIMERS;
    (split; [reflexivity |]);
    rewrite ?testbit_set_flag_bit, ?testbit_clear_flag_bit by lia;
    destruct (Z.eqb_spec k 1); try lia; cbn [negb];
    rewrite ?orb_false_r, ?andb_true_r; reflexivity.
Qed.

(** ** RETURNED_RESULT across the calls of the interface *)

Lemma returned_bit (c : whisper_t) :
  ctx_test_flag c ASRFLAG_RETURNED_RESULT = Z.testbit (flags c) 6.
Proof. unfold ctx_test_flag, ASRFLAG_RETURNED_RESULT. now apply test_flag_bit. Qed.

Lemma run_op_latched (o : op) (ah : switch_asr_handle_t) (w : world) :
  ctx_test_flag (private_info ah) ASRFLAG_RETURNED_RESULT = true ->
  no_auto_resume ah ->
  zeroes_flags o = false ->
  let r := run_op o ah w in
  ctx_test_flag (private_info (snd (fst r))) ASRFLAG_RETURNED_RESULT = true
  /\ no_auto_resume (snd (fst r))
  /\ turned_away (o, fst (fst (fst r)), snd (fst (fst r))).
Proof.
  intros Hret Hauto Hop. cbv zeta.
  destruct o; try discriminate Hop; unfold run_op.
  - (* load grammar *)
    unfold whisper_load_grammar.
    destruct (ah_test_flag ah SWITCH_ASR_FLAG_CLOSED); cbn [ret fst snd];
      repeat split; assumption.
  - (* unload grammar *)
    cbn. repeat split; assumption.
  - (* close *)
    unfold bind. rewrite whisper_close_eq. cbn [ret fst snd].
    repeat split; [exact Hret |].
    right. unfold ah_test_flag. cbn [ah_flags with_private_info with_ah_flags].
      apply test_set_flag_same, SWITCH_ASR_FLAG_CLOSED_nonzero.
  - (* feed *)
    unfold bind.
    destruct (ah_test_flag ah SWITCH_ASR_FLAG_CLOSED) eqn:Hclosed.
    + unfold whisper_feed. rewrite Hclosed. cbn [ret fst snd].
      repeat split; assumption.
    + assert (Hno : ctx_test_flag (private_info ah) ASRFLAG_RETURNED_RESULT
                    && ah_test_flag ah SWITCH_ASR_FLAG_AUTO_RESUME = false).
      { destruct Hauto as [-> | Habs]; [apply andb_false_r | congruence]. }
      pose proof (whisper_feed_effect ah data now w Hno) as [Hflags Heff].
      destruct (whisper_feed ah data now w) as [[st ah'] w'].
      cbn [ret fst snd] in *.
      destruct Heff as (_ & _ & _ & Hbits & _).
      repeat split.
      * rewrite returned_bit in *. rewrite Hbits; [exact Hret | lia |].
        cbn. intros [H | [H | [H | [H | []]]]]; discriminate H.
      * unfold no_auto_resume, ah_test_flag in *. now rewrite Hflags.
  - (* check results *)
    rewrite check_results_returned by exact Hret. cbn.
    repeat split; assumption.
  - (* get results *)
    rewrite get_results_returned by exact Hret. cbn.
    repeat split; assumption.
  - (* start input timers *)
    unfold whisper_start_input_timers.
    destruct (ah_test_flag ah SWITCH_ASR_FLAG_CLOSED); cbn [ret fst snd];
      [repeat split; assumption |].
    destruct (negb (ctx_test_flag (private_info ah) ASRFLAG_INPUT_TIMERS));
      repeat split; try assumption;
      try (destruct ah as [f c r context]; destruct context; exact Hret).
    rewrite returned_bit in *.
    unfold ctx_set_flag, ASRFLAG_INPUT_TIMERS.
    cbn [private_info with_private_info flags with_no_input_time with_flags].
    rewrite testbit_set_flag_bit by lia. now rewrite Hret.
  - (* text param *)
    unfold bind.
    pose proof (whisper_text_param_flags ah param val w 6) as Hparam.
    cbv zeta in Hparam. destruct Hparam as [Hflags Hbit]; [lia | lia |].
    destruct (whisper_text_param ah param val w) as [ah' w'].
    cbn [ret fst snd] in *. repeat split.
    + rewrite returned_bit in *. congruence.
    + unfold no_auto_resume, ah_test_flag in *. now rewrite Hflags.
Qed.

(** C4, with the calls that end the latch named.  Once RETURNED_RESULT
    is set, [whisper_get_results] fails without producing a string and
    [whisper_check_results] reports not ready, both leaving the session
    untouched; and the flag stays set, with every such call turned away,
    through any sequence of calls of the interface that contains neither
    [whisper_resume] nor [whisper_pause] and in which [whisper_feed]
    cannot auto-resume.  Those are the calls that zero the flag word. *)
Theorem returned_result_latched
    (ah : switch_asr_handle_t) (os : list op) (w : world) (now : Z) :
  ctx_test_flag (private_info ah) ASRFLAG_RETURNED_RESULT = true ->
  no_auto_resume ah ->
  forallb (fun o => negb (zeroes_flags o)) os = true ->
  whisper_get_results ah = (SWITCH_STATUS_FALSE, None, ah)
  /\ whisper_check_results ah now = (SWITCH_STATUS_BREAK, ah)
  /\ ctx_test_flag (private_info (snd (fst (run_ops os ah w))))
       ASRFLAG_RETURNED_RESULT = true
  /\ Forall turned_away (fst (fst (run_ops os ah w))).
Proof.
  intros Hret Hauto Hos.
  split; [now apply get_results_returned |].
  split; [now apply check_results_returned |].
  revert ah w Hret Hauto.
  induction os as [| o os IH]; intros ah w Hret Hauto.
  - cbn. split; [exact Hret | constructor].
  - cbn [forallb] in Hos. apply andb_true_iff in Hos as [Ho Hos].
    apply negb_true_iff in Ho.
    cbn [run_ops]. unfold bind.
    pose proof (run_op_latched o ah w Hret Hauto Ho) as Hstep.
    cbv zeta in Hstep.
    destruct (run_op o ah w) as [[[st str] ah1] w1].
    cbn [fst snd] in Hstep. destruct Hstep as (Hret1 & Hauto1 & Haway).
    specialize (IH Hos ah1 w1 Hret1 Hauto1).
    destruct (run_ops os ah1 w1) as [[entries ah2] w2].
    cbn [ret fst snd] in *. destruct IH as [IHret IHall].
    split; [exact IHret | constructor; assumption].
Qed.

(** ** The trace only grows *)

Lemma send_final_bit_trace (c : whisper_t) (w : world) :
  exists rest,
    w_trace (snd (whisper_send_final_bit c w)) = (w_trace w ++ rest)%list.
Proof.
  destruct w as [al co va wr wa re tr].
  unfold whisper_send_final_bit. monad_simpl.
  destruct (hd (-1) wr <? 0); monad_simpl;
    [| destruct (hd false wa); cbn [negb]; monad_simpl;
       [destruct (hd None re) as [[oc rdata] |]; monad_simpl |]];
    rewrite <- ?app_assoc; eexists; reflexivity.
Qed.

Lemma feed_talking_trace (c : whisper_t) (data : list byte) (w : world) :
  exists rest,
    w_trace (snd (feed_talking c data w)) = (w_trace w ++ rest)%list.
Proof.
  destruct w as [al co va wr wa re tr].
  unfold feed_talking. monad_simpl.
  destruct (_ >? AUDIO_BLOCK_SIZE); monad_simpl;
    try (destruct (hd (-1) wr <? 0); monad_simpl);
    try (destruct (hd false wa); cbn [negb]; monad_simpl);
    try (destruct (hd None re) as [[[] rdata] |]; monad_simpl);
    rewrite <- ?app_assoc; eexists; reflexivity.
Qed.

Lemma feed_edges_trace (c : whisper_t) v (now : Z) (w : world) :
  exists rest,
    w_trace (snd (feed_edges c v now w)) = (w_trace w ++ rest)%list.
Proof.
  unfold feed_edges.
  destruct v; try (exists []; cbn; now rewrite app_nil_r).
  unfold bind at 1.
  destruct (send_final_bit_trace c w) as [rest Hrest].
  destruct (whisper_send_final_bit c w) as [[st c'] w'].
  cbn [snd] in Hrest.
  destruct (negb (switch_status_eqb st SWITCH_STATUS_SUCCESS)).
  - exists rest. exact Hrest.
  - destruct w' as [al co va wr wa re tr]. monad_simpl.
    rewrite Hrest, <- app_assoc. eexists; reflexivity.
Qed.

Lemma feed_ready_trace (c : whisper_t) (data : list byte) (now : Z) (w : world) :
  exists rest,
    w_trace (snd (feed_ready c data now w)) = (w_trace w ++ rest)%list.
Proof.
  unfold feed_ready.
  destruct (ctx_test_flag c ASRFLAG_READY);
    [| exists []; cbn; now rewrite app_nil_r].
  unfold bind at 1.
  assert (Hvad : exists rest,
             w_trace (snd (switch_vad_process
                             (Z.of_nat (List.length data) / 2) w))
             = (w_trace w ++ rest)%list).
  { destruct w as [al co va wr wa re tr]. monad_simpl.
    eexists; reflexivity. }
  destruct Hvad as [rest0 H0].
  destruct (switch_vad_process (Z.of_nat (List.length data) / 2) w)
    as [v w1].
  cbn [snd] in H0. unfold bind at 1.
  assert (Htalk : exists rest,
             w_trace (snd ((match v with
                            | SWITCH_VAD_STATE_TALKING => feed_talking c data
                            | _ => ret (Continue c)
                            end) w1))
             = (w_trace w1 ++ rest)%list).
  { destruct v; try (exists []; cbn; now rewrite app_nil_r).
    apply feed_talking_trace. }
  destruct Htalk as [rest1 H1].
  destruct ((match v with
             | SWITCH_VAD_STATE_TALKING => feed_talking c data
             | _ => ret (Continue c)
             end) w1) as [f w2].
  cbn [snd] in H1.
  destruct f as [s c1 | c1].
  - cbn [ret snd]. rewrite H1, H0, <- app_assoc. eexists; reflexivity.
  - unfold bind at 1.
    destruct (feed_edges_trace c1 v now w2) as [rest2 H2].
    destruct (feed_edges c1 v now w2) as [[s c2 | c2] w3];
      cbn [ret snd] in *;
      rewrite H2, H1, H0, <- !app_assoc; eexists; reflexivity.
Qed.

(** ** Keep-alive frames *)

Lemma whisper_feed_prelude (ah : switch_asr_handle_t) (data : list byte)
    (now : Z) (w : world) :
  ah_test_flag ah SWITCH_ASR_FLAG_CLOSED = false ->
  whisper_feed ah data now w
  = match feed_prelude ah now w with
    | (Return s context, w1) => (s, with_private_info ah context, w1)
    | (Continue context, w1) =>
        let r := feed_ready context data now w1 in
        (fst (fst r), with_private_info ah (snd (fst r)), snd r)
    end.
Proof.
  intros Hopen. unfold whisper_feed, feed_prelude. rewrite Hopen.
  unfold bind.
  destruct ((if ctx_test_flag (private_info ah) ASRFLAG_RETURNED_RESULT
                && ah_test_flag ah SWITCH_ASR_FLAG_AUTO_RESUME
             then whisper_reset (private_info ah) now
             else ret (private_info ah)) w) as [c0 w0].
  destruct (feed_timeout c0 w0) as [[s c1 | c1] w1]; [reflexivity |].
  cbv zeta. destruct (feed_ready c1 data now w1) as [[s c2] w2].
  reflexivity.
Qed.

Lemma feed_prelude_idle (ah : switch_asr_handle_t) (now : Z) (w : world) :
  ctx_test_flag (private_info ah) ASRFLAG_RETURNED_RESULT = false ->
  ctx_test_flag (private_info ah) ASRFLAG_TIMEOUT = false ->
  feed_prelude ah now w = (Continue (private_info ah), w).
Proof.
  intros Hret Htime. unfold feed_prelude, feed_timeout.
  rewrite Hret. cbn [andb]. unfold bind, ret. now rewrite Htime.
Qed.

(** C9. An open session is fed a frame; the frame reaches the detector
    (the session is READY once a pending auto-resume or speech timeout
    has been dealt with), the detector classifies it TALKING, and the
    frame read from the backend in that call is a ping.  Then
    [whisper_feed] writes a pong frame with the ping's payload right
    after reading it and returns success, and the flag word is the one
    the session had when the frame reached the detector: the one it had
    before the call, when no result had been returned and no speech
    timeout was pending.  (A block of audio is written first when more
    than [AUDIO_BLOCK_SIZE] bytes are buffered; that write must not have
    failed for the poll to be reached.) *)
Theorem feed_ping_answered_with_pong
    (ah : switch_asr_handle_t) (data : list byte) (now : Z) (w w1 : world)
    (c1 : whisper_t) (payload : list byte) :
  ah_test_flag ah SWITCH_ASR_FLAG_CLOSED = false ->
  feed_prelude ah now w = (Continue c1, w1) ->
  ctx_test_flag c1 ASRFLAG_READY = true ->
  hd SWITCH_VAD_STATE_NONE (w_vad w1) = SWITCH_VAD_STATE_TALKING ->
  let buffered := (buffer_bytes c1 ++ data)%list in
  let flush := Z.of_nat (List.length buffered) >? AUDIO_BLOCK_SIZE in
  (flush = true -> 0 <= hd (-1) (w_write w1)) ->
  hd false (w_wait w1) = true ->
  hd None (w_read w1) = Some (WSOC_PING, payload) ->
  let r := whisper_feed ah data now w in
  fst (fst r) = SWITCH_STATUS_SUCCESS
  /\ flags (private_info (snd (fst r))) = flags c1
  /\ (ctx_test_flag (private_info ah) ASRFLAG_RETURNED_RESULT = false ->
      ctx_test_flag (private_info ah) ASRFLAG_TIMEOUT = false ->
      flags (private_info (snd (fst r))) = flags (private_info ah))
  /\ w_trace (snd r)
     = (w_trace w1
        ++ [EvVadProcess (Z.of_nat (List.length data) / 2); EvMutexLock]
        ++ (if flush
            then [EvKwsWrite WSOC_BINARY
                    (firstn (Z.to_nat AUDIO_BLOCK_SIZE) buffered)]
            else [])
        ++ [EvKwsWait 5; EvKwsRead; EvKwsWrite WSOC_PONG payload;
            EvMutexUnlock])%list.
Proof.
  intros Hopen Hpre Hready Hvad buffered flush Hwr Hwa Hre.
  cbv zeta. rewrite (whisper_feed_prelude ah data now w Hopen), Hpre.
  cbv zeta. cbn [fst snd].
  assert (Hrun :
            fst (fst (feed_ready c1 data now w1)) = SWITCH_STATUS_SUCCESS
            /\ flags (snd (fst (feed_ready c1 data now w1))) = flags c1
            /\ w_trace (snd (feed_ready c1 data now w1))
               = (w_trace w1
                  ++ [EvVadProcess (Z.of_nat (List.length data) / 2);
                      EvMutexLock]
                  ++ (if flush
                      then [EvKwsWrite WSOC_BINARY
                              (firstn (Z.to_nat AUDIO_BLOCK_SIZE) buffered)]
                      else [])
                  ++ [EvKwsWait 5; EvKwsRead; EvKwsWrite WSOC_PONG payload;
                      EvMutexUnlock])%list).
  { clear Hpre.
    destruct w1 as [al co va wr wa re tr].
    cbn [w_vad w_write w_wait w_read] in *.
    unfold feed_ready, feed_talking. rewrite Hready. monad_simpl.
    rewrite Hvad. monad_simpl. fold buffered. fold flush.
    destruct flush eqn:Hflush; monad_simpl.
    - assert (Hlt : (hd (-1) wr <? 0) = false)
        by (apply Z.ltb_ge; apply Hwr; reflexivity).
      rewrite Hlt. monad_simpl. rewrite Hwa. cbn [negb]. monad_simpl.
      rewrite Hre. monad_simpl. cbn [flags with_audio_buffer].
      repeat split. rewrite <- !app_assoc. reflexivity.
    - rewrite Hwa. cbn [negb]. monad_simpl.
      rewrite Hre. monad_simpl. cbn [flags with_audio_buffer].
      repeat split. rewrite <- !app_assoc. reflexivity. }
  destruct Hrun as (Hst & Hflags & Htrace).
  cbn [private_info with_private_info].
  split; [exact Hst |]. split; [exact Hflags |]. split; [| exact Htrace].
  intros Hret Htime.
  rewrite (feed_prelude_idle ah now w Hret Htime) in Hpre.
  inversion Hpre; subst. exact Hflags.
Qed.

(** ** Speech timeout *)

Lemma check_results_speech_timeout (ah : switch_asr_handle_t) (now : Z) :
  ah_test_flag ah SWITCH_ASR_FLAG_CLOSED = false ->
  ctx_test_flag (private_info ah) ASRFLAG_RETURNED_RESULT = false ->
  ctx_test_flag (private_info ah) ASRFLAG_START_OF_SPEECH = true ->
  ctx_test_flag (private_info ah) ASRFLAG_RETURNED_START_OF_SPEECH = true ->
  ctx_test_flag (private_info ah) ASRFLAG_RESULT = false ->
  ctx_test_flag (private_info ah) ASRFLAG_NOINPUT_TIMEOUT = false ->
  ctx_test_flag (private_info ah) ASRFLAG_TIMEOUT = false ->
  0 < speech_timeout (private_info ah) ->
  speech_timeout (private_info ah)
  <= elapsed_ms now (speech_time (private_info ah)) ->
  whisper_check_results ah now
  = (SWITCH_STATUS_FALSE,
     with_private_info ah (ctx_set_flag (private_info ah) ASRFLAG_TIMEOUT)).
Proof.
  intros Hopen Hret Hsos Hrsos Hres Hni Htime Hpos Hel.
  unfold whisper_check_results.
  rewrite Hopen, Hret, Hsos, Hrsos, Hres, Hni, Htime.
  cbn [negb andb orb]. rewrite !andb_false_r. cbn [andb].
  assert (H1 : (speech_timeout (private_info ah) >? 0) = true)
    by (apply Z.gtb_lt; lia).
  assert (H2 : (elapsed_ms now (speech_time (private_info ah))
                >=? speech_timeout (private_info ah)) = true)
    by (rewrite Z.geb_leb; apply Z.leb_le; lia).
  rewrite H1, H2. reflexivity.
Qed.

(** C2, as the code has it.  On an open session whose speech timeout
    runs out with START_OF_SPEECH set (and already reported) and nothing
    pending, [whisper_check_results] sets TIMEOUT and returns
    SWITCH_STATUS_FALSE.  If the transport then carries the handshake
    (the write succeeds, the socket is readable within the bound, a
    frame is read), the next [whisper_feed] sends the end-of-speech text
    frame, waits up to 60000 ms, reads one frame and resets the detector
    before anything else; it leaves RESULT set and TIMEOUT clear whatever
    the rest of the call does.  The following [whisper_get_results]
    hands out the result string: as the final result
    (SWITCH_STATUS_SUCCESS, RETURNED_RESULT set) when the partial counter
    is not positive, and with SWITCH_STATUS_MORE_DATA while it is
    positive.  The text is the handshake's frame, and the feed call
    returns success, when the session is not READY or the detector's
    verdict for the fed frame is neither TALKING nor STOP_TALKING. *)
Theorem speech_timeout_handshake
    (ah : switch_asr_handle_t) (now now' : Z) (data : list byte) (w : world)
    (oc : kws_opcode_t) (rdata : list byte) :
  ah_test_flag ah SWITCH_ASR_FLAG_CLOSED = false ->
  ctx_test_flag (private_info ah) ASRFLAG_RETURNED_RESULT = false ->
  ctx_test_flag (private_info ah) ASRFLAG_START_OF_SPEECH = true ->
  ctx_test_flag (private_info ah) ASRFLAG_RETURNED_START_OF_SPEECH = true ->
  ctx_test_flag (private_info ah) ASRFLAG_RESULT = false ->
  ctx_test_flag (private_info ah) ASRFLAG_NOINPUT_TIMEOUT = false ->
  ctx_test_flag (private_info ah) ASRFLAG_TIMEOUT = false ->
  0 < speech_timeout (private_info ah) ->
  speech_timeout (private_info ah)
  <= elapsed_ms now (speech_time (private_info ah)) ->
  0 <= hd (-1) (w_write w) ->
  hd false (w_wait w) = true ->
  hd None (w_read w) = Some (oc, rdata) ->
  let checked := whisper_check_results ah now in
  let fed := whisper_feed (snd checked) data now' w in
  let ah2 := snd (fst fed) in
  let got := whisper_get_results ah2 in
  fst checked = SWITCH_STATUS_FALSE
  /\ ctx_test_flag (private_info (snd checked)) ASRFLAG_TIMEOUT = true
  /\ (exists rest,
        w_trace (snd fed)
        = (w_trace w
           ++ [EvKwsWrite WSOC_TEXT eof_request; EvKwsWait 60000; EvKwsRead;
               EvMutexUnlock; EvVadReset]
           ++ rest)%list)
  /\ ctx_test_flag (private_info ah2) ASRFLAG_RESULT = true
  /\ ctx_test_flag (private_info ah2) ASRFLAG_TIMEOUT = false
  /\ fst (fst got)
     = (if partial (private_info ah) >? 0
        then SWITCH_STATUS_MORE_DATA else SWITCH_STATUS_SUCCESS)
  /\ snd (fst got) = Some (result_json (private_info ah2))
  /\ (partial (private_info ah) <= 0 ->
      ctx_test_flag (private_info (snd got)) ASRFLAG_RETURNED_RESULT = true)
  /\ (ctx_test_flag (private_info ah) ASRFLAG_READY = false
      \/ (hd SWITCH_VAD_STATE_NONE (w_vad w) <> SWITCH_VAD_STATE_TALKING
          /\ hd SWITCH_VAD_STATE_NONE (w_vad w)
             <> SWITCH_VAD_STATE_STOP_TALKING) ->
      fst (fst fed) = SWITCH_STATUS_SUCCESS
      /\ result_text (private_info ah2) = Some (c_str rdata)).
Proof.
  intros Hopen Hret Hsos Hrsos Hres Hni Htime Hpos Hel Hwr Hwa Hre.
  cbv zeta.
  rewrite (check_results_speech_timeout ah now) by assumption.
  cbn [fst snd].
  split; [reflexivity |].
  split; [clear; flag_bits; reflexivity |].
  (* the state the handshake leaves, before the frame meets the detector *)
  set (ah1 := with_private_info ah
                (ctx_set_flag (private_info ah) ASRFLAG_TIMEOUT)).
  set (c2 := ctx_clear_flag
               (ctx_set_flag
                  (with_result_text (private_info ah1) (Some (c_str rdata)))
                  ASRFLAG_RESULT)
               ASRFLAG_TIMEOUT).
  set (w2 := mk_world (w_alloc w) (w_connect w) (w_vad w) (tl (w_write w))
               (tl (w_wait w)) (tl (w_read w))
               (w_trace w
                ++ [EvKwsWrite WSOC_TEXT eof_request; EvKwsWait 60000;
                    EvKwsRead; EvMutexUnlock; EvVadReset])%list).
  assert (Hfeed :
            whisper_feed ah1 data now' w
            = (fst (fst (feed_ready c2 data now' w2)),
               with_private_info ah1 (snd (fst (feed_ready c2 data now' w2))),
               snd (feed_ready c2 data now' w2))).
  { unfold whisper_feed.
    assert (Ha : ah_test_flag ah1 SWITCH_ASR_FLAG_CLOSED = false)
      by exact Hopen.
    assert (Hb : ctx_test_flag (private_info ah1) ASRFLAG_RETURNED_RESULT
                 = false)
      by (subst ah1; clear -Hret; flag_bits; exact Hret).
    assert (Hc : ctx_test_flag (private_info ah1) ASRFLAG_TIMEOUT = true)
      by (subst ah1; clear; flag_bits; reflexivity).
    rewrite Ha, Hb. cbn [andb]. unfold bind at 1. cbn [ret].
    unfold feed_timeout. rewrite Hc.
    unfold bind at 1. unfold bind at 1.
    rewrite (send_final_bit_ok _ w oc rdata Hwr Hwa Hre).
    cbn [switch_status_eqb negb]. unfold bind at 1.
    cbn [emit ret w_alloc w_connect w_vad w_write w_wait w_read w_trace].
    rewrite <- app_assoc. cbn [app]. fold c2. fold w2.
    unfold bind.
    destruct (feed_ready c2 data now' w2) as [[st c3] w3]. reflexivity. }
  rewrite Hfeed. cbn [fst snd].
  pose proof (feed_ready_effect c2 data now' w2) as [Hst Heff].
  cbv zeta in Hst, Heff.
  destruct (feed_ready_trace c2 data now' w2) as [rest Hrest].
  assert (Hready_idle :
            ctx_test_flag (private_info ah) ASRFLAG_READY = false
            \/ (hd SWITCH_VAD_STATE_NONE (w_vad w) <> SWITCH_VAD_STATE_TALKING
                /\ hd SWITCH_VAD_STATE_NONE (w_vad w)
                   <> SWITCH_VAD_STATE_STOP_TALKING) ->
            fst (fst (feed_ready c2 data now' w2)) = SWITCH_STATUS_SUCCESS
            /\ result_text (snd (fst (feed_ready c2 data now' w2)))
               = Some (c_str rdata)).
  { intros Hidle. unfold feed_ready.
    destruct (ctx_test_flag c2 ASRFLAG_READY) eqn:Hr2;
      [| split; reflexivity].
    assert (Hr : ctx_test_flag (private_info ah) ASRFLAG_READY = true)
      by (subst c2 ah1; clear -Hr2; flag_bits; exact Hr2).
    destruct Hidle as [Hn | [Hnt Hns]]; [congruence |].
    subst w2. destruct w as [al co va wr wa re tr].
    cbn [w_vad] in Hnt, Hns. monad_simpl.
    unfold feed_edges.
    destruct (hd SWITCH_VAD_STATE_NONE va); try congruence; monad_simpl;
      split; reflexivity. }
  destruct (feed_ready c2 data now' w2) as [[st c3] w3].
  cbn [fst snd] in *.
  destruct Heff as (Hpartial & Hgrammar & Hconf & Hbits & Hmono).
  assert (H5 : Z.testbit (flags c3) 5 = true).
  { apply Hmono. subst c2 ah1. clear. flag_bits. reflexivity. }
  assert (H7 : Z.testbit (flags c3) 7 = false).
  { rewrite Hbits; [| lia | cbn; intros [H | [H | [H | []]]]; discriminate H].
    subst c2 ah1. clear. flag_bits. reflexivity. }
  assert (H6 : Z.testbit (flags c3) 6 = false).
  { rewrite Hbits; [| lia | cbn; intros [H | [H | [H | []]]]; discriminate H].
    subst c2 ah1. clear -Hret. flag_bits. exact Hret. }
  assert (Hp3 : partial c3 = partial (private_info ah)).
  { rewrite Hpartial. reflexivity. }
  split.
  { exists rest. rewrite Hrest. subst w2. cbn [w_trace].
    now rewrite <- app_assoc. }
  split; [unfold ctx_test_flag, ASRFLAG_RESULT;
          rewrite test_flag_bit by lia; exact H5 |].
  split; [unfold ctx_test_flag, ASRFLAG_TIMEOUT;
          rewrite test_flag_bit by lia; exact H7 |].
  assert (Hget := get_results_result (with_private_info ah1 c3)).
  cbn [private_info with_private_info] in Hget.
  rewrite Hget;
    [| exact Hopen
     | unfold ctx_test_flag, ASRFLAG_RETURNED_RESULT;
       rewrite test_flag_bit by lia; exact H6
     | unfold ctx_test_flag, ASRFLAG_RESULT;
       rewrite test_flag_bit by lia; exact H5 ].
  cbn [fst snd]. rewrite Hp3.
  split; [reflexivity |]. split; [reflexivity |].
  split; [| exact Hready_idle].
  intros Hle.
  assert (Hgt : (partial (private_info ah) >? 0) = false)
    by (rewrite Z.gtb_ltb; apply Z.ltb_ge; lia).
  rewrite Hgt. cbn [private_info with_private_info]. clear. flag_bits.
  reflexivity.
Qed.

(** * Further properties of the session interface *)

(** ** Closed handles *)

(** X1. On a handle whose CLOSED flag is set, every guarded entry point
    fails at once: [whisper_feed] and [whisper_check_results] return
    BREAK, [whisper_load_grammar], [whisper_pause], [whisper_resume],
    [whisper_get_results], [whisper_start_input_timers] and
    [whisper_open] return FALSE; none of them changes the handle or
    makes a call to the transport or the detector.  [whisper_close]
    leaves every handle in that state, whatever it returns. *)
Theorem closed_handle_fails_fast
    (ah : switch_asr_handle_t) (data : list byte) (now : Z)
    (text name : string) (w : world) :
  ah_test_flag ah SWITCH_ASR_FLAG_CLOSED = true ->
  whisper_feed ah data now w = (SWITCH_STATUS_BREAK, ah, w)
  /\ whisper_check_results ah now = (SWITCH_STATUS_BREAK, ah)
  /\ whisper_get_results ah = (SWITCH_STATUS_FALSE, None, ah)
  /\ whisper_load_grammar ah text name = (SWITCH_STATUS_FALSE, ah)
  /\ whisper_pause ah = (SWITCH_STATUS_FALSE, ah)
  /\ whisper_resume ah now w = (SWITCH_STATUS_FALSE, ah, w)
  /\ whisper_start_input_timers ah now = (SWITCH_STATUS_FALSE, ah)
  /\ (forall native_rate0 rate dest url,
        whisper_open (ah_flags ah) native_rate0 rate dest url now w
        = (SWITCH_STATUS_FALSE, None, w))
  /\ (forall ah0 w0,
        ah_test_flag (snd (fst (whisper_close ah0 w0)))
          SWITCH_ASR_FLAG_CLOSED = true).
Proof.
  intros Hclosed.
  unfold whisper_feed, whisper_check_results, whisper_get_results,
    whisper_load_grammar, whisper_pause, whisper_resume,
    whisper_start_input_timers.
  rewrite Hclosed, orb_true_r.
  repeat (split; [reflexivity |]).
  split.
  - intros native_rate0 rate dest url. unfold whisper_open.
    unfold ah_test_flag in Hclosed. now rewrite Hclosed.
  - intros ah0 w0. rewrite whisper_close_eq. cbn [fst snd].
    unfold ah_test_flag. cbn [ah_flags with_private_info with_ah_flags].
    apply test_set_flag_same, SWITCH_ASR_FLAG_CLOSED_nonzero.
Qed.

(** ** What polling may change *)

Lemma with_flags_same (c : whisper_t) : with_flags c (flags c) = c.
Proof. destruct c; reflexivity. Qed.

Lemma check_results_fired_stays (ah : switch_asr_handle_t) (now : Z) :
  ctx_test_flag (private_info ah) ASRFLAG_NOINPUT_TIMEOUT = true
  \/ (ctx_test_flag (private_info ah) ASRFLAG_TIMEOUT = true
      /\ ctx_test_flag (private_info ah) ASRFLAG_START_OF_SPEECH = true) ->
  snd (whisper_check_results ah now) = ah.
Proof.
  intros Hfired. unfold whisper_check_results.
  destruct (ctx_test_flag (private_info ah) ASRFLAG_RETURNED_RESULT
            || ah_test_flag ah SWITCH_ASR_FLAG_CLOSED); [reflexivity |].
  destruct (negb (ctx_test_flag (private_info ah)
                    ASRFLAG_RETURNED_START_OF_SPEECH)
            && ctx_test_flag (private_info ah) ASRFLAG_START_OF_SPEECH);
    [reflexivity |].
  destruct Hfired as [Hni | [Htime Hsos]].
  - rewrite Hni, andb_false_r. cbn [snd]. apply with_private_info_same.
  - rewrite Htime, Hsos. cbn [negb andb]. rewrite !andb_false_r.
    cbn [andb].
    destruct (negb (ctx_test_flag (private_info ah) ASRFLAG_RESULT)
              && negb (ctx_test_flag (private_info ah)
                         ASRFLAG_NOINPUT_TIMEOUT));
      cbn [snd]; apply with_private_info_same.
Qed.

Lemma check_results_cases (ah : switch_asr_handle_t) (now : Z) :
    (snd (whisper_check_results ah now) = ah
     /\ (fst (whisper_check_results ah now) = SWITCH_STATUS_SUCCESS
         \/ fst (whisper_check_results ah now) = SWITCH_STATUS_BREAK))
    \/ (snd (whisper_check_results ah now)
        = with_private_info ah
            (ctx_set_flag (private_info ah) ASRFLAG_NOINPUT_TIMEOUT)
        /\ fst (whisper_check_results ah now) = SWITCH_STATUS_SUCCESS
        /\ ctx_test_flag (private_info ah) ASRFLAG_NOINPUT_TIMEOUT = false)
    \/ (snd (whisper_check_results ah now)
        = with_private_info ah
            (ctx_set_flag (private_info ah) ASRFLAG_TIMEOUT)
        /\ fst (whisper_check_results ah now) = SWITCH_STATUS_FALSE
        /\ ctx_test_flag (private_info ah) ASRFLAG_TIMEOUT = false
        /\ ctx_test_flag (private_info ah) ASRFLAG_START_OF_SPEECH = true).
Proof.
  unfold whisper_check_results.
    destruct (ctx_test_flag (private_info ah) ASRFLAG_RETURNED_RESULT
              || ah_test_flag ah SWITCH_ASR_FLAG_CLOSED);
      [left; cbn; auto |].
    destruct (negb (ctx_test_flag (private_info ah)
                      ASRFLAG_RETURNED_START_OF_SPEECH)
              && ctx_test_flag (private_info ah) ASRFLAG_START_OF_SPEECH);
      [left; cbn; auto |].
    destruct (ctx_test_flag (private_info ah) ASRFLAG_RESULT) eqn:Hres.
    { left. cbn [negb andb fst snd]. rewrite Hres. cbn [orb].
      rewrite with_private_info_same. auto. }
    destruct (ctx_test_flag (private_info ah) ASRFLAG_NOINPUT_TIMEOUT) eqn:Hni.
    { left. cbn [negb andb fst snd]. rewrite Hres, Hni. cbn [orb].
      rewrite with_private_info_same. auto. }
    cbn [negb andb].
    destruct (ctx_test_flag (private_info ah) ASRFLAG_INPUT_TIMERS
              && negb (ctx_test_flag (private_info ah)
                         ASRFLAG_START_OF_SPEECH)
              && (no_input_timeout (private_info ah) >=? 0)
              && (elapsed_ms now (no_input_time (private_info ah))
                  >=? no_input_timeout (private_info ah))).
    { right; left. cbn [fst snd private_info with_private_info].
      assert (Hset : ctx_test_flag
                       (ctx_set_flag (private_info ah)
                          ASRFLAG_NOINPUT_TIMEOUT)
                       ASRFLAG_NOINPUT_TIMEOUT = true)
        by (clear; flag_bits; reflexivity).
      rewrite Hset, orb_true_r. auto. }
    destruct (negb (ctx_test_flag (private_info ah) ASRFLAG_TIMEOUT)
              && ctx_test_flag (private_info ah) ASRFLAG_START_OF_SPEECH
              && (speech_timeout (private_info ah) >? 0)
              && (elapsed_ms now (speech_time (private_info ah))
                  >=? speech_timeout (private_info ah))) eqn:Hspeech.
    - apply andb_true_iff in Hspeech as [Hspeech _].
      apply andb_true_iff in Hspeech as [Hspeech _].
      apply andb_true_iff in Hspeech as [Htime Hsp].
      apply negb_true_iff in Htime.
      right; right. rewrite Hsp. cbn [fst snd]. auto.
    - left. cbn [fst snd]. rewrite Hres, Hni. cbn [orb].
      rewrite with_private_info_same. auto.
Qed.

(** X2. [whisper_check_results] changes nothing in the session but,
    at most, one timeout flag, which it sets: either the session is
    returned as it was (status SUCCESS or BREAK), or NOINPUT_TIMEOUT was
    clear and is now set (status SUCCESS), or speech had started, TIMEOUT
    was clear and is now set (status FALSE).  Once it has set one of
    them, later calls, at any time, leave the session alone. *)
Theorem check_results_only_arms_timeouts
    (ah : switch_asr_handle_t) (now now' : Z) :
  let r := whisper_check_results ah now in
  ((snd r = ah
    /\ (fst r = SWITCH_STATUS_SUCCESS \/ fst r = SWITCH_STATUS_BREAK))
   \/ (snd r
       = with_private_info ah
           (ctx_set_flag (private_info ah) ASRFLAG_NOINPUT_TIMEOUT)
       /\ fst r = SWITCH_STATUS_SUCCESS
       /\ ctx_test_flag (private_info ah) ASRFLAG_NOINPUT_TIMEOUT = false)
   \/ (snd r
       = with_private_info ah (ctx_set_flag (private_info ah) ASRFLAG_TIMEOUT)
       /\ fst r = SWITCH_STATUS_FALSE
       /\ ctx_test_flag (private_info ah) ASRFLAG_TIMEOUT = false
       /\ ctx_test_flag (private_info ah) ASRFLAG_START_OF_SPEECH = true))
  /\ (snd r <> ah -> snd (whisper_check_results (snd r) now') = snd r).
Proof.
  cbv zeta.
  pose proof (check_results_cases ah now) as Hcases.
  split; [exact Hcases |].
  intros Hchanged.
  destruct Hcases as [[Hsame _] | [(Heq & _ & _) | (Heq & _ & _ & Hsos)]];
    [contradiction | |]; rewrite Heq; apply check_results_fired_stays.
  - left. clear. flag_bits. reflexivity.
  - right. split; [clear; flag_bits; reflexivity |].
    clear -Hsos. flag_bits. exact Hsos.
Qed.

(** ** The two timers *)

Lemma elapsed_ms_reaches (now since t : Z) :
  0 < t -> (t <= elapsed_ms now since <-> 1000 * t <= now - since).
Proof.
  intros Ht. unfold elapsed_ms. split; intros H.
  - destruct (Z.le_gt_cases 0 (now - since)) as [Hpos | Hneg].
    + rewrite Z.quot_div_nonneg in H by lia.
      pose proof (Z.mul_div_le (now - since) 1000). nia.
    + pose proof (Z.quot_opp_l (now - since) 1000).
      assert (0 <= Z.quot (- (now - since)) 1000)
        by (apply Z.quot_pos; lia).
      lia.
  - rewrite Z.quot_div_nonneg by lia.
    apply Z.div_le_lower_bound; lia.
Qed.

(** X3. The no-input timer.  On an open session with nothing returned or
    pending, no speech detected, the input timers armed and a positive
    no-input timeout of [t] ms, [whisper_check_results] sets
    NOINPUT_TIMEOUT and reports ready exactly when at least [1000 * t]
    microseconds have passed since the no-input timestamp; before that it
    returns BREAK and changes nothing.  With the input timers not armed
    it never fires, however much time has passed. *)
Theorem check_results_no_input_threshold
    (ah : switch_asr_handle_t) (now : Z) :
  ah_test_flag ah SWITCH_ASR_FLAG_CLOSED = false ->
  ctx_test_flag (private_info ah) ASRFLAG_RETURNED_RESULT = false ->
  ctx_test_flag (private_info ah) ASRFLAG_START_OF_SPEECH = false ->
  ctx_test_flag (private_info ah) ASRFLAG_RESULT = false ->
  ctx_test_flag (private_info ah) ASRFLAG_NOINPUT_TIMEOUT = false ->
  0 < no_input_timeout (private_info ah) ->
  let late :=
    1000 * no_input_timeout (private_info ah)
    <=? now - no_input_time (private_info ah) in
  whisper_check_results ah now
  = if ctx_test_flag (private_info ah) ASRFLAG_INPUT_TIMERS && late
    then (SWITCH_STATUS_SUCCESS,
          with_private_info ah
            (ctx_set_flag (private_info ah) ASRFLAG_NOINPUT_TIMEOUT))
    else (SWITCH_STATUS_BREAK, ah).
Proof.
  intros Hopen Hret Hsos Hres Hni Hpos late.
  unfold whisper_check_results.
  rewrite Hopen, Hret, Hsos, Hres, Hni. cbn [negb andb orb].
  rewrite !andb_false_r. cbn [andb].
  assert (Hge : (no_input_timeout (private_info ah) >=? 0) = true)
    by (rewrite Z.geb_leb; apply Z.leb_le; lia).
  rewrite Hge.
  assert (Hlate : (elapsed_ms now (no_input_time (private_info ah))
                   >=? no_input_timeout (private_info ah)) = late).
  { rewrite Z.geb_leb. unfold late.
    destruct (Z.leb_spec (1000 * no_input_timeout (private_info ah))
                (now - no_input_time (private_info ah))) as [H | H].
    - apply Z.leb_le. now apply elapsed_ms_reaches.
    - apply Z.leb_gt.
      destruct (Z.lt_ge_cases
                  (elapsed_ms now (no_input_time (private_info ah)))
                  (no_input_timeout (private_info ah))) as [Hlt | Hge'];
        [exact Hlt |].
      apply elapsed_ms_reaches in Hge'; lia. }
  rewrite Hlate, !andb_true_r.
  destruct (ctx_test_flag (private_info ah) ASRFLAG_INPUT_TIMERS && late).
  - assert (Hset : ctx_test_flag
                     (ctx_set_flag (private_info ah) ASRFLAG_NOINPUT_TIMEOUT)
                     ASRFLAG_NOINPUT_TIMEOUT = true)
      by (clear; flag_bits; reflexivity).
    cbv beta iota. rewrite Hset, orb_true_r. reflexivity.
  - cbv beta iota. rewrite Hres, Hni. cbn [orb].
    now rewrite with_private_info_same.
Qed.

(** X4. A speech timeout that is not positive disables the speech
    timer: over any run of [whisper_check_results] calls, at whatever
    clock readings, no call returns SWITCH_STATUS_FALSE and the TIMEOUT
    flag is left as it was. *)
Theorem check_results_speech_timeout_disabled
    (ah : switch_asr_handle_t) (times : list Z) :
  speech_timeout (private_info ah) <= 0 ->
  Forall (fun status => status <> SWITCH_STATUS_FALSE)
    (fst (check_results_run ah times))
  /\ ctx_test_flag (private_info (snd (check_results_run ah times)))
       ASRFLAG_TIMEOUT
     = ctx_test_flag (private_info ah) ASRFLAG_TIMEOUT.
Proof.
  revert ah. induction times as [| now times IH]; intros ah Hoff.
  - cbn. split; [constructor | reflexivity].
  - cbn [check_results_run].
    pose proof (check_results_cases ah now) as Hcases.
    assert (Hstep :
              fst (whisper_check_results ah now) <> SWITCH_STATUS_FALSE
              /\ speech_timeout (private_info (snd (whisper_check_results ah now)))
                 = speech_timeout (private_info ah)
              /\ ctx_test_flag
                   (private_info (snd (whisper_check_results ah now)))
                   ASRFLAG_TIMEOUT
                 = ctx_test_flag (private_info ah) ASRFLAG_TIMEOUT).
    { destruct Hcases as [[Hsame Hst] | [(Heq & Hst & _) | (Heq & Hst & _)]].
      - rewrite Hsame. split; [| split; reflexivity].
        destruct Hst as [-> | ->]; discriminate.
      - rewrite Heq, Hst. split; [discriminate |]. split; [reflexivity |].
        clear. flag_bits. reflexivity.
      - exfalso. revert Hst. unfold whisper_check_results.
        assert (Hnot : (speech_timeout (private_info ah) >? 0) = false)
          by (rewrite Z.gtb_ltb; apply Z.ltb_ge; exact Hoff).
        rewrite Hnot, !andb_false_r. cbn [andb].
        destruct (ctx_test_flag (private_info ah) ASRFLAG_RETURNED_RESULT
                  || ah_test_flag ah SWITCH_ASR_FLAG_CLOSED);
          [discriminate |].
        destruct (negb (ctx_test_flag (private_info ah)
                          ASRFLAG_RETURNED_START_OF_SPEECH)
                  && ctx_test_flag (private_info ah)
                       ASRFLAG_START_OF_SPEECH);
          [discriminate |].
        repeat match goal with
               | |- context [if ?b then _ else _] => destruct b
               end; cbn; discriminate. }
    destruct (whisper_check_results ah now) as [status ah1].
    cbn [fst snd] in Hstep. destruct Hstep as (Hst & Hsp & Hflag).
    assert (Hoff1 : speech_timeout (private_info ah1) <= 0) by lia.
    specialize (IH ah1 Hoff1).
    destruct (check_results_run ah1 times) as [statuses ah2].
    cbn [fst snd] in *. destruct IH as [IHall IHflag].
    split; [constructor; assumption | congruence].
Qed.

(** X5. A paused session never times out and takes no audio.  After
    [whisper_pause] on an open session, every [whisper_check_results]
    call returns BREAK and every [whisper_feed] call returns success,
    at any time and with any data, without changing the session or
    calling the detector or the transport; only flags are lost by the
    pause itself. *)
Theorem paused_session_is_inert
    (ah : switch_asr_handle_t) (data : list byte) (now : Z) (w : world) :
  ah_test_flag ah SWITCH_ASR_FLAG_CLOSED = false ->
  let paused := snd (whisper_pause ah) in
  fst (whisper_pause ah) = SWITCH_STATUS_SUCCESS
  /\ paused = with_private_info ah (with_flags (private_info ah) 0)
  /\ whisper_check_results paused now = (SWITCH_STATUS_BREAK, paused)
  /\ whisper_feed paused data now w = (SWITCH_STATUS_SUCCESS, paused, w)
  /\ whisper_get_results paused = (SWITCH_STATUS_FALSE, None, paused).
Proof.
  intros Hopen. cbv zeta. unfold whisper_pause. rewrite Hopen. cbn [fst snd].
  split; [reflexivity |]. split; [reflexivity |].
  assert (Hopen' : forall c,
             ah_test_flag (with_private_info ah c) SWITCH_ASR_FLAG_CLOSED
             = false) by (intros c; exact Hopen).
  split; [| split].
  - unfold whisper_check_results. rewrite Hopen'.
    destruct ah as [f cd r c]; destruct c; reflexivity.
  - destruct w as [al co va wr wa re tr].
    unfold whisper_feed, feed_timeout, feed_ready. rewrite Hopen'.
    destruct ah as [f cd r c]; destruct c; reflexivity.
  - unfold whisper_get_results. rewrite Hopen'.
    destruct ah as [f cd r c]; destruct c; reflexivity.
Qed.

(** ** What fetching may change and hand out *)

(** X6. [whisper_get_results] produces a string exactly when it returns
    SUCCESS or MORE_DATA; its status is one of SUCCESS, MORE_DATA, BREAK
    and FALSE; RETURNED_RESULT is set afterwards exactly when it was set
    before or the status is SUCCESS; and apart from the flag word and
    the partial counter the handle is returned as it was: the result
    text and confidence are not consumed by the delivery. *)
Theorem get_results_payload_and_frame (ah : switch_asr_handle_t) :
  let r := whisper_get_results ah in
  let status := fst (fst r) in
  let ah' := snd r in
  (snd (fst r) <> None
   <-> status = SWITCH_STATUS_SUCCESS \/ status = SWITCH_STATUS_MORE_DATA)
  /\ (status = SWITCH_STATUS_SUCCESS \/ status = SWITCH_STATUS_MORE_DATA
      \/ status = SWITCH_STATUS_BREAK \/ status = SWITCH_STATUS_FALSE)
  /\ (ctx_test_flag (private_info ah') ASRFLAG_RETURNED_RESULT = true
      <-> ctx_test_flag (private_info ah) ASRFLAG_RETURNED_RESULT = true
          \/ status = SWITCH_STATUS_SUCCESS)
  /\ ah'
     = with_private_info ah
         (with_partial
            (with_flags (private_info ah) (flags (private_info ah')))
            (partial (private_info ah'))).
Proof.
  cbv zeta. unfold whisper_get_results.
  assert (Hset : forall c,
             ctx_test_flag
               (ctx_clear_flag (ctx_set_flag c ASRFLAG_RETURNED_RESULT)
                  ASRFLAG_READY) ASRFLAG_RETURNED_RESULT = true)
    by (intros c; flag_bits; reflexivity).
  assert (Hsos : forall c,
             ctx_test_flag
               (ctx_set_flag c ASRFLAG_RETURNED_START_OF_SPEECH)
               ASRFLAG_RETURNED_RESULT
             = ctx_test_flag c ASRFLAG_RETURNED_RESULT)
    by (intros c; flag_bits; reflexivity).
  assert (Hpart : forall c p,
             ctx_test_flag (with_partial c p) ASRFLAG_RETURNED_RESULT
             = ctx_test_flag c ASRFLAG_RETURNED_RESULT)
    by (intros c p; destruct c; reflexivity).
  destruct (ctx_test_flag (private_info ah) ASRFLAG_RETURNED_RESULT) eqn:Hret;
    [| destruct (ah_test_flag ah SWITCH_ASR_FLAG_CLOSED);
       [| destruct (ctx_test_flag (private_info ah) ASRFLAG_RESULT);
          [destruct (partial (private_info ah) >? 0)
          | destruct (ctx_test_flag (private_info ah)
                        ASRFLAG_NOINPUT_TIMEOUT);
            [| destruct (negb (ctx_test_flag (private_info ah)
                                 ASRFLAG_RETURNED_START_OF_SPEECH)
                         && ctx_test_flag (private_info ah)
                              ASRFLAG_START_OF_SPEECH)]]]];
    cbn [orb switch_status_eqb fst snd private_info with_private_info];
    rewrite ?Hset, ?Hsos, ?Hpart, ?Hret;
    repeat match goal with
           | |- _ /\ _ => split
           | |- _ <-> _ => split
           end;
    intros;
    lazymatch goal with
    | |- @eq switch_asr_handle_t _ _ =>
        destruct ah as [f cd r c]; destruct c; reflexivity
    | _ =>
        solve [ auto
              | discriminate
              | match goal with
                | H : _ \/ _ |- _ => destruct H; discriminate
                end
              | exfalso; auto ]
    end.
Qed.

(** ** Reset, resume and the partial counter *)

Lemma whisper_reset_ignores_flags (c : whisper_t) (f now : Z) (w : world) :
  whisper_reset (with_flags c f) now w = whisper_reset c now w.
Proof.
  destruct c, w. unfold whisper_reset, bind, ret, emit.
  cbn [vad with_flags]. destruct vad0; reflexivity.
Qed.

(** X7. [whisper_reset] keeps the connection, the audio buffer with
    the bytes it holds, the detector, the grammar, the channel id, both
    timeouts, the detector settings, the speech timestamp and the
    partial counter; it makes no transport call.  [whisper_resume] on an
    open session is that reset, and gives the same session whether or
    not the session was paused first. *)
Theorem whisper_reset_keeps
    (ah : switch_asr_handle_t) (now : Z) (w : world) :
  let c := private_info ah in
  let c' := fst (whisper_reset c now w) in
  (ws c' = ws c /\ audio_buffer c' = audio_buffer c /\ vad c' = vad c
   /\ grammar c' = grammar c /\ channel_uuid c' = channel_uuid c
   /\ no_input_timeout c' = no_input_timeout c
   /\ speech_timeout c' = speech_timeout c
   /\ start_input_timers c' = start_input_timers c
   /\ thresh c' = thresh c /\ silence_ms c' = silence_ms c
   /\ voice_ms c' = voice_ms c /\ speech_time c' = speech_time c
   /\ partial c' = partial c)
  /\ filter is_transport
       (skipn (List.length (w_trace w)) (w_trace (snd (whisper_reset c now w))))
     = []
  /\ (ah_test_flag ah SWITCH_ASR_FLAG_CLOSED = false ->
      whisper_resume ah now w
      = (SWITCH_STATUS_SUCCESS, with_private_info ah c',
         snd (whisper_reset c now w))
      /\ whisper_resume (snd (whisper_pause ah)) now w
         = whisper_resume ah now w).
Proof.
  cbv zeta. rewrite whisper_reset_eq, whisper_reset_trace. cbv zeta.
  split; [| split].
  - destruct (start_input_timers (private_info ah)) eqn:E;
      cbn [ws audio_buffer vad grammar channel_uuid no_input_timeout
           speech_timeout start_input_timers thresh silence_ms voice_ms
           speech_time partial ctx_set_flag with_flags with_no_input_time
           with_result_confidence with_result_text];
      rewrite ?E; repeat split.
  - rewrite skipn_app, skipn_all, Nat.sub_diag. cbn [app skipn].
    destruct (vad (private_info ah)); reflexivity.
  - intros Hopen. unfold whisper_resume, whisper_pause. rewrite Hopen.
    cbn [snd].
    assert (Hopen' : forall c,
               ah_test_flag (with_private_info ah c) SWITCH_ASR_FLAG_CLOSED
               = false) by (intros c; exact Hopen).
    rewrite Hopen'. unfold bind, ret.
    cbn [private_info with_private_info].
    rewrite whisper_reset_ignores_flags.
    pose proof (whisper_reset_eq (private_info ah) now w) as Heq.
    destruct (whisper_reset (private_info ah) now w) as [c1 w1].
    cbn [fst snd] in *. subst c1.
    split; [reflexivity |]. destruct ah; reflexivity.
Qed.

Lemma get_results_run_S (a : switch_asr_handle_t) (n : nat) :
  get_results_run a (S n)
  = let '(status, _, ah1) := whisper_get_results a in
    let (statuses, ah2) := get_results_run ah1 n in
    (status :: statuses, ah2).
Proof. reflexivity. Qed.

Lemma get_results_run_snoc (n : nat) :
  forall a : switch_asr_handle_t,
    get_results_run a (S n)
    = ((fst (get_results_run a n)
        ++ [fst (fst (whisper_get_results (snd (get_results_run a n))))])%list,
       snd (whisper_get_results (snd (get_results_run a n)))).
Proof.
  induction n as [| n IH]; intros a.
  - cbn. destruct (whisper_get_results a) as [[s str] a1]. reflexivity.
  - rewrite (get_results_run_S a (S n)), (get_results_run_S a n).
    destruct (whisper_get_results a) as [[s str] a1].
    rewrite (IH a1).
    destruct (get_results_run a1 n) as [sts a2]. reflexivity.
Qed.

(** X8. The partial counter is used up by an utterance and is not put
    back by a reset.  On an open session with a result pending and the
    counter at [N >= 0], the [N + 1] calls that deliver the utterance
    leave the counter at -1; [whisper_reset] keeps it there; so when the
    next result is pending the first [whisper_get_results] already
    returns SUCCESS, and no MORE_DATA delivery happens again until the
    parameter "partial" is set once more. *)
Theorem partial_counter_not_rearmed
    (ah : switch_asr_handle_t) (N : nat) (now : Z) (w : world) :
  ah_test_flag ah SWITCH_ASR_FLAG_CLOSED = false ->
  ctx_test_flag (private_info ah) ASRFLAG_RETURNED_RESULT = false ->
  ctx_test_flag (private_info ah) ASRFLAG_RESULT = true ->
  partial (private_info ah) = Z.of_nat N ->
  Z.of_nat N < 2 ^ 31 ->
  let delivered := snd (get_results_run ah (S N)) in
  let c' := fst (whisper_reset (private_info delivered) now w) in
  let next := with_private_info delivered (ctx_set_flag c' ASRFLAG_RESULT) in
  fst (get_results_run ah (S N))
  = (repeat SWITCH_STATUS_MORE_DATA N ++ [SWITCH_STATUS_SUCCESS])%list
  /\ partial (private_info delivered) = -1
  /\ partial c' = -1
  /\ fst (fst (whisper_get_results next)) = SWITCH_STATUS_SUCCESS.
Proof.
  intros Hopen Hret Hres HN Hint. cbv zeta.
  rewrite get_results_run_snoc.
  rewrite get_results_run_partial by (try assumption; lia).
  cbn [fst snd]. rewrite HN, Z.sub_diag.
  set (ahN := with_private_info ah (with_partial (private_info ah) 0)).
  assert (HopenN : ah_test_flag ahN SWITCH_ASR_FLAG_CLOSED = false)
    by exact Hopen.
  assert (HretN :
            ctx_test_flag (private_info ahN) ASRFLAG_RETURNED_RESULT = false)
    by (destruct ah as [f cd r c]; destruct c; exact Hret).
  assert (HresN : ctx_test_flag (private_info ahN) ASRFLAG_RESULT = true)
    by (destruct ah as [f cd r c]; destruct c; exact Hres).
  rewrite (get_results_result ahN HopenN HretN HresN).
  assert (Hzero : partial (private_info ahN) = 0)
    by (destruct ah as [f cd r c]; destruct c; reflexivity).
  rewrite Hzero. cbn [Z.gtb Z.compare fst snd]. cbv zeta.
  split; [reflexivity |].
  split; [reflexivity |].
  rewrite whisper_reset_eq. cbv zeta.
  split.
  - destruct (start_input_timers _); reflexivity.
  - match goal with
    | |- fst (fst (whisper_get_results ?a)) = _ =>
        assert (Ha : ah_test_flag a SWITCH_ASR_FLAG_CLOSED = false)
          by exact Hopen;
        assert (Hb : ctx_test_flag (private_info a) ASRFLAG_RETURNED_RESULT
                     = false)
          by (cbn [private_info with_private_info];
              destruct (start_input_timers _); clear; flag_bits; reflexivity);
        assert (Hc : ctx_test_flag (private_info a) ASRFLAG_RESULT = true)
          by (cbn [private_info with_private_info];
              destruct (start_input_timers _); clear; flag_bits; reflexivity);
        assert (Hd : partial (private_info a) = -1)
          by (cbn [private_info with_private_info];
              destruct (start_input_timers _); reflexivity);
        rewrite (get_results_result a Ha Hb Hc), Hd
    end.
    reflexivity.
Qed.

(** ** Audio that is not taken *)

(** X9. An open session that is not READY, with no speech timeout
    pending and no auto-resume due, swallows audio: [whisper_feed]
    returns success without calling the detector or the transport and
    without changing the session.  This is the state a final delivery
    leaves when the host did not ask for auto-resume. *)
Theorem feed_not_ready_is_ignored
    (ah : switch_asr_handle_t) (data : list byte) (now : Z) (w : world) :
  ah_test_flag ah SWITCH_ASR_FLAG_CLOSED = false ->
  ctx_test_flag (private_info ah) ASRFLAG_RETURNED_RESULT
  && ah_test_flag ah SWITCH_ASR_FLAG_AUTO_RESUME = false ->
  ctx_test_flag (private_info ah) ASRFLAG_TIMEOUT = false ->
  ctx_test_flag (private_info ah) ASRFLAG_READY = false ->
  whisper_feed ah data now w = (SWITCH_STATUS_SUCCESS, ah, w).
Proof.
  intros Hopen Hauto Htime Hready.
  unfold whisper_feed, feed_timeout, feed_ready.
  rewrite Hopen, Hauto. unfold bind, ret. rewrite Htime, Hready.
  cbn [fst snd]. now rewrite with_private_info_same.
Qed.

Lemma feed_ready_starts (c : whisper_t) (data : list byte) (now : Z)
    (w : world) :
  ctx_test_flag c ASRFLAG_READY = true ->
  exists rest,
    w_trace (snd (feed_ready c data now w))
    = (w_trace w
       ++ EvVadProcess (Z.of_nat (List.length data) / 2) :: rest)%list.
Proof.
  intros Hready. unfold feed_ready. rewrite Hready.
  unfold bind at 1.
  destruct (switch_vad_process (Z.of_nat (List.length data) / 2) w)
    as [v w1] eqn:Ev.
  assert (H0 : w_trace w1
               = (w_trace w
                  ++ [EvVadProcess (Z.of_nat (List.length data) / 2)])%list).
  { destruct w as [al co va wr wa re tr]. revert Ev. monad_simpl.
    intros Ev. inversion Ev; subst. reflexivity. }
  unfold bind at 1.
  assert (Htalk : exists rest,
             w_trace (snd ((match v with
                            | SWITCH_VAD_STATE_TALKING => feed_talking c data
                            | _ => ret (Continue c)
                            end) w1))
             = (w_trace w1 ++ rest)%list).
  { destruct v; try (exists []; cbn; now rewrite app_nil_r).
    apply feed_talking_trace. }
  destruct Htalk as [rest1 H1].
  destruct ((match v with
             | SWITCH_VAD_STATE_TALKING => feed_talking c data
             | _ => ret (Continue c)
             end) w1) as [f w2].
  cbn [snd] in H1.
  destruct f as [s c1 | c1].
  - cbn [ret snd]. rewrite H1, H0, <- app_assoc. eexists; reflexivity.
  - unfold bind at 1.
    destruct (feed_edges_trace c1 v now w2) as [rest2 H2].
    destruct (feed_edges c1 v now w2) as [[s c2 | c2] w3];
      cbn [ret snd] in *;
      rewrite H2, H1, H0, <- !app_assoc; eexists; reflexivity.
Qed.

(** X10. Auto-resume.  When a result has been returned and the host
    set AUTO_RESUME on the handle, the next [whisper_feed] first resets
    the session and then runs the very frame that triggered the reset
    through the detector: the call is [feed_ready] on the reset session,
    the detector is consulted, and RETURNED_RESULT is clear when the
    call returns, whatever the detector and the transport answer. *)
Theorem feed_auto_resumes
    (ah : switch_asr_handle_t) (data : list byte) (now : Z) (w : world) :
  ah_test_flag ah SWITCH_ASR_FLAG_CLOSED = false ->
  ctx_test_flag (private_info ah) ASRFLAG_RETURNED_RESULT = true ->
  ah_test_flag ah SWITCH_ASR_FLAG_AUTO_RESUME = true ->
  let reset := whisper_reset (private_info ah) now w in
  let r := feed_ready (fst reset) data now (snd reset) in
  whisper_feed ah data now w
  = (fst (fst r), with_private_info ah (snd (fst r)), snd r)
  /\ ctx_test_flag (private_info (snd (fst (whisper_feed ah data now w))))
       ASRFLAG_RETURNED_RESULT = false
  /\ exists rest,
       w_trace (snd (whisper_feed ah data now w))
       = (w_trace (snd reset)
          ++ EvVadProcess (Z.of_nat (List.length data) / 2) :: rest)%list.
Proof.
  intros Hopen Hret Hauto. cbv zeta.
  assert (Hfeed :
            whisper_feed ah data now w
            = (fst (fst (feed_ready (fst (whisper_reset (private_info ah) now w))
                           data now
                           (snd (whisper_reset (private_info ah) now w)))),
               with_private_info ah
                 (snd (fst (feed_ready
                              (fst (whisper_reset (private_info ah) now w))
                              data now
                              (snd (whisper_reset (private_info ah) now w))))),
               snd (feed_ready (fst (whisper_reset (private_info ah) now w))
                      data now
                      (snd (whisper_reset (private_info ah) now w))))).
  { rewrite (whisper_feed_prelude ah data now w Hopen).
    unfold feed_prelude. rewrite Hret, Hauto. cbn [andb].
    unfold bind at 1.
    pose proof (whisper_reset_eq (private_info ah) now w) as Heq.
    destruct (whisper_reset (private_info ah) now w) as [c1 w1].
    cbn [fst snd] in *.
    assert (Htime : ctx_test_flag c1 ASRFLAG_TIMEOUT = false).
    { rewrite Heq. cbv zeta.
      destruct (start_input_timers (private_info ah)); reflexivity. }
    unfold feed_timeout. rewrite Htime. cbn [ret]. reflexivity. }
  rewrite Hfeed. cbn [fst snd private_info with_private_info].
  split; [reflexivity |].
  pose proof (whisper_reset_eq (private_info ah) now w) as Heq.
  destruct (whisper_reset (private_info ah) now w) as [c1 w1].
  cbn [fst snd] in *.
  assert (Hready : ctx_test_flag c1 ASRFLAG_READY = true).
  { rewrite Heq. cbv zeta.
    destruct (start_input_timers (private_info ah)); reflexivity. }
  assert (Hret1 : Z.testbit (flags c1) 6 = false).
  { rewrite <- returned_bit, Heq. cbv zeta.
    destruct (start_input_timers (private_info ah)); reflexivity. }
  split.
  - pose proof (feed_ready_effect c1 data now w1) as [_ Heff].
    cbv zeta in Heff. destruct Heff as (_ & _ & _ & Hbits & _).
    rewrite returned_bit, Hbits; [exact Hret1 | lia |].
    cbn. intros [H | [H | [H | []]]]; discriminate H.
  - apply feed_ready_starts. exact Hready.
Qed.

(** ** Audio framing *)

Lemma binary_writes_app (l1 l2 : list event) :
  binary_writes (l1 ++ l2) = (binary_writes l1 ++ binary_writes l2)%list.
Proof.
  induction l1 as [| e l1 IH]; [reflexivity |].
  destruct e as [| | | | | [] payload | | | | | | | | | |]; cbn;
    rewrite IH; reflexivity.
Qed.



(** ** The end-of-speech handshake *)

(** X12. [whisper_send_final_bit], whatever the transport does.  It
    writes the 50-byte end-of-speech text frame, then waits up to
    60000 ms, then reads one frame, stopping at the first step that
    fails; it succeeds exactly when all three go through, and then the
    result text is the frame's body up to its first NUL; on failure it
    returns BREAK and the session is untouched.  On every way out its
    last act is to unlock the session mutex, which it never locks. *)
Theorem send_final_bit_outcome (c : whisper_t) (w : world) :
  let r := whisper_send_final_bit c w in
  fst r
  = (if handshake_ok w
     then (SWITCH_STATUS_SUCCESS, with_result_text c (handshake_text w))
     else (SWITCH_STATUS_BREAK, c))
  /\ w_trace (snd r)
     = (w_trace w
        ++ firstn (handshake_steps w)
             [EvKwsWrite WSOC_TEXT eof_request; EvKwsWait 60000; EvKwsRead]
        ++ [EvMutexUnlock])%list
  /\ List.length eof_request = 50%nat.
Proof.
  cbv zeta. destruct w as [al co va wr wa re tr].
  unfold whisper_send_final_bit, handshake_ok, handshake_text, handshake_steps.
  monad_simpl.
  destruct (hd (-1) wr <? 0); monad_simpl; cbn [negb andb firstn].
  { rewrite <- !app_assoc. repeat split. }
  destruct (hd false wa); monad_simpl; cbn [negb andb firstn].
  - destruct (hd None re) as [[oc rdata] |]; monad_simpl;
      rewrite <- !app_assoc; repeat split.
  - rewrite <- !app_assoc. repeat split.
Qed.

Lemma send_final_bit_eq (c : whisper_t) (w : world) :
  whisper_send_final_bit c w
  = ((if handshake_ok w
      then (SWITCH_STATUS_SUCCESS, with_result_text c (handshake_text w))
      else (SWITCH_STATUS_BREAK, c)),
     mk_world (w_alloc w) (w_connect w) (w_vad w) (tl (w_write w))
       (if (2 <=? handshake_steps w)%nat then tl (w_wait w) else w_wait w)
       (if (3 <=? handshake_steps w)%nat then tl (w_read w) else w_read w)
       (w_trace w
        ++ firstn (handshake_steps w)
             [EvKwsWrite WSOC_TEXT eof_request; EvKwsWait 60000; EvKwsRead]
        ++ [EvMutexUnlock])%list).
Proof.
  destruct w as [al co va wr wa re tr].
  unfold whisper_send_final_bit, handshake_ok, handshake_text, handshake_steps.
  monad_simpl.
  destruct (hd (-1) wr <? 0); monad_simpl; cbn [negb andb firstn Nat.leb].
  { rewrite <- !app_assoc. reflexivity. }
  destruct (hd false wa); monad_simpl; cbn [negb andb firstn Nat.leb].
  - destruct (hd None re) as [[oc rdata] |]; monad_simpl;
      rewrite <- !app_assoc; reflexivity.
  - rewrite <- !app_assoc. reflexivity.
Qed.

Lemma handshake_calls_shape (n : nat) :
  let calls :=
    firstn n [EvKwsWrite WSOC_TEXT eof_request; EvKwsWait 60000; EvKwsRead] in
  binary_writes (calls ++ [EvMutexUnlock]) = []
  /\ filter is_lock (calls ++ [EvMutexUnlock]) = []
  /\ filter is_unlock (calls ++ [EvMutexUnlock]) = [EvMutexUnlock]
  /\ filter is_vad_process (calls ++ [EvMutexUnlock]) = [].
Proof.
  destruct n as [| [| [| n]]]; cbn [firstn]; rewrite ?firstn_nil;
    cbn; repeat split.
Qed.

(** X13. A speech timeout whose handshake fails is retried by every
    later call.  On an open session with TIMEOUT set (and no auto-resume
    due), if one of the three transport steps fails, [whisper_feed]
    returns BREAK and leaves the session exactly as it was, TIMEOUT
    included; the fed frame never reaches the detector and no audio is
    written. *)
Theorem feed_timeout_handshake_failure
    (ah : switch_asr_handle_t) (data : list byte) (now : Z) (w : world) :
  ah_test_flag ah SWITCH_ASR_FLAG_CLOSED = false ->
  ctx_test_flag (private_info ah) ASRFLAG_RETURNED_RESULT
  && ah_test_flag ah SWITCH_ASR_FLAG_AUTO_RESUME = false ->
  ctx_test_flag (private_info ah) ASRFLAG_TIMEOUT = true ->
  handshake_ok w = false ->
  let r := whisper_feed ah data now w in
  fst r = (SWITCH_STATUS_BREAK, ah)
  /\ exists rest,
       w_trace (snd r) = (w_trace w ++ rest)%list
       /\ filter is_vad_process rest = []
       /\ binary_writes rest = [].
Proof.
  intros Hopen Hauto Htime Hfail. cbv zeta.
  unfold whisper_feed, feed_timeout. rewrite Hopen, Hauto.
  unfold bind, ret. rewrite Htime, send_final_bit_eq, Hfail.
  cbn [switch_status_eqb negb fst snd w_trace].
  rewrite with_private_info_same. split; [reflexivity |].
  eexists. split; [reflexivity |].
  pose proof (handshake_calls_shape (handshake_steps w)) as Hshape.
  cbv zeta in Hshape. tauto.
Qed.

(** ** The edges of an utterance *)

Lemma vad_process_eq (n : Z) (w : world) :
  switch_vad_process n w
  = (hd SWITCH_VAD_STATE_NONE (w_vad w),
     mk_world (w_alloc w) (w_connect w) (tl (w_vad w)) (w_write w) (w_wait w)
       (w_read w) (w_trace w ++ [EvVadProcess n])%list).
Proof. destruct w. reflexivity. Qed.

(** X14. End of speech.  When the frame of an open, READY session gets
    the verdict STOP_TALKING, [whisper_feed] runs the handshake right
    away: the frame is not buffered, and the bytes still in the audio
    buffer are neither written nor dropped (no binary frame is sent, the
    buffer is as before).  If the handshake goes through, the call
    returns success, the result text is the frame read, RESULT is set
    and READY is cleared, and from then on [whisper_check_results]
    reports ready (as long as no result was returned).  If it fails, the
    call returns BREAK and the session is left as it was, READY still
    set and no result pending.  Either way the session mutex is unlocked
    once without having been locked. *)
Theorem feed_stop_talking
    (ah : switch_asr_handle_t) (data : list byte) (now : Z) (w w1 : world)
    (c1 : whisper_t) :
  ah_test_flag ah SWITCH_ASR_FLAG_CLOSED = false ->
  feed_prelude ah now w = (Continue c1, w1) ->
  ctx_test_flag c1 ASRFLAG_READY = true ->
  hd SWITCH_VAD_STATE_NONE (w_vad w1) = SWITCH_VAD_STATE_STOP_TALKING ->
  let r := whisper_feed ah data now w in
  let c' := private_info (snd (fst r)) in
  audio_buffer c' = audio_buffer c1
  /\ (exists rest,
        w_trace (snd r)
        = (w_trace w1
           ++ EvVadProcess (Z.of_nat (List.length data) / 2) :: rest)%list
        /\ binary_writes rest = []
        /\ filter is_lock rest = []
        /\ filter is_unlock rest = [EvMutexUnlock])
  /\ (handshake_ok w1 = true ->
      fst (fst r) = SWITCH_STATUS_SUCCESS
      /\ c' = ctx_clear_flag
                (ctx_set_flag (with_result_text c1 (handshake_text w1))
                   ASRFLAG_RESULT)
                ASRFLAG_READY
      /\ (ctx_test_flag c1 ASRFLAG_RETURNED_RESULT = false ->
          forall t,
            whisper_check_results (snd (fst r)) t
            = (SWITCH_STATUS_SUCCESS, snd (fst r))))
  /\ (handshake_ok w1 = false ->
      fst (fst r) = SWITCH_STATUS_BREAK /\ c' = c1).
Proof.
  intros Hopen Hpre Hready Hvad. cbv zeta.
  rewrite (whisper_feed_prelude ah data now w Hopen), Hpre. cbv zeta.
  destruct (feed_ready c1 data now w1) as [[st c3] w4] eqn:E.
  cbn [fst snd private_info with_private_info].
  unfold feed_ready in E. rewrite Hready in E. unfold bind in E.
  rewrite vad_process_eq, Hvad in E. cbn [ret feed_edges] in E.
  unfold bind in E. rewrite send_final_bit_eq in E.
  assert (Hok : handshake_ok
                  (mk_world (w_alloc w1) (w_connect w1) (tl (w_vad w1))
                     (w_write w1) (w_wait w1) (w_read w1)
                     (w_trace w1
                      ++ [EvVadProcess (Z.of_nat (List.length data) / 2)])%list)
                = handshake_ok w1) by reflexivity.
  assert (Htext : handshake_text
                    (mk_world (w_alloc w1) (w_connect w1) (tl (w_vad w1))
                       (w_write w1) (w_wait w1) (w_read w1)
                       (w_trace w1
                        ++ [EvVadProcess
                              (Z.of_nat (List.length data) / 2)])%list)
                  = handshake_text w1) by reflexivity.
  assert (Hsteps : handshake_steps
                     (mk_world (w_alloc w1) (w_connect w1) (tl (w_vad w1))
                        (w_write w1) (w_wait w1) (w_read w1)
                        (w_trace w1
                         ++ [EvVadProcess
                               (Z.of_nat (List.length data) / 2)])%list)
                   = handshake_steps w1) by reflexivity.
  rewrite Hok, Htext, Hsteps in E. cbn [w_trace] in E.
  pose proof (handshake_calls_shape (handshake_steps w1)) as Hshape.
  cbv zeta in Hshape. destruct Hshape as (Hbin & Hlock & Hunlock & _).
  destruct (handshake_ok w1) eqn:Hhs;
    cbn [switch_status_eqb negb emit ret fst snd w_alloc w_connect w_vad
         w_write w_wait w_read w_trace] in E;
    inversion E; subst; clear E.
  - split; [reflexivity |]. split.
    + exists ((firstn (handshake_steps w1)
                 [EvKwsWrite WSOC_TEXT eof_request; EvKwsWait 60000;
                  EvKwsRead]
               ++ [EvMutexUnlock]) ++ [EvVadReset])%list.
      cbn [w_trace]. split; [now rewrite <- !app_assoc |].
      rewrite binary_writes_app, (filter_app is_lock _ [EvVadReset]),
        (filter_app is_unlock _ [EvVadReset]), Hbin, Hlock, Hunlock.
      repeat split.
    + split; [| discriminate]. intros _.
      split; [reflexivity |]. split; [reflexivity |].
      intros Hret t.
      assert (Hres : ctx_test_flag
                       (ctx_clear_flag
                          (ctx_set_flag
                             (with_result_text c1 (handshake_text w1))
                             ASRFLAG_RESULT) ASRFLAG_READY)
                       ASRFLAG_RESULT = true)
        by (clear; flag_bits; reflexivity).
      assert (Hret' : ctx_test_flag
                        (ctx_clear_flag
                           (ctx_set_flag
                              (with_result_text c1 (handshake_text w1))
                              ASRFLAG_RESULT) ASRFLAG_READY)
                        ASRFLAG_RETURNED_RESULT = false)
        by (clear -Hret; flag_bits; exact Hret).
      unfold whisper_check_results.
      cbn [private_info with_private_info]. rewrite Hret'.
      assert (Hopen' : forall c,
                 ah_test_flag (with_private_info ah c) SWITCH_ASR_FLAG_CLOSED
                 = false) by (intros c; exact Hopen).
      rewrite Hopen'. cbn [orb].
      destruct (negb _ && _); [reflexivity |].
      rewrite Hres. cbn [negb andb]. cbv beta iota.
      rewrite Hres. cbn [orb]. destruct ah; reflexivity.
  - split; [reflexivity |]. split.
    + exists (firstn (handshake_steps w1)
                [EvKwsWrite WSOC_TEXT eof_request; EvKwsWait 60000;
                 EvKwsRead]
              ++ [EvMutexUnlock])%list.
      cbn [w_trace]. split; [now rewrite <- !app_assoc |].
      rewrite Hbin, Hlock, Hunlock. repeat split.
    + split; [discriminate |]. intros _. split; reflexivity.
Qed.


(** X16. An interim answer.  When the frame of an open, READY session
    gets the verdict TALKING and the frame read from the backend in that
    call is not a ping, [whisper_feed] stores the frame's text as the
    result text and returns success; the flag word is untouched, so the
    text is not announced as a pending result.  The session mutex, taken
    at the start of the TALKING block, is not released on this way out:
    the trace of the call has one lock and no unlock. *)
Theorem feed_interim_frame
    (ah : switch_asr_handle_t) (data : list byte) (now : Z) (w w1 : world)
    (c1 : whisper_t) (oc : kws_opcode_t) (rdata : list byte) :
  ah_test_flag ah SWITCH_ASR_FLAG_CLOSED = false ->
  feed_prelude ah now w = (Continue c1, w1) ->
  ctx_test_flag c1 ASRFLAG_READY = true ->
  hd SWITCH_VAD_STATE_NONE (w_vad w1) = SWITCH_VAD_STATE_TALKING ->
  let buffered := (buffer_bytes c1 ++ data)%list in
  let flush := Z.of_nat (List.length buffered) >? AUDIO_BLOCK_SIZE in
  (flush = true -> 0 <= hd (-1) (w_write w1)) ->
  hd false (w_wait w1) = true ->
  hd None (w_read w1) = Some (oc, rdata) ->
  oc <> WSOC_PING ->
  let r := whisper_feed ah data now w in
  let c' := private_info (snd (fst r)) in
  fst (fst r) = SWITCH_STATUS_SUCCESS
  /\ result_text c' = Some (c_str rdata)
  /\ flags c' = flags c1
  /\ exists rest,
       w_trace (snd r) = (w_trace w1 ++ rest)%list
       /\ filter is_lock rest = [EvMutexLock]
       /\ filter is_unlock rest = [].
Proof.
  intros Hopen Hpre Hready Hvad buffered flush Hwr Hwa Hre Hoc. cbv zeta.
  rewrite (whisper_feed_prelude ah data now w Hopen), Hpre. cbv zeta.
  destruct (feed_ready c1 data now w1) as [[st c3] w4] eqn:E.
  cbn [fst snd private_info with_private_info].
  unfold feed_ready in E. rewrite Hready in E. unfold bind in E.
  rewrite vad_process_eq, Hvad in E.
  destruct w1 as [al co va wr wa re tr].
  cbn [w_alloc w_connect w_vad w_write w_wait w_read w_trace] in *.
  unfold feed_talking in E. revert E. monad_simpl.
  fold buffered. fold flush.
  destruct flush eqn:Hflush; monad_simpl.
  - assert (Hlt : (hd (-1) wr <? 0) = false)
      by (apply Z.ltb_ge; apply Hwr; reflexivity).
    rewrite Hlt. monad_simpl. rewrite Hwa. cbn [negb]. monad_simpl.
    rewrite Hre. destruct oc; try congruence; monad_simpl;
      cbn [feed_edges]; monad_simpl;
      intros E; inversion E; subst; clear E;
      (repeat (split; [reflexivity |])); eexists;
      rewrite <- ?app_assoc; (split; [reflexivity |]); split; reflexivity.
  - rewrite Hwa. cbn [negb]. monad_simpl.
    rewrite Hre. destruct oc; try congruence; monad_simpl;
      cbn [feed_edges]; monad_simpl;
      intros E; inversion E; subst; clear E;
      (repeat (split; [reflexivity |])); eexists;
      rewrite <- ?app_assoc; (split; [reflexivity |]); split; reflexivity.
Qed.

(** ** [whisper_text_param] *)

Lemma strcaseeq_common (a : string) :
  forall b p,
    strcaseeq a p = true -> strcaseeq b p = true -> strcaseeq a b = true.
Proof.
  induction a as [| x a IH]; intros [| y b] [| z p]; cbn;
    try discriminate; auto.
  destruct (Ascii.eqb_spec (to_lower x) (to_lower z)) as [Exz |];
    [| discriminate].
  destruct (Ascii.eqb_spec (to_lower y) (to_lower z)) as [Eyz |];
    [| discriminate].
  intros Ha Hb. rewrite Exz, <- Eyz, Ascii.eqb_refl. eauto.
Qed.

Lemma strcaseeq_other (a b p : string) :
  strcaseeq a p = true -> strcaseeq a b = false -> strcaseeq b p = false.
Proof.
  intros Ha Hab. destruct (strcaseeq b p) eqn:Hb; [| reflexivity].
  rewrite (strcaseeq_common a b p Ha Hb) in Hab. discriminate.
Qed.

Lemma strcaseeq_nonempty (a p : string) :
  strcaseeq a p = true -> zstr a = false -> zstr p = false.
Proof. destruct a, p; cbn; congruence. Qed.

(** X17. Parameters that are not taken.  An empty (or NULL) name or
    value, and a name that matches none of the eleven known names, leave
    the handle as it is and cause no call to the detector. *)
Theorem text_param_ignored
    (ah : switch_asr_handle_t) (param val : string) (w : world) :
  zstr param = true \/ zstr val = true
  \/ forallb (fun name => negb (strcaseeq name param)) text_param_names
     = true ->
  whisper_text_param ah param val w = (ah, w).
Proof.
  intros Hign. unfold whisper_text_param.
  destruct (zstr param) eqn:Hp; [reflexivity |].
  destruct (zstr val) eqn:Hv; [reflexivity |].
  destruct Hign as [H | [H | H]]; try discriminate.
  cbn [forallb text_param_names] in H.
  repeat (apply andb_true_iff in H as [?H H]).
  repeat match goal with
         | Hn : negb _ = true |- _ => apply negb_true_iff in Hn; rewrite Hn
         end.
  cbn [negb andb]. unfold bind, ret.
  now rewrite with_private_info_same.
Qed.

(** X18. The two timeout parameters.  A name equal to
    "no-input-timeout" or "speech-timeout" up to letter case, with a
    non-empty value, stores [atoi] of the value in the matching timeout
    when the host's [switch_is_number] accepts the value, and changes
    nothing when it does not; no other field is touched and the detector
    is not called. *)
Theorem text_param_timeouts
    (ah : switch_asr_handle_t) (param val : string) (w : world) :
  zstr val = false ->
  (strcaseeq "no-input-timeout" param = true ->
   whisper_text_param ah param val w
   = (if switch_is_number val
      then with_private_info ah
             (with_no_input_timeout (private_info ah) (atoi val))
      else ah, w))
  /\ (strcaseeq "speech-timeout" param = true ->
      whisper_text_param ah param val w
      = (if switch_is_number val
         then with_private_info ah
                (with_speech_timeout (private_info ah) (atoi val))
         else ah, w)).
Proof.
  intros Hv. split; intros Hname; unfold whisper_text_param;
    rewrite (strcaseeq_nonempty _ _ Hname eq_refl), Hv; cbn [negb andb];
    repeat match goal with
           | |- context [strcaseeq ?n param] =>
               first [ rewrite Hname
                     | rewrite (strcaseeq_other _ n param Hname eq_refl) ]
           end;
    cbn [andb]; destruct (switch_is_number val); unfold bind, ret;
    cbn [andb]; rewrite ?with_private_info_same; reflexivity.
Qed.

(** X19. Two switches.  The parameter "start-input-timers" (in any
    letter case) stores the host's reading of the value and makes the
    INPUT_TIMERS flag equal to it, leaving every other flag and the
    no-input timestamp alone: unlike [whisper_start_input_timers] it
    does not restart the clock.  The parameter "partial" sets the
    partial counter to 3 for a true value and does nothing for any
    other value, so partial delivery cannot be switched off by it. *)
Theorem text_param_switches
    (ah : switch_asr_handle_t) (param val : string) (w : world) :
  zstr val = false ->
  (strcaseeq "start-input-timers" param = true ->
   let r := whisper_text_param ah param val w in
   let c' := private_info (fst r) in
   snd r = w
   /\ start_input_timers c' = switch_true val
   /\ ctx_test_flag c' ASRFLAG_INPUT_TIMERS = switch_true val
   /\ (forall k, 0 <= k -> k <> 1 ->
         Z.testbit (flags c') k = Z.testbit (flags (private_info ah)) k)
   /\ no_input_time c' = no_input_time (private_info ah))
  /\ (strcaseeq "partial" param = true ->
      whisper_text_param ah param val w
      = (if switch_true val
         then with_private_info ah (with_partial (private_info ah) 3)
         else ah, w)).
Proof.
  intros Hv. split; intros Hname; cbv zeta; unfold whisper_text_param;
    rewrite (strcaseeq_nonempty _ _ Hname eq_refl), Hv; cbn [negb andb];
    repeat match goal with
           | |- context [strcaseeq ?n param] =>
               first [ rewrite Hname
                     | rewrite (strcaseeq_other _ n param Hname eq_refl) ]
           end;
    cbn [andb]; unfold bind, ret.
  - cbn [start_input_timers with_start_input_timers fst snd private_info
         with_private_info].
    destruct (switch_true val).
    + repeat split.
      * flag_bits. reflexivity.
      * intros k Hk H1. unfold ctx_set_flag, ASRFLAG_INPUT_TIMERS.
        cbn [flags with_flags with_start_input_timers].
        rewrite testbit_set_flag_bit by lia.
        destruct (Z.eqb_spec k 1); [lia | apply orb_false_r].
    + repeat split.
      * flag_bits. reflexivity.
      * intros k Hk H1. unfold ctx_clear_flag, ASRFLAG_INPUT_TIMERS.
        cbn [flags with_flags with_start_input_timers].
        rewrite testbit_clear_flag_bit by lia.
        destruct (Z.eqb_spec k 1); [lia | apply andb_true_r].
  - destruct (switch_true val); rewrite ?with_private_info_same; reflexivity.
Qed.

(** ** The configuration *)

Lemma load_params_auto_reload (params : list (string * string)) :
  forall g, auto_reload (load_params params g) = auto_reload g.
Proof.
  induction params as [| [var val] rest IH]; intros g; [reflexivity |].
  cbn [load_params]. rewrite IH.
  destruct (strcaseeq var "server-url"), (strcaseeq var "return-json");
    reflexivity.
Qed.

Lemma find_app_first {A : Type} (f : A -> bool) (l1 l2 : list A) :
  find f (l1 ++ l2)%list
  = match find f l1 with Some x => Some x | None => find f l2 end.
Proof.
  induction l1 as [| x l1 IH]; [reflexivity |].
  cbn [app find]. destruct (f x); [reflexivity | exact IH].
Qed.

Lemma last_param_cons (name : string) (p : string * string)
    (rest : list (string * string)) :
  last_param name (p :: rest)
  = match last_param name rest with
    | Some v => Some v
    | None => if strcaseeq (fst p) name then Some (snd p) else None
    end.
Proof.
  unfold last_param. cbn [rev]. rewrite find_app_first.
  destruct (find (fun q => strcaseeq (fst q) name) (rev rest)) as [q |];
    [reflexivity |].
  cbn [find]. destruct (strcaseeq (fst p) name); reflexivity.
Qed.

Lemma load_params_server_url (params : list (string * string)) :
  forall g,
    server_url (load_params params g)
    = match last_param "server-url" params with
      | Some v => Some v
      | None => server_url g
      end.
Proof.
  induction params as [| [var val] rest IH]; intros g; [reflexivity |].
  cbn [load_params]. rewrite IH, last_param_cons. cbn [fst snd].
  destruct (last_param "server-url" rest); [reflexivity |].
  destruct (strcaseeq var "server-url"), (strcaseeq var "return-json");
    reflexivity.
Qed.

Lemma load_params_return_json (params : list (string * string)) :
  forall g,
    return_json (load_params params g)
    = match last_param "return-json" params with
      | Some v => atoi v
      | None => return_json g
      end.
Proof.
  induction params as [| [var val] rest IH]; intros g; [reflexivity |].
  cbn [load_params]. rewrite IH, last_param_cons. cbn [fst snd].
  destruct (last_param "return-json" rest); [reflexivity |].
  destruct (strcaseeq var "server-url"), (strcaseeq var "return-json");
    reflexivity.
Qed.

Lemma load_config_auto_reload (cfg : config_t) (g : globals_t) :
  auto_reload (snd (load_config cfg g)) = auto_reload g.
Proof.
  unfold load_config.
  destruct cfg as [[ps |] |]; cbn [fst snd];
    match goal with
    | |- context [match server_url ?x with _ => _ end] =>
        destruct (server_url x)
    end; cbn [auto_reload]; rewrite ?load_params_auto_reload; reflexivity.
Qed.

(** X20. What [load_config] leaves in [globals].  It fails exactly when
    the file cannot be opened.  Afterwards the server URL is never NULL:
    it is the value of the last "server-url" parameter (name in any
    letter case) when the file has one, else the URL held before, else
    "ws://127.0.0.1:2700".  [return_json] is [atoi] of the last
    "return-json" parameter, or what it was.  [auto_reload] is not
    touched. *)
Theorem load_config_globals (cfg : config_t) (g : globals_t) :
  let params := match cfg with Some (Some ps) => ps | _ => [] end in
  let before := match server_url g with
                | Some u => u
                | None => "ws://127.0.0.1:2700"%string
                end in
  let g' := snd (load_config cfg g) in
  (fst (load_config cfg g) = SWITCH_STATUS_FALSE <-> cfg = None)
  /\ (fst (load_config cfg g) = SWITCH_STATUS_SUCCESS <-> cfg <> None)
  /\ server_url g'
     = Some (match last_param "server-url" params with
             | Some v => v
             | None => before
             end)
  /\ return_json g'
     = match last_param "return-json" params with
       | Some v => atoi v
       | None => return_json g
       end
  /\ auto_reload g' = auto_reload g.
Proof.
  cbv zeta. unfold load_config.
  destruct cfg as [[ps |] |]; cbn [fst snd].
  - split; [split; [discriminate | discriminate] |].
    split; [split; [discriminate | reflexivity] |].
    pose proof (load_params_server_url ps g) as Hu.
    pose proof (load_params_return_json ps g) as Hr.
    pose proof (load_params_auto_reload ps g) as Ha.
    destruct (server_url (load_params ps g)) as [u |] eqn:E;
      cbn [server_url return_json auto_reload];
      destruct (last_param "server-url" ps);
      destruct (server_url g); rewrite ?E; try discriminate;
      repeat split; congruence.
  - split; [split; [discriminate | discriminate] |].
    split; [split; [discriminate | reflexivity] |].
    destruct (server_url g) eqn:E; cbn [server_url return_json auto_reload];
      rewrite ?E; repeat split.
  - split; [split; reflexivity |].
    split; [split; [discriminate | intros H; now elim H] |].
    destruct (server_url g) eqn:E; cbn [server_url return_json auto_reload];
      rewrite ?E; repeat split.
Qed.

(** X21. The module as loaded never reloads.  [mod_whisper_load] returns
    SUCCESS whatever became of the configuration file, and since nothing
    sets [auto_reload], which starts at zero, every later reload event
    leaves [globals] as the load left them, whatever the file holds by
    then. *)
Theorem reload_events_change_nothing
    (cfg : config_t) (later : list config_t) :
  let loaded := mod_whisper_load cfg zeroed_globals in
  fst loaded = SWITCH_STATUS_SUCCESS
  /\ fold_left (fun g c => event_handler c g) later (snd loaded)
     = snd loaded.
Proof.
  cbv zeta. split; [reflexivity |].
  assert (Ha : auto_reload (snd (mod_whisper_load cfg zeroed_globals)) = 0).
  { unfold mod_whisper_load, do_load. cbn [snd].
    now rewrite load_config_auto_reload. }
  revert Ha. generalize (snd (mod_whisper_load cfg zeroed_globals)).
  induction later as [| c later IH]; intros g Ha; [reflexivity |].
  cbn [fold_left]. unfold event_handler at 2. rewrite Ha. cbn [Z.eqb negb].
  now apply IH.
Qed.

(** ** [whisper_open] *)

(** X22. The outcome of [whisper_open], by what the host answers.  On a
    handle flagged CLOSED it returns FALSE and calls nothing.  Otherwise
    the status is MEMERR when the session or the audio buffer cannot be
    allocated, GENERR when the connection fails, and SUCCESS when all
    three go through.  The connection is attempted only once both
    allocations succeeded, and always to [dest] when one is given, to
    the configured server URL when not. *)
Theorem whisper_open_outcome
    (flags0 native_rate0 rate : Z) (dest : option string)
    (server_url : string) (now : Z) (w : world) :
  let r := whisper_open flags0 native_rate0 rate dest server_url now w in
  let session := hd false (w_alloc w) in
  let buffer := hd false (tl (w_alloc w)) in
  let connected := hd false (w_connect w) in
  let url := match dest with Some d => d | None => server_url end in
  (switch_test_flag flags0 SWITCH_ASR_FLAG_CLOSED = true ->
   r = (SWITCH_STATUS_FALSE, None, w))
  /\ (switch_test_flag flags0 SWITCH_ASR_FLAG_CLOSED = false ->
      fst (fst r)
      = (if negb session then SWITCH_STATUS_MEMERR
         else if negb buffer then SWITCH_STATUS_MEMERR
         else if negb connected then SWITCH_STATUS_GENERR
         else SWITCH_STATUS_SUCCESS)
      /\ filter is_transport
           (skipn (List.length (w_trace w)) (w_trace (snd r)))
         = (if session && buffer then [EvKwsConnect url] else []))%list.
Proof.
  cbv zeta. unfold whisper_open. split; intros Hc; rewrite Hc;
    [reflexivity |].
  destruct w as [al co va wr wa re tr].
  unfold whisper_reset. monad_simpl.
  destruct (hd false al); cbn [negb andb fst snd w_trace];
    [| rewrite skipn_all; split; reflexivity].
  destruct (hd false (tl al)); cbn [negb andb fst snd w_trace].
  - destruct (hd false co); cbn [negb fst snd w_trace];
      cbn [vad with_ws with_audio_buffer with_vad with_speech_timeout
           with_no_input_timeout with_start_input_timers with_voice_ms
           with_silence_ms with_thresh zeroed_context];
      monad_simpl; cbn [fst snd w_trace];
      rewrite <- ?app_assoc, skipn_app, skipn_all, Nat.sub_diag;
      split; reflexivity.
  - rewrite <- ?app_assoc, skipn_app, skipn_all, Nat.sub_diag.
    split; reflexivity.
Qed.

(** X23. A failed connection.  When both allocations succeed and the
    connection fails, [whisper_open] returns GENERR and leaves behind a
    handle whose session holds the detector and the audio buffer it
    created (neither is destroyed), has no socket, and was never reset:
    its flags are all clear, READY included. *)
Theorem whisper_open_connect_failure
    (flags0 native_rate0 rate : Z) (dest : option string)
    (server_url : string) (now : Z) (w : world) :
  switch_test_flag flags0 SWITCH_ASR_FLAG_CLOSED = false ->
  hd false (w_alloc w) = true ->
  hd false (tl (w_alloc w)) = true ->
  hd false (w_connect w) = false ->
  exists ah w',
    whisper_open flags0 native_rate0 rate dest server_url now w
    = (SWITCH_STATUS_GENERR, Some ah, w')
    /\ vad (private_info ah) = LIVE
    /\ audio_buffer (private_info ah) = Some []
    /\ ws (private_info ah) = NULL
    /\ flags (private_info ah) = 0
    /\ (forall e,
          In e (skipn (List.length (w_trace w)) (w_trace w')) ->
          e <> EvVadDestroy /\ (forall p, e <> EvBufferDestroy p)).
Proof.
  intros Hc Ha1 Ha2 Hco. unfold whisper_open. rewrite Hc.
  destruct w as [al co va wr wa re tr]. cbn [w_alloc w_connect] in *.
  monad_simpl. rewrite Ha1. cbn [negb]. rewrite Ha2. cbn [negb].
  rewrite Hco. cbn [negb].
  eexists _, _. split; [reflexivity |].
  cbn [private_info vad audio_buffer ws flags with_audio_buffer with_vad
       with_speech_timeout with_no_input_timeout with_start_input_timers
       with_voice_ms with_silence_ms with_thresh zeroed_context w_trace].
  repeat split; try reflexivity;
    rewrite <- ?app_assoc, skipn_app, skipn_all, Nat.sub_diag in H;
    cbn in H; intuition (subst; discriminate).
Qed.

End WhisperProps.

(** * Concrete runs *)

#[local] Existing Instance ref_host.

Example whisper_open_fresh_session :
  fst (whisper_open (host := ref_host) 0 8000 8000 None
         "ws://127.0.0.1:2700" 0 open_world)
  = (SWITCH_STATUS_SUCCESS, Some fresh_session).
Proof. reflexivity. Qed.

(** Closing a freshly opened session, twice. *)
Example whisper_close_fresh_session :
  let first := whisper_close fresh_session quiet_world in
  let second := whisper_close (snd (fst first)) (snd first) in
  fst (fst first) = SWITCH_STATUS_FALSE
  /\ vad (private_info (snd (fst first))) = LIVE
  /\ fst (fst second) = SWITCH_STATUS_FALSE
  /\ w_trace (snd second)
     = [EvMutexLock; EvKwsClose LIVE; EvKwsDestroy LIVE; EvBufferDestroy LIVE;
        EvMutexUnlock;
        EvMutexLock; EvKwsClose NULL; EvKwsDestroy NULL; EvBufferDestroy NULL;
        EvMutexUnlock].
Proof. vm_compute. repeat split. Qed.

(** ** Instances of the theorems *)

Lemma whisper_start_input_timers_idempotent_witness :
  ah_test_flag paused_session SWITCH_ASR_FLAG_CLOSED = false
  /\ whisper_start_input_timers
       (snd (whisper_start_input_timers paused_session 1000000)) 2000000
     = (SWITCH_STATUS_SUCCESS,
        snd (whisper_start_input_timers paused_session 1000000)).
Proof.
  split; [reflexivity |].
  exact (proj2 (proj2 (proj2
           (@whisper_start_input_timers_idempotent ref_host paused_session
              1000000 2000000 eq_refl)))).
Defined.

Lemma check_results_no_input_disabled_witness :
  no_input_timeout (private_info untimed_session) < 0
  /\ ctx_test_flag (private_info untimed_session) ASRFLAG_START_OF_SPEECH
     = false
  /\ snd (check_results_run untimed_session [6000000; 60000000; 3600000000])
     = untimed_session.
Proof.
  split; [reflexivity |]. split; [reflexivity |].
  exact (proj1
           (@check_results_no_input_disabled ref_host untimed_session
              [6000000; 60000000; 3600000000] eq_refl eq_refl)).
Defined.

Lemma partial_results_then_final_witness :
  ah_test_flag result_session SWITCH_ASR_FLAG_CLOSED = false
  /\ ctx_test_flag (private_info result_session) ASRFLAG_RETURNED_RESULT
     = false
  /\ ctx_test_flag (private_info result_session) ASRFLAG_RESULT = true
  /\ partial (private_info result_session) = Z.of_nat 3
  /\ Z.of_nat 3 < 2 ^ 31
  /\ fst (get_results_run result_session 3)
     = repeat SWITCH_STATUS_MORE_DATA 3.
Proof.
  repeat (split; [reflexivity |]).
  destruct (@partial_results_then_final ref_host result_session 3%nat
              eq_refl eq_refl eq_refl eq_refl eq_refl) as [Hfirst _].
  exact (proj1 (Hfirst 3%nat (le_n 3))).
Defined.

Lemma get_results_no_input_witness :
  ah_test_flag no_input_session SWITCH_ASR_FLAG_CLOSED = false
  /\ ctx_test_flag (private_info no_input_session) ASRFLAG_RETURNED_RESULT
     = false
  /\ ctx_test_flag (private_info no_input_session) ASRFLAG_NOINPUT_TIMEOUT
     = true
  /\ ctx_test_flag (private_info no_input_session) ASRFLAG_RESULT = false
  /\ fst (whisper_get_results no_input_session)
     = (SWITCH_STATUS_SUCCESS,
        Some (no_input_json (private_info no_input_session))).
Proof.
  repeat (split; [reflexivity |]).
  exact (f_equal fst
           (proj1 (@get_results_no_input ref_host no_input_session
                     eq_refl eq_refl eq_refl eq_refl))).
Defined.

Lemma feed_ping_answered_with_pong_witness :
  ah_test_flag talking_session SWITCH_ASR_FLAG_CLOSED = false
  /\ feed_prelude talking_session 5 ping_world
     = (Continue (private_info talking_session), ping_world)
  /\ ctx_test_flag (private_info talking_session) ASRFLAG_READY = true
  /\ hd SWITCH_VAD_STATE_NONE (w_vad ping_world) = SWITCH_VAD_STATE_TALKING
  /\ hd false (w_wait ping_world) = true
  /\ hd None (w_read ping_world) = Some (WSOC_PING, bytes "keepalive")
  /\ fst (fst (whisper_feed talking_session two_samples 5 ping_world))
     = SWITCH_STATUS_SUCCESS.
Proof.
  repeat (split; [reflexivity |]).
  refine (proj1
            (@feed_ping_answered_with_pong ref_host talking_session
               two_samples 5 ping_world ping_world
               (private_info talking_session) (bytes "keepalive")
               eq_refl eq_refl eq_refl eq_refl _ eq_refl eq_refl)).
  intros H. vm_compute in H. discriminate H.
Defined.

Lemma speech_timeout_handshake_witness :
  ah_test_flag talking_session SWITCH_ASR_FLAG_CLOSED = false
  /\ ctx_test_flag (private_info talking_session) ASRFLAG_START_OF_SPEECH
     = true
  /\ 0 < speech_timeout (private_info talking_session)
  /\ speech_timeout (private_info talking_session)
     <= elapsed_ms 10000000 (speech_time (private_info talking_session))
  /\ 0 <= hd (-1) (w_write answering_world)
  /\ hd false (w_wait answering_world) = true
  /\ hd None (w_read answering_world) = Some (WSOC_TEXT, bytes "hello")
  /\ fst (whisper_check_results talking_session 10000000)
     = SWITCH_STATUS_FALSE.
Proof.
  split; [reflexivity |]. split; [reflexivity |].
  split; [reflexivity |]. split; [discriminate |].
  split; [discriminate |]. split; [reflexivity |]. split; [reflexivity |].
  refine (proj1
            (@speech_timeout_handshake ref_host talking_session 10000000
               10020000 two_samples answering_world WSOC_TEXT (bytes "hello")
               eq_refl eq_refl eq_refl eq_refl eq_refl eq_refl eq_refl
               eq_refl _ _ eq_refl eq_refl));
    discriminate.
Defined.

Lemma returned_result_latched_witness :
  ctx_test_flag (private_info delivered_session) ASRFLAG_RETURNED_RESULT
  = true
  /\ no_auto_resume delivered_session
  /\ forallb (fun o => negb (zeroes_flags o)) calls_after_delivery = true
  /\ Forall turned_away
       (fst (fst (run_ops calls_after_delivery delivered_session quiet_world))).
Proof.
  split; [reflexivity |]. split; [left; reflexivity |].
  split; [reflexivity |].
  exact (proj2 (proj2 (proj2
           (@returned_result_latched ref_host delivered_session
              calls_after_delivery quiet_world 0
              eq_refl (or_introl eq_refl) eq_refl)))).
Defined.

(** ** Where the specification's wording fails *)

(** C2 as stated.  With partial results switched on (the parameter
    "partial" set to "true"), the speech timeout fires, the next feed
    carries out the handshake and the backend answers "hello"; the
    following [whisper_get_results] does not deliver a final result: its
    status is SWITCH_STATUS_MORE_DATA and RETURNED_RESULT stays clear. *)
Lemma speech_timeout_partial_counterexample :
  let checked := whisper_check_results partial_session 10000000 in
  let fed := whisper_feed (snd checked) two_samples 10020000 answering_world in
  let got := whisper_get_results (snd (fst fed)) in
  ctx_test_flag (private_info (snd checked)) ASRFLAG_TIMEOUT = true
  /\ fst (fst fed) = SWITCH_STATUS_SUCCESS
  /\ ctx_test_flag (private_info (snd (fst fed))) ASRFLAG_RESULT = true
  /\ fst (fst got) = SWITCH_STATUS_MORE_DATA
  /\ fst (fst got) <> SWITCH_STATUS_SUCCESS
  /\ ctx_test_flag (private_info (snd got)) ASRFLAG_RETURNED_RESULT = false.
Proof. vm_compute. repeat split. discriminate. Qed.

(** C3 as stated.  After an utterance whose transcript was "hello",
    [whisper_reset] leaves the result text "agent": the text is neither
    removed nor emptied. *)
Lemma whisper_reset_text_counterexample :
  let context := fst (whisper_reset (private_info result_session) 0 quiet_world) in
  result_text context = Some "agent"%string
  /\ result_text context <> None
  /\ result_text context <> Some EmptyString.
Proof. vm_compute. repeat split; discriminate. Qed.

(** C4 as stated.  The no-input outcome is fetched (RETURNED_RESULT is
    set), the session is paused, the input timers are started and six
    seconds pass: RETURNED_RESULT is clear again and a second successful
    payload is fetched, with no [whisper_reset] in between (the sequence
    has no resume and no feed). *)
Lemma returned_result_pause_counterexample :
  let fetched := whisper_get_results no_input_session in
  let paused := whisper_pause (snd fetched) in
  ctx_test_flag (private_info (snd fetched)) ASRFLAG_RETURNED_RESULT = true
  /\ fst paused = SWITCH_STATUS_SUCCESS
  /\ ctx_test_flag (private_info (snd paused)) ASRFLAG_RETURNED_RESULT = false
  /\ map (fun entry => snd (fst entry))
       (fst (fst (run_ops calls_with_pause no_input_session quiet_world)))
     = [SWITCH_STATUS_SUCCESS; SWITCH_STATUS_SUCCESS; SWITCH_STATUS_SUCCESS;
        SWITCH_STATUS_SUCCESS; SWITCH_STATUS_SUCCESS]
  /\ map (fun entry => snd entry)
       (fst (fst (run_ops calls_with_pause no_input_session quiet_world)))
     = [Some (no_input_json (private_info no_input_session)); None; None; None;
        Some (no_input_json (private_info no_input_session))].
Proof. vm_compute. repeat split. Qed.

(** C6 as stated.  Right after the no-input outcome was fetched the
    session is open, NOINPUT_TIMEOUT is set and RESULT is clear, and
    [whisper_get_results] fails without a payload. *)
Lemma no_input_fetched_again_counterexample :
  ah_test_flag delivered_session SWITCH_ASR_FLAG_CLOSED = false
  /\ ctx_test_flag (private_info delivered_session) ASRFLAG_NOINPUT_TIMEOUT
     = true
  /\ ctx_test_flag (private_info delivered_session) ASRFLAG_RESULT = false
  /\ whisper_get_results delivered_session
     = (SWITCH_STATUS_FALSE, None, delivered_session).
Proof. repeat split; reflexivity. Qed.

(** ** Instances of the further properties, on the reference host *)

Lemma closed_handle_fails_fast_witness :
  ah_test_flag closed_session SWITCH_ASR_FLAG_CLOSED = true
  /\ whisper_feed closed_session two_samples 0 answering_world
     = (SWITCH_STATUS_BREAK, closed_session, answering_world)
  /\ whisper_get_results closed_session
     = (SWITCH_STATUS_FALSE, None, closed_session).
Proof.
  pose proof (@closed_handle_fails_fast ref_host closed_session two_samples
                0 "yes|no" "g" answering_world eq_refl) as H.
  split; [reflexivity |].
  split; [exact (proj1 H) | exact (proj1 (proj2 (proj2 H)))].
Defined.

Lemma check_results_no_input_threshold_witness :
  whisper_check_results fresh_session 4999999
  = (SWITCH_STATUS_BREAK, fresh_session)
  /\ whisper_check_results fresh_session 5000000
     = (SWITCH_STATUS_SUCCESS,
        with_private_info fresh_session
          (ctx_set_flag (private_info fresh_session) ASRFLAG_NOINPUT_TIMEOUT)).
Proof.
  split.
  - exact (@check_results_no_input_threshold ref_host fresh_session 4999999
             eq_refl eq_refl eq_refl eq_refl eq_refl eq_refl).
  - exact (@check_results_no_input_threshold ref_host fresh_session 5000000
             eq_refl eq_refl eq_refl eq_refl eq_refl eq_refl).
Defined.

Lemma check_results_speech_timeout_disabled_witness :
  speech_timeout (private_info patient_session) <= 0
  /\ Forall (fun status => status <> SWITCH_STATUS_FALSE)
       (fst (check_results_run patient_session [20000000; 30000000])).
Proof.
  split; [discriminate |].
  exact (proj1 (@check_results_speech_timeout_disabled ref_host
                  patient_session [20000000; 30000000]
                  ltac:(discriminate))).
Defined.

Lemma paused_session_is_inert_witness :
  whisper_feed (snd (whisper_pause talking_session)) two_samples 0 ping_world
  = (SWITCH_STATUS_SUCCESS, snd (whisper_pause talking_session), ping_world).
Proof.
  exact (proj1 (proj2 (proj2 (proj2
           (@paused_session_is_inert ref_host talking_session two_samples 0
              ping_world eq_refl))))).
Defined.

Lemma partial_counter_not_rearmed_witness :
  partial (private_info result_session) = 3
  /\ fst (get_results_run result_session 4)
     = [SWITCH_STATUS_MORE_DATA; SWITCH_STATUS_MORE_DATA;
        SWITCH_STATUS_MORE_DATA; SWITCH_STATUS_SUCCESS]
  /\ partial (private_info (snd (get_results_run result_session 4))) = -1.
Proof.
  pose proof (@partial_counter_not_rearmed ref_host result_session 3 0
                quiet_world eq_refl eq_refl eq_refl eq_refl eq_refl) as H.
  split; [reflexivity |].
  split; [exact (proj1 H) | exact (proj1 (proj2 H))].
Defined.

Lemma feed_not_ready_is_ignored_witness :
  ctx_test_flag (private_info paused_session) ASRFLAG_READY = false
  /\ whisper_feed paused_session two_samples 0 ping_world
     = (SWITCH_STATUS_SUCCESS, paused_session, ping_world).
Proof.
  split; [reflexivity |].
  exact (@feed_not_ready_is_ignored ref_host paused_session two_samples 0
           ping_world eq_refl eq_refl eq_refl eq_refl).
Defined.

Lemma feed_auto_resumes_witness :
  ctx_test_flag (private_info auto_resume_session) ASRFLAG_RETURNED_RESULT
  = true
  /\ ah_test_flag auto_resume_session SWITCH_ASR_FLAG_AUTO_RESUME = true
  /\ ctx_test_flag
       (private_info
          (snd (fst (whisper_feed auto_resume_session two_samples 0
                       start_world))))
       ASRFLAG_RETURNED_RESULT
     = false.
Proof.
  split; [reflexivity |]. split; [reflexivity |].
  exact (proj1 (proj2
           (@feed_auto_resumes ref_host auto_resume_session two_samples 0
              start_world eq_refl eq_refl eq_refl))).
Defined.


Lemma feed_timeout_handshake_failure_witness :
  ctx_test_flag (private_info timed_out_session) ASRFLAG_TIMEOUT = true
  /\ handshake_ok quiet_world = false
  /\ fst (whisper_feed timed_out_session two_samples 10020000 quiet_world)
     = (SWITCH_STATUS_BREAK, timed_out_session).
Proof.
  split; [reflexivity |]. split; [reflexivity |].
  exact (proj1
           (@feed_timeout_handshake_failure ref_host timed_out_session
              two_samples 10020000 quiet_world eq_refl eq_refl eq_refl
              eq_refl)).
Defined.

Lemma feed_stop_talking_witness :
  handshake_ok stop_world = true
  /\ fst (fst (whisper_feed talking_session two_samples 0 stop_world))
     = SWITCH_STATUS_SUCCESS
  /\ result_text
       (private_info
          (snd (fst (whisper_feed talking_session two_samples 0 stop_world))))
     = Some "hello"%string.
Proof.
  pose proof (@feed_stop_talking ref_host talking_session two_samples 0
                stop_world stop_world (private_info talking_session)
                eq_refl eq_refl eq_refl eq_refl) as H.
  destruct H as (_ & _ & H & _). destruct (H eq_refl) as (Hs & Hc & _).
  split; [reflexivity |]. split; [exact Hs |].
  rewrite Hc. reflexivity.
Defined.


Lemma feed_interim_frame_witness :
  fst (fst (whisper_feed talking_session two_samples 0 interim_world))
  = SWITCH_STATUS_SUCCESS
  /\ result_text
       (private_info
          (snd (fst (whisper_feed talking_session two_samples 0
                       interim_world))))
     = Some "hel"%string.
Proof.
  pose proof (@feed_interim_frame ref_host talking_session two_samples 0
                interim_world interim_world (private_info talking_session)
                WSOC_TEXT (bytes "hel") eq_refl eq_refl eq_refl eq_refl
                ltac:(intros H; discriminate H) eq_refl eq_refl
                ltac:(discriminate)) as H.
  split; [exact (proj1 H) | exact (proj1 (proj2 H))].
Defined.

Lemma text_param_ignored_witness :
  whisper_text_param fresh_session "language" "en" quiet_world
  = (fresh_session, quiet_world)
  /\ whisper_text_param fresh_session "partial" "" quiet_world
     = (fresh_session, quiet_world).
Proof.
  split.
  - exact (@text_param_ignored ref_host fresh_session "language" "en"
             quiet_world (or_intror (or_intror eq_refl))).
  - exact (@text_param_ignored ref_host fresh_session "partial" ""
             quiet_world (or_intror (or_introl eq_refl))).
Defined.

Lemma text_param_timeouts_witness :
  whisper_text_param fresh_session "No-Input-Timeout" "3000" quiet_world
  = (with_private_info fresh_session
       (with_no_input_timeout (private_info fresh_session) 3000),
     quiet_world)
  /\ whisper_text_param fresh_session "SPEECH-TIMEOUT" "soon" quiet_world
     = (fresh_session, quiet_world).
Proof.
  split.
  - exact (proj1 (@text_param_timeouts ref_host fresh_session
                    "No-Input-Timeout" "3000" quiet_world eq_refl) eq_refl).
  - exact (proj2 (@text_param_timeouts ref_host fresh_session
                    "SPEECH-TIMEOUT" "soon" quiet_world eq_refl) eq_refl).
Defined.

Lemma text_param_switches_witness :
  whisper_text_param partial_session "Partial" "false" quiet_world
  = (partial_session, quiet_world)
  /\ partial (private_info partial_session) = 3
  /\ ctx_test_flag
       (private_info
          (fst (whisper_text_param fresh_session "start-input-timers" "false"
                  quiet_world)))
       ASRFLAG_INPUT_TIMERS
     = false.
Proof.
  split; [| split; [reflexivity |]].
  - exact (proj2 (@text_param_switches ref_host partial_session "Partial"
                    "false" quiet_world eq_refl) eq_refl).
  - exact (proj1 (proj2 (proj2
             (proj1 (@text_param_switches ref_host fresh_session
                       "start-input-timers" "false" quiet_world eq_refl)
                eq_refl)))).
Defined.

Lemma whisper_open_connect_failure_witness :
  exists ah w',
    whisper_open 0 8000 8000 None "ws://127.0.0.1:2700" 0 unreachable_world
    = (SWITCH_STATUS_GENERR, Some ah, w')
    /\ vad (private_info ah) = LIVE
    /\ audio_buffer (private_info ah) = Some []
    /\ ws (private_info ah) = NULL
    /\ flags (private_info ah) = 0.
Proof.
  destruct (@whisper_open_connect_failure ref_host 0 8000 8000 None
              "ws://127.0.0.1:2700" 0 unreachable_world eq_refl eq_refl
              eq_refl eq_refl)
    as (ah & w' & H1 & H2 & H3 & H4 & H5 & _).
  exists ah, w'. repeat split; assumption.
Defined.
